(** * import-issues.py: Trello cards to GitHub issues

    A shallow embedding of [src/import-issues.py] and the properties of its
    three layers: the request client [gh_request], the import record
    [Card] with its [state] property and [save] method, and the driver
    [main].

    The script is glue over four libraries.  They are modelled as follows.
    - [json]: documents are the inductive type [json]; [json_dumps] prints
      them with the separators and escapes of [json.dumps], [json_loads]
      reads JSON text back, and [json_loads_dumps] is the round trip.
      Numbers are integers and text is a string of 8-bit characters,
      taken as the code points below 256: a fraction, an exponent, [NaN],
      [Infinity] or an escape above [00ff] is JSON that the model has no
      value for, and [json_loads] answers [None] on it as on a text that
      is no JSON.  So [json_loads t = Some v] says that [json.load] reads
      [v], while [json_loads t = None] alone does not say that
      [json.load] raises; [no_json t = true] does (the text begins with
      no JSON value), and the theorems about a ValueError assume it.
    - [py.path]: the store is a finite map from paths ([strpath], POSIX)
      to file contents.  [path_join] is [join] with its normalisation.
      Directories are not tracked: [ensure_dir] changes nothing in the
      store and raises when a file stands where the directory or one of
      its parents has to be; a file is written as if its directory
      exists, which [main] has made sure of for a state file that lies
      in the state directory itself.  Permissions and directories that
      stand where a file is opened are outside the model.
    - [requests]: the remote side is an oracle [server] that answers every
      request, given the requests sent before it, with a response or with
      no response at all (requests raises).
    - [logging]: the log is the list of records handed to the loggers;
      [shown] gives those that [args.loglevel] lets through.
    [argparse] is not modelled, but for the table behind [--loglevel]
    ([LOG_LEVELS], [LogLevelAction]): [main] starts from the parsed [Args].
    Python exceptions are values of [exn]; every function of the script
    is a computation in the monad [M] over the store, the requests sent
    and the log, which ends in a result or in a raised exception. *)

From Stdlib Require Import ZArith Ascii String DecimalString DecimalZ DecimalN DecimalPos.
From stdpp Require Import gmap strings list.

(** ** Python values that come from JSON *)

#[local] Unset Elimination Schemes.
Inductive json : Type :=
  | JNull
  | JBool (b : bool)
  | JNum (n : Z)
  | JStr (s : string)
  | JArr (items : list json)
  | JObj (members : list (string * json)).
#[local] Set Elimination Schemes.

(** The dict of a JSON object is kept as its member list.  The value of a
    key is that of its last member, as [json.loads] resolves a repeated
    name. *)
Fixpoint dict_get (k : string) (d : list (string * json)) : option json :=
  match d with
  | [] => None
  | (k', v) :: d' =>
      match dict_get k d' with
      | Some x => Some x
      | None => if String.eqb k k' then Some v else None
      end
  end.

Definition dict_has (k : string) (d : list (string * json)) : bool :=
  match dict_get k d with Some _ => true | None => false end.

Fixpoint dict_replace (k : string) (v : json) (d : list (string * json))
  : list (string * json) :=
  match d with
  | [] => []
  | (k', v') :: d' =>
      (k', if String.eqb k k' then v else v') :: dict_replace k v d'
  end.

(** [d[k] = v]: a present key keeps its place, a new key goes last. *)
Definition dict_set (k : string) (v : json) (d : list (string * json))
  : list (string * json) :=
  if dict_has k d then dict_replace k v d else d ++ [(k, v)].

(** Number of keys of a dict. *)
Fixpoint dict_len (d : list (string * json)) : nat :=
  match d with
  | [] => 0
  | (k, _) :: d' => if dict_has k d' then dict_len d' else S (dict_len d')
  end.

(** The keys of a dict, each once, in the order of first appearance. *)
Fixpoint dict_keys (d : list (string * json)) (seen : list string) : list string :=
  match d with
  | [] => []
  | (k, _) :: d' =>
      if existsb (String.eqb k) seen then dict_keys d' seen
      else k :: dict_keys d' (k :: seen)
  end.

(** Truth value of an object in a condition ([if state:], [if data:]). *)
Definition truthy (v : json) : bool :=
  match v with
  | JNull => false
  | JBool b => b
  | JNum n => negb (n =? 0)%Z
  | JStr s => negb (String.eqb s "")
  | JArr items => match items with [] => false | _ => true end
  | JObj members => match members with [] => false | _ => true end
  end.

(** ** Text: substring test, [str] and [repr] *)

(** [sub in s] for two strings. *)
Fixpoint str_contains (sub s : string) : bool :=
  String.prefix sub s ||
  match s with
  | EmptyString => false
  | String _ s' => str_contains sub s'
  end.

(** Decimal text of an integer ([str(n)], [%d]). *)
Definition str_of_Z (n : Z) : string :=
  let digits := NilZero.string_of_uint (N.to_uint (Z.abs_N n)) in
  if (n <? 0)%Z then String "-" digits else digits.

Definition hex_digit (n : N) : ascii :=
  if (n <? 10)%N then ascii_of_N (48 + n) else ascii_of_N (87 + n).

(** Code points that [repr] prints as they are (Latin-1 range). *)
Definition printable (c : ascii) : bool :=
  let n := N_of_ascii c in
  ((32 <=? n)%N && (n <? 127)%N) || ((161 <=? n)%N && negb (n =? 173)%N).

Definition repr_char (quote : ascii) (c : ascii) : string :=
  if Ascii.eqb c "\" then "\\"
  else if Ascii.eqb c quote then String "\" (String quote "")
  else if Ascii.eqb c "010" then "\n"
  else if Ascii.eqb c "013" then "\r"
  else if Ascii.eqb c "009" then "\t"
  else if printable c then String c ""
  else
    let n := N_of_ascii c in
    String "\" (String "x" (String (hex_digit (n / 16)) (String (hex_digit (n mod 16)) ""))).

Fixpoint repr_chars (quote : ascii) (s : string) : string :=
  match s with
  | EmptyString => ""
  | String c s' => repr_char quote c +:+ repr_chars quote s'
  end.

(** The double quote character. *)
Definition dquote : ascii := "034"%char.

(** [repr] of a string: single quotes, unless the text has a single quote
    and no double quote. *)
Definition repr_str (s : string) : string :=
  let quote : ascii :=
    if str_contains "'" s && negb (str_contains (String dquote "") s)
    then dquote else "'"%char in
  String quote (repr_chars quote s +:+ String quote "").

Fixpoint py_repr (v : json) : string :=
  match v with
  | JNull => "None"
  | JBool true => "True"
  | JBool false => "False"
  | JNum n => str_of_Z n
  | JStr s => repr_str s
  | JArr items =>
      "[" +:+
      (fix go (l : list json) : string :=
         match l with
         | [] => ""
         | [x] => py_repr x
         | x :: l' => py_repr x +:+ ", " +:+ go l'
         end) items +:+ "]"
  | JObj members =>
      "{" +:+
      (fix go (l : list (string * json)) : string :=
         match l with
         | [] => ""
         | [(k, x)] => repr_str k +:+ ": " +:+ py_repr x
         | (k, x) :: l' => repr_str k +:+ ": " +:+ py_repr x +:+ ", " +:+ go l'
         end) members +:+ "}"
  end.

(** [str(v)], what [%s] prints. *)
Definition py_str (v : json) : string :=
  match v with
  | JStr s => s
  | _ => py_repr v
  end.

(** [str] of a tuple. *)
Definition repr_tuple (elems : list json) : string :=
  match elems with
  | [] => "()"
  | [x] => "(" +:+ py_repr x +:+ ",)"
  | x :: l =>
      "(" +:+ py_repr x +:+
      fold_right (fun y acc => ", " +:+ py_repr y +:+ acc) ")" l
  end.

(** ** The json module: [json.dumps] and [json.loads] *)

(** A character outside space..tilde is written as a u-escape. *)
Definition dump_char (c : ascii) : string :=
  let n := N_of_ascii c in
  if Ascii.eqb c dquote then String "\" (String dquote "")
  else if Ascii.eqb c "\" then "\\"
  else if Ascii.eqb c "010" then "\n"
  else if Ascii.eqb c "013" then "\r"
  else if Ascii.eqb c "009" then "\t"
  else if Ascii.eqb c "008" then "\b"
  else if Ascii.eqb c "012" then "\f"
  else if (32 <=? n)%N && (n <? 127)%N then String c ""
  else String "\" (String "u" (String "0" (String "0"
         (String (hex_digit (n / 16)) (String (hex_digit (n mod 16)) ""))))).

Fixpoint dump_chars (s : string) : string :=
  match s with
  | EmptyString => ""
  | String c s' => dump_char c +:+ dump_chars s'
  end.

Definition dump_str (s : string) : string :=
  String dquote (dump_chars s +:+ String dquote "").

Fixpoint json_dumps (v : json) : string :=
  match v with
  | JNull => "null"
  | JBool true => "true"
  | JBool false => "false"
  | JNum n => str_of_Z n
  | JStr s => dump_str s
  | JArr items =>
      match items with
      | [] => "[]"
      | x :: l =>
          "[" +:+ json_dumps x +:+
          (fix rest (l : list json) : string :=
             match l with
             | [] => "]"
             | y :: l' => ", " +:+ json_dumps y +:+ rest l'
             end) l
      end
  | JObj members =>
      match members with
      | [] => "{}"
      | (k, x) :: l =>
          "{" +:+ dump_str k +:+ ": " +:+ json_dumps x +:+
          (fix rest (l : list (string * json)) : string :=
             match l with
             | [] => "}"
             | (k', y) :: l' => ", " +:+ dump_str k' +:+ ": " +:+ json_dumps y +:+ rest l'
             end) l
      end
  end.

Definition is_ws (c : ascii) : bool :=
  Ascii.eqb c " " || Ascii.eqb c "009" || Ascii.eqb c "010" || Ascii.eqb c "013".

Fixpoint skip_ws (s : string) : string :=
  match s with
  | EmptyString => ""
  | String c s' => if is_ws c then skip_ws s' else s
  end.

Definition is_digit (c : ascii) : bool :=
  let n := N_of_ascii c in (48 <=? n)%N && (n <=? 57)%N.

(** The longest run of digits at the head of a text, and what follows. *)
Fixpoint span_digits (s : string) : string * string :=
  match s with
  | EmptyString => (EmptyString, EmptyString)
  | String c s' =>
      if is_digit c then
        let '(d, r) := span_digits s' in (String c d, r)
      else (EmptyString, s)
  end.

(** An integer literal: an optional minus sign and digits with no leading
    zero. *)
Definition load_number (s : string) : option (Z * string) :=
  let '(neg, s1) :=
    match s with
    | String c s' => if Ascii.eqb c "-" then (true, s') else (false, s)
    | EmptyString => (false, s)
    end in
  let '(ds, rest) := span_digits s1 in
  match NilZero.uint_of_string ds with
  | Some d =>
      let n := N.of_uint d in
      if String.eqb (NilZero.string_of_uint (N.to_uint n)) ds
      then Some (if neg then (- Z.of_N n)%Z else Z.of_N n, rest)
      else None
  | None => None
  end.

Definition hex_val (c : ascii) : option N :=
  let n := N_of_ascii c in
  if (48 <=? n)%N && (n <=? 57)%N then Some (n - 48)%N
  else if (97 <=? n)%N && (n <=? 102)%N then Some (n - 87)%N
  else if (65 <=? n)%N && (n <=? 70)%N then Some (n - 55)%N
  else None.

Definition hex4 (a b c d : ascii) : option N :=
  match hex_val a, hex_val b, hex_val c, hex_val d with
  | Some x, Some y, Some z, Some t => Some (((x * 16 + y) * 16 + z) * 16 + t)%N
  | _, _, _, _ => None
  end.

Definition unescape (e : ascii) : option ascii :=
  if Ascii.eqb e dquote then Some dquote
  else if Ascii.eqb e "\" then Some "\"%char
  else if Ascii.eqb e "/" then Some "/"%char
  else if Ascii.eqb e "n" then Some "010"%char
  else if Ascii.eqb e "r" then Some "013"%char
  else if Ascii.eqb e "t" then Some "009"%char
  else if Ascii.eqb e "b" then Some "008"%char
  else if Ascii.eqb e "f" then Some "012"%char
  else None.

(** The characters of a string literal, after its opening quote, up to the
    closing quote. *)
Fixpoint load_chars (s : string) : option (string * string) :=
  match s with
  | EmptyString => None
  | String c s' =>
      if Ascii.eqb c dquote then Some (EmptyString, s')
      else if Ascii.eqb c "\" then
        match s' with
        | EmptyString => None
        | String e s'' =>
            if Ascii.eqb e "u" then
              match s'' with
              | String h1 (String h2 (String h3 (String h4 r))) =>
                  match hex4 h1 h2 h3 h4 with
                  | Some n =>
                      if (n <? 256)%N then
                        match load_chars r with
                        | Some (t, rest) => Some (String (ascii_of_N n) t, rest)
                        | None => None
                        end
                      else None
                  | None => None
                  end
              | _ => None
              end
            else
              match unescape e with
              | Some ch =>
                  match load_chars s'' with
                  | Some (t, rest) => Some (String ch t, rest)
                  | None => None
                  end
              | None => None
              end
        end
      else if (N_of_ascii c <? 32)%N then None
      else
        match load_chars s' with
        | Some (t, rest) => Some (String c t, rest)
        | None => None
        end
  end.

Fixpoint strip_prefix (p s : string) : option string :=
  match p with
  | EmptyString => Some s
  | String a p' =>
      match s with
      | EmptyString => None
      | String b s' => if Ascii.eqb a b then strip_prefix p' s' else None
      end
  end.

(** A quoted string at the head of a text. *)
Definition load_str (s : string) : option (string * string) :=
  match s with
  | String c r => if Ascii.eqb c dquote then load_chars r else None
  | EmptyString => None
  end.

(** The recursive-descent reader; [fuel] bounds the nesting and the number
    of elements, and the length of the text is always enough of it. *)
Fixpoint load_value (fuel : nat) (s : string) : option (json * string) :=
  match fuel with
  | O => None
  | S fuel' =>
      match skip_ws s with
      | EmptyString => None
      | String c r =>
          if Ascii.eqb c "n" then
            match strip_prefix "ull" r with Some r' => Some (JNull, r') | None => None end
          else if Ascii.eqb c "t" then
            match strip_prefix "rue" r with Some r' => Some (JBool true, r') | None => None end
          else if Ascii.eqb c "f" then
            match strip_prefix "alse" r with Some r' => Some (JBool false, r') | None => None end
          else if Ascii.eqb c dquote then
            match load_chars r with Some (t, r') => Some (JStr t, r') | None => None end
          else if Ascii.eqb c "[" then
            match skip_ws r with
            | EmptyString => None
            | String c' r' =>
                if Ascii.eqb c' "]" then Some (JArr [], r')
                else
                  match load_items fuel' r with
                  | Some (l, r'') => Some (JArr l, r'')
                  | None => None
                  end
            end
          else if Ascii.eqb c "{" then
            match skip_ws r with
            | EmptyString => None
            | String c' r' =>
                if Ascii.eqb c' "}" then Some (JObj [], r')
                else
                  match load_members fuel' r with
                  | Some (l, r'') => Some (JObj l, r'')
                  | None => None
                  end
            end
          else
            match load_number (String c r) with
            | Some (n, r') => Some (JNum n, r')
            | None => None
            end
      end
  end
with load_items (fuel : nat) (s : string) : option (list json * string) :=
  match fuel with
  | O => None
  | S fuel' =>
      match load_value fuel' s with
      | Some (v, r) =>
          match skip_ws r with
          | EmptyString => None
          | String c r' =>
              if Ascii.eqb c "," then
                match load_items fuel' r' with
                | Some (l, r'') => Some (v :: l, r'')
                | None => None
                end
              else if Ascii.eqb c "]" then Some ([v], r')
              else None
          end
      | None => None
      end
  end
with load_members (fuel : nat) (s : string) : option (list (string * json) * string) :=
  match fuel with
  | O => None
  | S fuel' =>
      match load_str (skip_ws s) with
      | Some (k, r0) =>
          match skip_ws r0 with
          | EmptyString => None
          | String c0 r1 =>
              if Ascii.eqb c0 ":" then
                match load_value fuel' r1 with
                | Some (v, r) =>
                    match skip_ws r with
                    | EmptyString => None
                    | String c r' =>
                        if Ascii.eqb c "," then
                          match load_members fuel' r' with
                          | Some (l, r'') => Some ((k, v) :: l, r'')
                          | None => None
                          end
                        else if Ascii.eqb c "}" then Some ([(k, v)], r')
                        else None
                    end
                | None => None
                end
              else None
          end
      | None => None
      end
  end.

(** [json.loads]: one document, with nothing but blanks after it. *)
Definition json_loads (s : string) : option json :=
  match load_value (String.length s) s with
  | Some (v, rest) =>
      match skip_ws rest with
      | EmptyString => Some v
      | String _ _ => None
      end
  | None => None
  end.

(** What the scanner of [json] can read a value from: a quote, a bracket,
    a brace, one of the literals, or the first digit of a number. *)
Definition begins_value (s : string) : bool :=
  match s with
  | EmptyString => false
  | String c r =>
      Ascii.eqb c dquote || Ascii.eqb c "[" || Ascii.eqb c "{" ||
      String.prefix "null" s || String.prefix "true" s || String.prefix "false" s ||
      String.prefix "NaN" s || String.prefix "Infinity" s ||
      String.prefix "-Infinity" s ||
      is_digit c ||
      (Ascii.eqb c "-" && match r with String d _ => is_digit d | EmptyString => false end)
  end.

(** A text that is no JSON whatever follows: after the blanks at its head
    there is nothing, or something no value begins with.  [json.load] and
    [Response.json] raise on it ("Expecting value", a ValueError). *)
Definition no_json (txt : string) : bool := negb (begins_value (skip_ws txt)).

(** ** Exceptions, results and the state of a run *)

Inductive exn : Type :=
  | AttributeError
  | KeyError
  | TypeError
  | ValueError
  | ENOENT                      (* py.error.ENOENT *)
  | EEXIST                      (* py.error.EEXIST *)
  | RequestException            (* raised by requests: no response *)
  | SystemExit (code : Z).

Inductive outcome (A : Type) : Type :=
  | Ok (a : A)
  | Raise (e : exn).
Arguments Ok {A} a.
Arguments Raise {A} e.

(** [requests.get], [requests.post], [requests.patch]. *)
Inductive verb : Type := GET | POST | PATCH.

(** A call [req_fn(req_url, auth=(user, password), data=data)]. *)
Record request : Type := {
  rq_verb : verb;
  rq_url : string;
  rq_auth : string * string;
  rq_data : json
}.

Record response : Type := {
  status_code : Z;
  reason : string;
  text : string
}.

Inductive reply : Type :=
  | Reply (r : response)
  | NoReply.

Inductive level : Type := DEBUG | INFO | WARNING | ERROR | CRITICAL.

(** A record handed to the logging module: logger name, level, message.
    Which of them the handler shows ([args.loglevel]) is not modelled. *)
Record log_record : Type := {
  lg_name : string;
  lg_level : level;
  lg_msg : string
}.

Record world : Type := {
  files : gmap string string;
  sent : list request;
  logged : list log_record
}.

Definition M (A : Type) : Type := world -> outcome A * world.

Definition ret {A} (a : A) : M A := fun w => (Ok a, w).

Definition raise {A} (e : exn) : M A := fun w => (Raise e, w).

Definition bind {A B} (m : M A) (k : A -> M B) : M B :=
  fun w =>
    match m w with
    | (Ok a, w') => k a w'
    | (Raise e, w') => (Raise e, w')
    end.

Definition lift {A} (o : outcome A) : M A := fun w => (o, w).

(** [try: m except ...: h]; [handler e = None] when no clause matches [e]. *)
Definition try_except {A} (m : M A) (handler : exn -> option (M A)) : M A :=
  fun w =>
    match m w with
    | (Ok a, w') => (Ok a, w')
    | (Raise e, w') =>
        match handler e with
        | Some h => h w'
        | None => (Raise e, w')
        end
    end.

Declare Scope py_scope.
Delimit Scope py_scope with py.
Notation "x <- m ;; k" := (bind m (fun x => k))
  (at level 100, m at next level, right associativity) : py_scope.
#[local] Open Scope py_scope.

(** ** Operations on Python objects *)

(** [v[key]] for a string key. *)
Definition getitem (v : json) (key : string) : outcome json :=
  match v with
  | JObj d => match dict_get key d with Some x => Ok x | None => Raise KeyError end
  | _ => Raise TypeError
  end.

(** [v[key] = x] for a string key. *)
Definition setitem (v : json) (key : string) (x : json) : outcome json :=
  match v with
  | JObj d => Ok (JObj (dict_set key x d))
  | _ => Raise TypeError
  end.

(** [v.get(key, default)]: only a dict has the method. *)
Definition py_get (v : json) (key : string) (default : json) : outcome json :=
  match v with
  | JObj d => match dict_get key d with Some x => Ok x | None => Ok default end
  | _ => Raise AttributeError
  end.

(** [len(v)]. *)
Definition py_len (v : json) : outcome nat :=
  match v with
  | JArr l => Ok (length l)
  | JObj d => Ok (dict_len d)
  | JStr s => Ok (String.length s)
  | _ => Raise TypeError
  end.

Fixpoint str_chars (s : string) : list json :=
  match s with
  | EmptyString => []
  | String c s' => JStr (String c EmptyString) :: str_chars s'
  end.

(** The objects a [for] loop draws from [v]. *)
Definition py_iter (v : json) : outcome (list json) :=
  match v with
  | JArr l => Ok l
  | JObj d => Ok (map JStr (dict_keys d []))
  | JStr s => Ok (str_chars s)
  | _ => Raise TypeError
  end.

(** What [gh_request] gets as [path]: an object read from JSON (a string
    among them) or a tuple. *)
Inductive pyobj : Type :=
  | Val (v : json)
  | Tuple (elems : list json).

Definition is_str (needle : string) (x : json) : bool :=
  match x with
  | JStr t => String.eqb needle t
  | _ => false
  end.

(** [needle in p] for a string [needle]. *)
Definition py_in (needle : string) (p : pyobj) : outcome bool :=
  match p with
  | Val (JStr s) => Ok (str_contains needle s)
  | Val (JArr l) => Ok (existsb (is_str needle) l)
  | Val (JObj d) => Ok (dict_has needle d)
  | Val _ => Raise TypeError
  | Tuple l => Ok (existsb (is_str needle) l)
  end.

Definition str_obj (p : pyobj) : string :=
  match p with
  | Val v => py_str v
  | Tuple l => repr_tuple l
  end.

(** ** Files, log and network *)

(** [p.open()] then reading the handle. *)
Definition open_read (p : string) : M string :=
  fun w =>
    match files w !! p with
    | Some txt => (Ok txt, w)
    | None => (Raise ENOENT, w)
    end.

(** [p.open('w')] then writing [txt] to the handle.  The directory of
    [p] is taken to exist: directories are not part of the store. *)
Definition open_write (p : string) (txt : string) : M unit :=
  fun w =>
    (Ok tt, {| files := <[p := txt]> (files w); sent := sent w; logged := logged w |}).

(** [json.load(handle)] on the text of a file, [req.json()] on a body.
    Both raise a ValueError on a text that is no JSON; the model does
    so whenever it has no value for the text. *)
Definition json_load (txt : string) : M json :=
  match json_loads txt with
  | Some v => ret v
  | None => raise ValueError
  end.

Definition log (name : string) (lv : level) (msg : string) : M unit :=
  fun w =>
    (Ok tt, {| files := files w; sent := sent w;
               logged := logged w ++ [{| lg_name := name; lg_level := lv; lg_msg := msg |}] |}).

(** ** Paths (POSIX) *)

(** [s.split('/')] *)
Fixpoint split_sep (s : string) : list string :=
  match s with
  | EmptyString => [EmptyString]
  | String c s' =>
      if Ascii.eqb c "/" then EmptyString :: split_sep s'
      else
        match split_sep s' with
        | x :: l => String c x :: l
        | [] => [String c EmptyString]
        end
  end.

(** ['/'.join(comps)] *)
Fixpoint join_sep (comps : list string) : string :=
  match comps with
  | [] => ""
  | [x] => x
  | x :: l => x +:+ "/" +:+ join_sep l
  end.

(** The loop of [posixpath.normpath] over the components; [acc] is
    [new_comps], last component first. *)
Definition norm_step (rooted : bool) (acc : list string) (comp : string) : list string :=
  if String.eqb comp "" || String.eqb comp "." then acc
  else if negb (String.eqb comp "..")
          || (negb rooted && match acc with [] => true | _ => false end)
          || match acc with x :: _ => String.eqb x ".." | [] => false end
       then comp :: acc
       else tl acc.

(** [posixpath.normpath] *)
Definition normpath (path : string) : string :=
  if String.eqb path "" then "."
  else
    let slashes :=
      if String.prefix "//" path && negb (String.prefix "///" path) then "//"
      else if String.prefix "/" path then "/"
      else "" in
    let rooted := negb (String.eqb slashes "") in
    let comps := rev (fold_left (norm_step rooted) (split_sep path) []) in
    let p := slashes +:+ join_sep comps in
    if String.eqb p "" then "." else p.

Fixpoint lstrip_sep (s : string) : string :=
  match s with
  | EmptyString => EmptyString
  | String c s' => if Ascii.eqb c "/" then lstrip_sep s' else s
  end.

(** [arg.strip('/')] *)
Definition strip_sep (s : string) : string :=
  String.rev (lstrip_sep (String.rev (lstrip_sep s))).

(** [strpath.endswith('/')] *)
Definition ends_with_sep (s : string) : bool :=
  match String.rev s with
  | String c _ => Ascii.eqb c "/"
  | EmptyString => false
  end.

(** [py.path.local.join] with one argument, on the text of the path
    ([strpath]): the argument loses the separators at its ends, is put
    after a separator, and the whole is normalised. *)
Definition path_join (dir name : string) : string :=
  normpath (dir +:+ (if ends_with_sep dir then "" else "/") +:+ strip_sep name).

(** The parents of a path: its prefixes that end before a separator. *)
Fixpoint parents (before p : string) : list string :=
  match p with
  | EmptyString => []
  | String c p' =>
      (if Ascii.eqb c "/" && negb (String.eqb before "") then [before] else [])
      ++ parents (before +:+ String c EmptyString) p'
  end.

(** A file stands where the directory [p], or one of its parents, has to
    be. *)
Definition blocked (fs : gmap string string) (p : string) : bool :=
  existsb (fun q => match fs !! q with Some _ => true | None => false end)
          (p :: parents "" p).

(** [Response.ok]: the status is no client or server error. *)
Definition resp_ok (r : response) : bool :=
  negb ((400 <=? status_code r)%Z && (status_code r <? 600)%Z).

(** [p.ensure_dir()]: makes the directory and the parents it lacks.  It
    raises when a file stands where one of them has to be: [mkdir]
    fails with EEXIST and the path is still no directory. *)
Definition ensure_dir (p : string) : M unit :=
  fun w => if blocked (files w) p then (Raise EEXIST, w) else (Ok tt, w).

(** ** The script *)

(** The namespace [parser.parse_args()] returns.  [statedir] is [None]
    when the option is not given. *)
Record Args : Type := {
  loglevel : level;
  statedir : option string;
  githubroot : string;
  trello_json : string;
  github_owner : string;
  github_repo : string;
  github_user : string;
  github_password : string
}.

Record Card : Type := {
  card_data : json;
  state_file : option string;
  card_args : Args
}.

(** What [gh_request] returns: [False] or the response. *)
Inductive pyresp : Type :=
  | RFalse
  | RResp (r : response).

(** Truth value of the result; a response is true when it is [ok]. *)
Definition resp_truthy (r : pyresp) : bool :=
  match r with
  | RFalse => false
  | RResp r => resp_ok r
  end.

(** Where a loop body leaves the loop: it ran to its end, or it returned
    from the enclosing function. *)
Inductive flow : Type := Next | Return.

Fixpoint for_each {A} (body : A -> M flow) (xs : list A) : M flow :=
  match xs with
  | [] => ret Next
  | x :: xs' =>
      f <- body x ;;
      match f with
      | Return => ret Return
      | Next => for_each body xs'
      end
  end.

(** ["HTTP error %d: %s" % (req.status_code, req.reason)] *)
Definition http_error (r : response) : string :=
  "HTTP error " +:+ str_of_Z (status_code r) +:+ ": " +:+ reason r.

(** ['repos/%s/%s/issues' % (owner, repo)] *)
Definition issues_path (args : Args) : string :=
  "repos/" +:+ github_owner args +:+ "/" +:+ github_repo args +:+ "/issues".

Section Script.

(** The remote side: the answer to a request, given the requests sent
    before it. *)
Variable server : list request -> request -> reply.

(** [req_fn(req_url, auth=..., data=data)] *)
Definition send (rq : request) : M response :=
  fun w =>
    let w' := {| files := files w; sent := sent w ++ [rq]; logged := logged w |} in
    match server (sent w) rq with
    | Reply r => (Ok r, w')
    | NoReply => (Raise RequestException, w')
    end.

(** [Card.__init__] *)
Definition Card_init (card_data : json) (args : Args) : M Card :=
  match statedir args with
  | Some dir =>
      id <- lift (getitem card_data "id") ;;
      ret {| card_data := card_data;
             state_file := Some (path_join dir (py_str id +:+ ".json"));
             card_args := args |}
  | None =>
      ret {| card_data := card_data; state_file := None; card_args := args |}
  end.

(** The property [Card.state]. *)
Definition Card_state (card : Card) : M json :=
  try_except
    (match state_file card with
     | None => raise AttributeError          (* None has no open *)
     | Some p => txt <- open_read p ;; json_load txt
     end)
    (fun e => match e with ENOENT => Some (ret JNull) | _ => None end).

(** [gh_request(path, args, data=None, req_fn=None)]; [data] is [JNull]
    for [None].  The serialized payload is the string [JStr (json_dumps
    data)]; requests makes the url a text with [str]. *)
Definition gh_request (path : pyobj) (args : Args) (data : json)
    (req_fn : option verb) : M pyresp :=
  let fn_data :=
    if truthy data then
      (match req_fn with None => POST | Some f => f end, JStr (json_dumps data))
    else
      (match req_fn with None => GET | Some f => f end, data) in
  absent <- lift (match py_in "://" path with
                  | Ok b => Ok (negb b)
                  | Raise e => Raise e
                  end) ;;
  let req_url :=
    if absent : bool then githubroot args +:+ "/" +:+ str_obj path
    else str_obj path in
  req <- send {| rq_verb := fst fn_data; rq_url := req_url;
                 rq_auth := (github_user args, github_password args);
                 rq_data := snd fn_data |} ;;
  if negb (resp_ok req) then
    message <- try_except
                 (data <- json_load (text req) ;;
                  lift (py_get data "message" (JStr (http_error req))))
                 (fun e => match e with
                           | ValueError => Some (ret (JStr (http_error req)))
                           | _ => None
                           end) ;;
    _ <- log "github" ERROR (py_str message) ;;
    ret RFalse
  else ret (RResp req).

(** [Card.save] *)
Definition save (card : Card) : M bool :=
  state <- Card_state card ;;
  choice <- (if truthy state then
               url <- lift (getitem state "url") ;;
               ret (Some PATCH, Val url, state)
             else
               ret (None, Tuple [JStr (issues_path (card_args card))], JObj [])) ;;
  let req_fn := fst (fst choice) in
  let req_url := snd (fst choice) in
  let state := snd choice in
  name <- lift (getitem (card_data card) "name") ;;
  state <- lift (setitem state "title" name) ;;
  desc <- lift (getitem (card_data card) "desc") ;;
  state <- lift (setitem state "body" desc) ;;
  req <- gh_request req_url (card_args card) state req_fn ;;
  if negb (resp_truthy req) then ret false
  else
    match req with
    | RFalse => ret false
    | RResp r =>
        data <- json_load (text r) ;;
        url <- lift (getitem data "url") ;;
        state <- lift (setitem state "url" url) ;;
        _ <- (match state_file card with
              | None => raise AttributeError        (* None has no open *)
              | Some p => open_write p (json_dumps state)
              end) ;;
        ret true
    end.

(** The body of the loop of [main]. *)
Definition import_card (args : Args) (card_data : json) : M flow :=
  name <- lift (getitem card_data "name") ;;
  _ <- log "cards import" DEBUG ("Card " +:+ py_str name) ;;
  card <- Card_init card_data args ;;
  ok <- save card ;;
  ret Return.

(** [sys.exit(code)] *)
Definition sys_exit {A} (code : Z) : M A := raise (SystemExit code).

(** [main], after [parser.parse_args()] has returned [args]. *)
Definition main (args : Args) : M unit :=
  txt <- open_read (trello_json args) ;;
  trello_data <- json_load txt ;;
  name <- lift (py_get trello_data "name" (JStr "Unknown Trello name")) ;;
  url <- lift (py_get trello_data "url" (JStr "Unknown URL")) ;;
  _ <- log "root" INFO ("Importing from " +:+ py_str name +:+ " (" +:+ py_str url +:+ ")") ;;
  _ <- (match statedir args with
        | Some dir =>
            _ <- ensure_dir dir ;;
            log "root" DEBUG "Saving state"
        | None => ret tt
        end) ;;
  cards <- lift (getitem trello_data "cards") ;;
  n <- lift (py_len cards) ;;
  _ <- log "cards import" INFO ("Importing " +:+ str_of_Z (Z.of_nat n) +:+ " cards") ;;
  req <- gh_request (Val (JStr "user")) args JNull None ;;
  if negb (resp_truthy req) then sys_exit 1
  else
    match req with
    | RFalse => sys_exit 1
    | RResp r =>
        user <- json_load (text r) ;;
        uname <- lift (py_get user "name" (JStr "unknown user name")) ;;
        _ <- log "root" INFO ("Importing as GitHub user " +:+ py_str uname) ;;
        cards <- lift (getitem trello_data "cards") ;;
        items <- lift (py_iter cards) ;;
        _ <- for_each (import_card args) items ;;
        ret tt
    end.

(** The exit status of the process: 0 when [main] returns, the argument
    of [sys.exit], and 1 for an exception nobody caught. *)
Definition exit_status (o : outcome unit) : Z :=
  match o with
  | Ok _ => 0
  | Raise (SystemExit code) => code
  | Raise _ => 1
  end.

End Script.

(** ** Definitions used by the proofs *)

(** The first part of [Card.save], lines 82 to 95: the verb, the target
    and the payload it hands to [gh_request]. *)
Definition save_request (card : Card) : M (option verb * pyobj * json) :=
  state <- Card_state card ;;
  choice <- (if truthy state then
               url <- lift (getitem state "url") ;;
               ret (Some PATCH, Val url, state)
             else
               ret (None, Tuple [JStr (issues_path (card_args card))], JObj [])) ;;
  let req_fn := fst (fst choice) in
  let req_url := snd (fst choice) in
  let state := snd choice in
  name <- lift (getitem (card_data card) "name") ;;
  state <- lift (setitem state "title" name) ;;
  desc <- lift (getitem (card_data card) "desc") ;;
  state <- lift (setitem state "body" desc) ;;
  ret (req_fn, req_url, state).

(** The last part of [Card.save], lines 101 to 110: what it does with the
    result of [gh_request]. *)
Definition save_result (card : Card) (state : json) (req : pyresp) : M bool :=
  if negb (resp_truthy req) then ret false
  else
    match req with
    | RFalse => ret false
    | RResp r =>
        data <- json_load (text r) ;;
        url <- lift (getitem data "url") ;;
        state <- lift (setitem state "url" url) ;;
        _ <- (match state_file card with
              | None => raise AttributeError
              | Some p => open_write p (json_dumps state)
              end) ;;
        ret true
    end.

(** The text after a number must not go on with a digit. *)
Definition no_digit_ahead (rest : string) : bool :=
  match rest with
  | EmptyString => true
  | String c _ => negb (is_digit c)
  end.

Fixpoint json_size (v : json) : nat :=
  match v with
  | JArr l =>
      S ((fix go (l : list json) : nat :=
            match l with
            | [] => 0
            | x :: l' => S (json_size x + go l')
            end) l)
  | JObj d =>
      S ((fix go (d : list (string * json)) : nat :=
            match d with
            | [] => 0
            | (_, x) :: d' => S (json_size x + go d')
            end) d)
  | _ => 1
  end.

Fixpoint items_size (l : list json) : nat :=
  match l with
  | [] => 0
  | x :: l' => S (json_size x + items_size l')
  end.

Fixpoint members_size (d : list (string * json)) : nat :=
  match d with
  | [] => 0
  | (_, x) :: d' => S (json_size x + members_size d')
  end.

Fixpoint dump_items (l : list json) : string :=
  match l with
  | [] => "]"
  | y :: l' => ", " +:+ json_dumps y +:+ dump_items l'
  end.

Fixpoint dump_members (l : list (string * json)) : string :=
  match l with
  | [] => "}"
  | (k, y) :: l' => ", " +:+ dump_str k +:+ ": " +:+ json_dumps y +:+ dump_members l'
  end.

(** What a printed document starts with. *)
Definition opens_value (s : string) : Prop :=
  exists c t, s = String c t /\ is_ws c = false /\ Ascii.eqb c "]" = false.

Definition reads_back (v : json) : Prop :=
  forall fuel rest,
    json_size v <= fuel -> no_digit_ahead rest = true ->
    load_value fuel (json_dumps v +:+ rest) = Some (v, rest).

(** ** Sample data *)

Definition sample_args : Args := {|
  loglevel := INFO;
  statedir := Some "state";
  githubroot := "https://api.github.com";
  trello_json := "board.json";
  github_owner := "hubspot";
  github_repo := "demo";
  github_user := "me";
  github_password := "secret"
|}.

Definition sample_args_no_statedir : Args := {|
  loglevel := INFO;
  statedir := None;
  githubroot := "https://api.github.com";
  trello_json := "board.json";
  github_owner := "hubspot";
  github_repo := "demo";
  github_user := "me";
  github_password := "secret"
|}.

Definition sample_card_data : json :=
  JObj [("id", JStr "c1"); ("name", JStr "Fix login"); ("desc", JStr "Steps")].

Definition sample_card : Card := {|
  card_data := sample_card_data;
  state_file := Some "state/c1.json";
  card_args := sample_args
|}.

Definition empty_world : world := {| files := ∅; sent := []; logged := [] |}.

Definition issue_url : string := "https://api.github.com/repos/hubspot/demo/issues/7".

Definition created : response := {|
  status_code := 201;
  reason := "Created";
  text := json_dumps (JObj [("url", JStr issue_url)])
|}.

Definition server_created : list request -> request -> reply :=
  fun _ _ => Reply created.

Definition server_error (body : string) : list request -> request -> reply :=
  fun _ _ => Reply {| status_code := 500; reason := "Internal Server Error"; text := body |}.

Definition unauthorized : response := {|
  status_code := 401;
  reason := "Unauthorized";
  text := json_dumps (JObj [("message", JStr "Bad credentials")])
|}.

Definition server_unauthorized : list request -> request -> reply :=
  fun _ _ => Reply unauthorized.

(** The store after a first import of the sample card. *)
Definition stored_world : world := {|
  files := {[ "state/c1.json"%string :=
                json_dumps (JObj [("title", JStr "Old title"); ("body", JStr "Old text");
                                  ("url", JStr issue_url)]) ]};
  sent := [];
  logged := []
|}.

(** A store with an export of two cards. *)
Definition board_world : world := {|
  files := {[ "board.json"%string :=
                json_dumps
                  (JObj [("name", JStr "Roadmap");
                         ("cards",
                          JArr [sample_card_data;
                                JObj [("id", JStr "c2"); ("name", JStr "Docs");
                                      ("desc", JStr "Write them")]])]) ]};
  sent := [];
  logged := []
|}.

(** The request that checks the credentials. *)
Definition user_request (args : Args) : request := {|
  rq_verb := GET;
  rq_url := githubroot args +:+ "/user";
  rq_auth := (github_user args, github_password args);
  rq_data := JNull
|}.

(** A parsed body has no [message] member. *)
Definition no_message (v : json) : Prop :=
  forall d, v = JObj d -> dict_get "message" d = None.

(** The error record of the request client. *)
Definition github_error (msg : string) : log_record :=
  {| lg_name := "github"; lg_level := ERROR; lg_msg := msg |}.

(** ** Log levels and the command line *)

(** [logging.DEBUG] ... [logging.CRITICAL] *)
Definition level_no (lv : level) : Z :=
  match lv with
  | DEBUG => 10
  | INFO => 20
  | WARNING => 30
  | ERROR => 40
  | CRITICAL => 50
  end.

(** [logging.getLevelName(level)] for the five levels. *)
Definition getLevelName (lv : level) : string :=
  match lv with
  | DEBUG => "DEBUG"
  | INFO => "INFO"
  | WARNING => "WARNING"
  | ERROR => "ERROR"
  | CRITICAL => "CRITICAL"
  end.

(** The dict [LOG_LEVELS], from level names to levels. *)
Definition LOG_LEVELS : list (string * level) :=
  map (fun lv => (getLevelName lv, lv)) [DEBUG; INFO; WARNING; ERROR; CRITICAL].

Fixpoint levels_get (k : string) (d : list (string * level)) : option level :=
  match d with
  | [] => None
  | (k', lv) :: d' => if String.eqb k k' then Some lv else levels_get k d'
  end.

(** [LogLevelAction.__call__]: the value stored in [namespace.loglevel]. *)
Definition LogLevelAction (value : string) : outcome level :=
  match levels_get value LOG_LEVELS with
  | Some lv => Ok lv
  | None => Raise KeyError
  end.

(** The records that reach standard error: [logging.basicConfig] sets the
    level of the root logger to [args.loglevel], and the loggers of the
    script have no level of their own. *)
Definition shown (args : Args) (records : list log_record) : list log_record :=
  List.filter (fun r => (level_no (loglevel args) <=? level_no (lg_level r))%Z) records.

(** The credentials every request is sent with. *)
Definition credentials (args : Args) : string * string :=
  (github_user args, github_password args).

(** The levels the script logs at. *)
Definition script_level (lv : level) : bool :=
  match lv with
  | DEBUG | INFO | ERROR => true
  | WARNING | CRITICAL => false
  end.

(** From [w] to [w'] the log only grew, by records at those levels. *)
Definition logs_more (w w' : world) : Prop :=
  exists l, logged w' = logged w ++ l /\
            Forall (fun r => script_level (lg_level r) = true) l.

(** From [w] to [w'] one file at most was written. *)
Definition wrote_one (w w' : world) : Prop :=
  files w' = files w \/ exists p txt, files w' = <[p := txt]> (files w).

(** A request that creates or updates an issue with the credentials. *)
Definition card_request (args : Args) (rq : request) : Prop :=
  rq_auth rq = credentials args /\ (rq_verb rq = POST \/ rq_verb rq = PATCH).

(** ** More sample data *)

(** A store whose only file is the state file of the sample card. *)
Definition state_world (txt : string) : world :=
  {| files := {[ "state/c1.json"%string := txt ]}; sent := []; logged := [] |}.

(** A store whose only file is the export [doc]. *)
Definition export_world (doc : json) : world :=
  {| files := {[ "board.json"%string := json_dumps doc ]}; sent := []; logged := [] |}.

(** A store whose only file is the export, holding [txt]. *)
Definition raw_export_world (txt : string) : world :=
  {| files := {[ "board.json"%string := txt ]}; sent := []; logged := [] |}.

(** A remote side that answers every request with [r]. *)
Definition server_answer (r : response) : list request -> request -> reply :=
  fun _ _ => Reply r.

(** A remote side that never answers. *)
Definition server_silent : list request -> request -> reply :=
  fun _ _ => NoReply.

Definition redirect : response :=
  {| status_code := 302; reason := "Found"; text := "" |}.

Definition ok_without_url : response :=
  {| status_code := 200; reason := "OK"; text := "{}" |}.

Definition card_without_name : Card := {|
  card_data := JObj [("id", JStr "c1")];
  state_file := Some "state/c1.json";
  card_args := sample_args
|}.

Definition record_without_id : json :=
  JObj [("name", JStr "Fix login"); ("desc", JStr "Steps")].

(** The request [save] sends for the sample card when it has no state. *)
Definition sample_create_request : request := {|
  rq_verb := POST;
  rq_url := githubroot sample_args +:+ "/" +:+ repr_tuple [JStr (issues_path sample_args)];
  rq_auth := (github_user sample_args, github_password sample_args);
  rq_data := JStr (json_dumps (JObj [("title", JStr "Fix login"); ("body", JStr "Steps")]))
|}.

(** The state of an issue that carries a member the script does not set. *)
Definition numbered_state : list (string * json) :=
  [("url", JStr issue_url); ("number", JNum 7)].

(** * Properties *)

(** ** The model on small inputs *)

Example repr_of_path_tuple :
  repr_tuple [JStr "repos/o/r/issues"] = "('repos/o/r/issues',)"%string.
Proof. reflexivity. Qed.

Example repr_nested :
  py_repr (JObj [("a", JArr [JNum 1; JNull]); ("b", JStr "it's")])
  = ("{'a': [1, None], 'b': " +:+ String dquote ("it's" +:+ String dquote "}"))%string.
Proof. reflexivity. Qed.

Example separator_in_tuple : py_in "://" (Tuple [JStr "repos/o/r/issues"]) = Ok false.
Proof. reflexivity. Qed.

Example separator_in_url : py_in "://" (Val (JStr issue_url)) = Ok true.
Proof. reflexivity. Qed.

Example separator_in_number : py_in "://" (Val (JNum 7)) = Raise TypeError.
Proof. reflexivity. Qed.

Example loads_blanks : json_loads " [1, -20 , [ ] ,{ } , null] "
                       = Some (JArr [JNum 1; JNum (-20); JArr []; JObj []; JNull]).
Proof. vm_compute. reflexivity. Qed.

Example loads_leading_zero : json_loads "01" = None.
Proof. vm_compute. reflexivity. Qed.

Example loads_trailing_comma : json_loads "[1,]" = None.
Proof. vm_compute. reflexivity. Qed.

Example loads_html : json_loads "<html>" = None.
Proof. vm_compute. reflexivity. Qed.

Example dumps_escapes :
  json_dumps (JStr (String "009" (String "\" "x")))
  = String dquote (String "\" (String "t" (String "\" (String "\" (String "x"
      (String dquote EmptyString)))))).
Proof. reflexivity. Qed.

Example last_member_wins :
  dict_get "a" [("a", JNum 1); ("b", JNum 2); ("a", JNum 3)] = Some (JNum 3).
Proof. reflexivity. Qed.

Example set_keeps_place :
  dict_set "a" (JNum 9) [("a", JNum 1); ("b", JNum 2)] = [("a", JNum 9); ("b", JNum 2)].
Proof. reflexivity. Qed.

Example set_appends :
  dict_set "c" (JNum 9) [("a", JNum 1); ("b", JNum 2)]
  = [("a", JNum 1); ("b", JNum 2); ("c", JNum 9)].
Proof. reflexivity. Qed.

(** A first import of the sample card, then a second one. *)
Example import_twice :
  let run := (_ <- save server_created sample_card ;; save server_created sample_card) in
  fst (run empty_world) = Ok true /\
  map rq_verb (sent (snd (run empty_world))) = [POST; PATCH] /\
  map rq_url (sent (snd (run empty_world)))
  = ["https://api.github.com/('repos/hubspot/demo/issues',)"%string; issue_url] /\
  files (snd (run empty_world)) !! "state/c1.json"
  = Some (json_dumps (JObj [("title", JStr "Fix login"); ("body", JStr "Steps");
                            ("url", JStr issue_url)])).
Proof. vm_compute. repeat split; reflexivity. Qed.

Example join_plain_name : path_join "/work/state" "c1.json" = "/work/state/c1.json"%string.
Proof. reflexivity. Qed.

Example join_normalises :
  path_join "/work/state" "../other.json" = "/work/other.json"%string /\
  path_join "/work/state" "/a//b/./c.json" = "/work/state/a/b/c.json"%string /\
  path_join "/" "c1.json" = "/c1.json"%string.
Proof. repeat split; reflexivity. Qed.

Example parents_of_path :
  parents "" "/work/state/sub" = ["/work"; "/work/state"]%string.
Proof. reflexivity. Qed.

Example file_in_the_way :
  blocked {[ "/work/state"%string := "x"%string ]} "/work/state/sub" = true /\
  blocked {[ "/work/state/c1.json"%string := "x"%string ]} "/work/state" = false.
Proof. split; vm_compute; reflexivity. Qed.

Example no_json_texts :
  no_json "" = true /\ no_json "<html>" = true /\ no_json "Not Found" = true /\
  no_json " -x" = true /\ no_json "1.5" = false /\ no_json "{" = false /\
  no_json "NaN" = false.
Proof. repeat split; reflexivity. Qed.

(** A state directory that is a file stops the run before any request. *)
Example run_with_blocked_statedir :
  let w := {| files := {[ "board.json"%string := json_dumps (JObj [("cards", JArr [])]);
                          "state"%string := "x"%string ]};
              sent := []; logged := [] |} in
  main server_created sample_args w =
  (Raise EEXIST,
   {| files := files w; sent := [];
      logged := [{| lg_name := "root"; lg_level := INFO;
                    lg_msg := "Importing from Unknown Trello name (Unknown URL)" |}] |}).
Proof. vm_compute. reflexivity. Qed.

(** The whole run on an export of two cards. *)
Example run_on_board :
  fst (main server_created sample_args board_world) = Ok tt /\
  map rq_verb (sent (snd (main server_created sample_args board_world))) = [GET; POST] /\
  map lg_msg (logged (snd (main server_created sample_args board_world)))
  = ["Importing from Roadmap (Unknown URL)"; "Saving state"; "Importing 2 cards";
     "Importing as GitHub user unknown user name"; "Card Fix login"]%string.
Proof. vm_compute. repeat split; reflexivity. Qed.

(** ** Text lemmas *)

Lemma append_cons (x : ascii) (a b : string) :
  String x a +:+ b = String x (a +:+ b).
Proof. reflexivity. Qed.

Lemma append_nil (b : string) : EmptyString +:+ b = b.
Proof. reflexivity. Qed.

Lemma append_assoc (a b c : string) : (a +:+ b) +:+ c = a +:+ (b +:+ c).
Proof.
  induction a as [|x a IH]; [reflexivity|].
  rewrite !append_cons. f_equal. exact IH.
Qed.

Lemma length_append (a b : string) :
  String.length (a +:+ b) = String.length a + String.length b.
Proof.
  induction a as [|x a IH]; [reflexivity|].
  rewrite append_cons. simpl. f_equal. exact IH.
Qed.

(** ** Strings round-trip *)

Lemma load_chars_dump_char (c : ascii) (tail : string) :
  load_chars (dump_char c +:+ tail) =
  match load_chars tail with
  | Some (t, rest) => Some (String c t, rest)
  | None => None
  end.
Proof.
  destruct c as [[] [] [] [] [] [] [] []]; reflexivity.
Qed.

Lemma load_chars_dump (s rest : string) :
  load_chars (dump_chars s +:+ String dquote rest) = Some (s, rest).
Proof.
  induction s as [|c s IH]; [reflexivity|].
  cbn [dump_chars]. rewrite append_assoc, load_chars_dump_char, IH. reflexivity.
Qed.

Lemma load_str_dump (s rest : string) :
  load_str (dump_str s +:+ rest) = Some (s, rest).
Proof.
  unfold dump_str. rewrite append_cons, append_assoc, append_cons, append_nil.
  apply load_chars_dump.
Qed.

(** ** Integers round-trip *)

Lemma span_digits_uint (d : Decimal.uint) (rest : string) :
  no_digit_ahead rest = true ->
  span_digits (NilEmpty.string_of_uint d +:+ rest)
  = (NilEmpty.string_of_uint d, rest).
Proof.
  intros Hrest.
  induction d as [|d IH|d IH|d IH|d IH|d IH|d IH|d IH|d IH|d IH|d IH];
    cbn [NilEmpty.string_of_uint];
    try (rewrite append_cons; cbn [span_digits]; rewrite IH; reflexivity).
  rewrite append_nil. destruct rest as [|c rest]; [reflexivity|].
  cbn [span_digits]. cbn in Hrest.
  destruct (is_digit c); [discriminate | reflexivity].
Qed.

Lemma to_uint_nonnil (m : N) : N.to_uint m <> Decimal.Nil.
Proof.
  destruct m as [|p]; [discriminate|]. apply Unsigned.to_uint_nonnil.
Qed.

Lemma string_of_uint_nonnil (d : Decimal.uint) :
  d <> Decimal.Nil -> NilZero.string_of_uint d = NilEmpty.string_of_uint d.
Proof. destruct d; [congruence | reflexivity ..]. Qed.

(** The decimal text of a natural number starts with a digit. *)
Lemma digits_head (m : N) :
  exists c t, NilZero.string_of_uint (N.to_uint m) = String c t /\ is_digit c = true.
Proof.
  pose proof (to_uint_nonnil m) as Hm.
  rewrite (string_of_uint_nonnil _ Hm).
  destruct (N.to_uint m); [congruence | ..]; cbn [NilEmpty.string_of_uint];
    eexists _, _; (split; [reflexivity | reflexivity]).
Qed.

Lemma load_digits (m : N) (rest : string) :
  no_digit_ahead rest = true ->
  let ds := NilZero.string_of_uint (N.to_uint m) in
  span_digits (ds +:+ rest) = (ds, rest) /\
  NilZero.uint_of_string ds = Some (N.to_uint m).
Proof.
  intros Hrest ds. subst ds. split.
  - rewrite (string_of_uint_nonnil _ (to_uint_nonnil m)).
    now apply span_digits_uint.
  - apply NilZero.usu, to_uint_nonnil.
Qed.

Lemma load_number_dump (n : Z) (rest : string) :
  no_digit_ahead rest = true ->
  load_number (str_of_Z n +:+ rest) = Some (n, rest).
Proof.
  intros Hrest. unfold str_of_Z, load_number.
  destruct (load_digits (Z.abs_N n) rest Hrest) as [Hspan Huint].
  destruct (digits_head (Z.abs_N n)) as (c & t & Hct & Hc).
  destruct (Z.ltb_spec n 0) as [Hneg | Hpos].
  - rewrite append_cons. change (Ascii.eqb "-" "-") with true. cbn iota.
    rewrite Hspan, Huint, DecimalN.Unsigned.of_to, String.eqb_refl.
    do 2 f_equal. lia.
  - rewrite Hct in *. rewrite append_cons.
    assert (Ascii.eqb c "-" = false) as ->.
    { destruct (Ascii.eqb_spec c "-") as [->|]; [discriminate Hc | reflexivity]. }
    rewrite <- append_cons, Hspan, Huint, DecimalN.Unsigned.of_to.
    rewrite Hct, String.eqb_refl. do 2 f_equal. lia.
Qed.

(** ** Documents round-trip *)

Lemma json_size_arr (l : list json) : json_size (JArr l) = S (items_size l).
Proof. reflexivity. Qed.

Lemma json_size_obj (d : list (string * json)) : json_size (JObj d) = S (members_size d).
Proof. reflexivity. Qed.

Lemma json_dumps_arr (x : json) (l : list json) :
  json_dumps (JArr (x :: l)) = "[" +:+ json_dumps x +:+ dump_items l.
Proof. reflexivity. Qed.

Lemma json_dumps_obj (k : string) (x : json) (l : list (string * json)) :
  json_dumps (JObj ((k, x) :: l))
  = "{" +:+ dump_str k +:+ ": " +:+ json_dumps x +:+ dump_members l.
Proof. reflexivity. Qed.

(** Induction over documents, with the property for every element of an
    array and every value of an object. *)
Lemma json_ind (P : json -> Prop) :
  P JNull ->
  (forall b, P (JBool b)) ->
  (forall n, P (JNum n)) ->
  (forall s, P (JStr s)) ->
  (forall l, Forall P l -> P (JArr l)) ->
  (forall d, Forall (fun kv => P (snd kv)) d -> P (JObj d)) ->
  forall v, P v.
Proof.
  intros Hnull Hbool Hnum Hstr Harr Hobj.
  fix IH 1. intros [ | b | n | s | l | d].
  - exact Hnull.
  - apply Hbool.
  - apply Hnum.
  - apply Hstr.
  - apply Harr. induction l as [|x l IHl]; constructor; [apply IH | exact IHl].
  - apply Hobj. induction d as [|[k x] d IHd]; constructor; [apply IH | exact IHd].
Qed.

Lemma load_value_blank (fuel : nat) (s : string) :
  load_value fuel (String " " s) = load_value fuel s.
Proof. destruct fuel; reflexivity. Qed.

Lemma load_items_blank (fuel : nat) (s : string) :
  load_items fuel (String " " s) = load_items fuel s.
Proof. destruct fuel; [reflexivity|]. cbn [load_items]. now rewrite load_value_blank. Qed.

(** A text that starts with a digit or a minus sign is read as a number. *)
Lemma load_value_number (fuel : nat) (c : ascii) (r : string) :
  is_digit c || Ascii.eqb c "-" = true ->
  load_value (S fuel) (String c r) =
  match load_number (String c r) with
  | Some (n, r') => Some (JNum n, r')
  | None => None
  end.
Proof.
  destruct c as [[] [] [] [] [] [] [] []]; intros H; try discriminate H; reflexivity.
Qed.

Lemma str_of_Z_head (n : Z) :
  exists c t, str_of_Z n = String c t /\ (is_digit c || Ascii.eqb c "-" = true).
Proof.
  unfold str_of_Z. destruct (n <? 0)%Z.
  - eexists _, _. split; reflexivity.
  - destruct (digits_head (Z.abs_N n)) as (c & t & -> & Hc).
    exists c, t. split; [reflexivity|]. now rewrite Hc.
Qed.

Lemma json_dumps_head (v : json) : opens_value (json_dumps v).
Proof.
  destruct v as [ | [] | n | s | [|x l] | [|[k x] d]];
    try (eexists _, _; split; [reflexivity | split; reflexivity]).
  destruct (str_of_Z_head n) as (c & t & Hct & Hc).
  exists c, t. split; [exact Hct|].
  destruct c as [[] [] [] [] [] [] [] []]; try discriminate Hc; split; reflexivity.
Qed.

Lemma load_items_dump (l : list json) :
  Forall reads_back l ->
  forall x fuel rest,
    reads_back x ->
    S (json_size x + items_size l) <= fuel ->
    load_items fuel (json_dumps x +:+ dump_items l +:+ rest) = Some (x :: l, rest).
Proof.
  induction 1 as [|y l Hy Hl IH]; intros x fuel rest Hx Hfuel;
    (destruct fuel as [|fuel]; [lia|]); cbn [load_items].
  - rewrite Hx; [|cbn [items_size] in Hfuel; lia | reflexivity]. reflexivity.
  - cbn [items_size] in Hfuel.
    rewrite Hx; [|lia | reflexivity].
    cbn [dump_items]. rewrite !append_cons, append_nil. cbn [skip_ws].
    change (is_ws ",") with false. cbn iota.
    change (Ascii.eqb "," ",") with true. cbn iota.
    rewrite load_items_blank, append_assoc, IH; [reflexivity | exact Hy | lia].
Qed.

Ltac text_norm :=
  repeat (rewrite append_assoc || rewrite append_cons || rewrite append_nil).

Tactic Notation "text_norm" "in" hyp(H) :=
  repeat (rewrite append_assoc in H || rewrite append_cons in H
          || rewrite append_nil in H).

Lemma skip_ws_dump_str (k rest : string) :
  skip_ws (dump_str k +:+ rest) = dump_str k +:+ rest.
Proof. reflexivity. Qed.

Lemma load_members_blank (fuel : nat) (s : string) :
  load_members fuel (String " " s) = load_members fuel s.
Proof. destruct fuel; reflexivity. Qed.

Lemma load_members_dump (d : list (string * json)) :
  Forall (fun kv => reads_back (snd kv)) d ->
  forall k x fuel rest,
    reads_back x ->
    S (json_size x + members_size d) <= fuel ->
    load_members fuel
      (dump_str k +:+ ": " +:+ json_dumps x +:+ dump_members d +:+ rest)
    = Some ((k, x) :: d, rest).
Proof.
  induction 1 as [|[k' y] d Hy Hd IH]; intros k x fuel rest Hx Hfuel;
    (destruct fuel as [|fuel]; [lia|]); cbn [load_members];
    rewrite skip_ws_dump_str, load_str_dump;
    rewrite !append_cons, append_nil; cbn [skip_ws];
    change (is_ws ":") with false; cbn iota;
    change (Ascii.eqb ":" ":") with true; cbn iota;
    rewrite load_value_blank.
  - rewrite Hx; [|cbn [members_size] in Hfuel; lia | reflexivity]. reflexivity.
  - cbn [members_size] in Hfuel. cbn [snd] in Hy.
    rewrite Hx; [|lia | reflexivity].
    cbn [dump_members]. rewrite !append_cons, append_nil. cbn [skip_ws].
    change (is_ws ",") with false. cbn iota.
    change (Ascii.eqb "," ",") with true. cbn iota.
    rewrite load_members_blank.
    pose proof (IH k' y fuel rest Hy ltac:(lia)) as Hm.
    text_norm in Hm. text_norm. now rewrite Hm.
Qed.

Lemma load_value_dump (v : json) : reads_back v.
Proof.
  induction v as [ | b | n | s | l IHl | d IHd] using json_ind;
    intros fuel rest Hfuel Hrest;
    (destruct fuel as [|fuel]; [cbn in Hfuel; lia|]).
  - reflexivity.
  - destruct b; reflexivity.
  - destruct (str_of_Z_head n) as (c & t & Hct & Hc).
    pose proof (load_number_dump n rest Hrest) as Hnum.
    change (json_dumps (JNum n)) with (str_of_Z n).
    rewrite Hct, append_cons in *.
    rewrite (load_value_number _ _ _ Hc), Hnum. reflexivity.
  - change (json_dumps (JStr s)) with (dump_str s).
    unfold dump_str. rewrite append_cons, append_assoc, append_cons, append_nil.
    cbn [load_value skip_ws]. change (is_ws dquote) with false. cbn iota.
    change (Ascii.eqb dquote "n") with false.
    change (Ascii.eqb dquote "t") with false.
    change (Ascii.eqb dquote "f") with false.
    change (Ascii.eqb dquote dquote) with true. cbn iota.
    now rewrite load_chars_dump.
  - destruct IHl as [|x l Hx Hl]; [reflexivity|].
    rewrite json_size_arr in Hfuel. cbn [items_size] in Hfuel.
    rewrite json_dumps_arr. text_norm.
    destruct (json_dumps_head x) as (c & t & Hct & Hws & Hclose).
    cbn [load_value skip_ws]. change (is_ws "[") with false. cbn iota.
    change (Ascii.eqb "[" "n") with false.
    change (Ascii.eqb "[" "t") with false.
    change (Ascii.eqb "[" "f") with false.
    change (Ascii.eqb "[" dquote) with false.
    change (Ascii.eqb "[" "[") with true. cbn iota.
    pose proof (load_items_dump l Hl x fuel rest Hx ltac:(lia)) as Hi.
    text_norm in Hi. rewrite Hi.
    rewrite Hct, append_cons. cbn [skip_ws]. rewrite Hws, Hclose. reflexivity.
  - destruct IHd as [|[k x] d Hx Hd]; [reflexivity|].
    rewrite json_size_obj in Hfuel. cbn [members_size] in Hfuel. cbn [snd] in Hx.
    rewrite json_dumps_obj. text_norm.
    cbn [load_value skip_ws]. change (is_ws "{") with false. cbn iota.
    change (Ascii.eqb "{" "n") with false.
    change (Ascii.eqb "{" "t") with false.
    change (Ascii.eqb "{" "f") with false.
    change (Ascii.eqb "{" dquote) with false.
    change (Ascii.eqb "{" "[") with false.
    change (Ascii.eqb "{" "{") with true. cbn iota.
    pose proof (load_members_dump d Hd k x fuel rest Hx ltac:(lia)) as Hm.
    text_norm in Hm. rewrite Hm.
    unfold dump_str. rewrite append_cons. cbn [skip_ws].
    change (is_ws dquote) with false. cbn iota.
    change (Ascii.eqb dquote "}") with false. reflexivity.
Qed.

Lemma append_empty (a : string) : a +:+ EmptyString = a.
Proof.
  induction a as [|x a IH]; [reflexivity|]. rewrite append_cons. now f_equal.
Qed.

Lemma dump_items_length (l : list json) :
  Forall (fun v => json_size v <= String.length (json_dumps v)) l ->
  S (items_size l) <= String.length (dump_items l).
Proof.
  induction 1 as [|y l Hy Hl IH]; cbn [items_size dump_items].
  - cbn. lia.
  - rewrite !length_append. cbn [String.length]. lia.
Qed.

Lemma dump_members_length (d : list (string * json)) :
  Forall (fun kv => json_size (snd kv) <= String.length (json_dumps (snd kv))) d ->
  S (members_size d) <= String.length (dump_members d).
Proof.
  induction 1 as [|[k y] d Hy Hd IH]; cbn [members_size dump_members].
  - cbn. lia.
  - cbn [snd] in Hy. rewrite !length_append. cbn [String.length]. lia.
Qed.

(** The length of a printed document is fuel enough to read it. *)
Lemma json_size_length (v : json) : json_size v <= String.length (json_dumps v).
Proof.
  induction v as [ | b | n | s | l IHl | d IHd] using json_ind.
  - cbn. lia.
  - destruct b; cbn; lia.
  - change (json_dumps (JNum n)) with (str_of_Z n).
    destruct (str_of_Z_head n) as (c & t & -> & _). cbn. lia.
  - cbn. lia.
  - destruct IHl as [|x l Hx Hl]; [cbn; lia|].
    rewrite json_size_arr, json_dumps_arr, !length_append.
    pose proof (dump_items_length l Hl). cbn [items_size String.length]. lia.
  - destruct IHd as [|[k x] d Hx Hd]; [cbn; lia|].
    rewrite json_size_obj, json_dumps_obj, !length_append.
    pose proof (dump_members_length d Hd). cbn [snd] in Hx.
    cbn [members_size String.length]. lia.
Qed.

(** [json.loads(json.dumps(v)) == v] *)
Lemma json_loads_dumps (v : json) : json_loads (json_dumps v) = Some v.
Proof.
  unfold json_loads.
  pose proof (load_value_dump v (String.length (json_dumps v)) EmptyString
                (json_size_length v) eq_refl) as H.
  rewrite append_empty in H. rewrite H. reflexivity.
Qed.

Lemma prefix_strip (p s : string) :
  String.prefix p s = false -> strip_prefix p s = None.
Proof.
  revert s. induction p as [|a p IH]; intros [|b s]; cbn; try discriminate; try reflexivity.
  destruct (ascii_dec a b) as [->|Hne].
  - rewrite Ascii.eqb_refl. apply IH.
  - intros _. destruct (Ascii.eqb_spec a b); [contradiction | reflexivity].
Qed.

(** A text that [no_json] tells to be no JSON is refused by the reader. *)
Lemma no_json_loads (txt : string) : no_json txt = true -> json_loads txt = None.
Proof.
  unfold no_json, json_loads. intros H. apply negb_true_iff in H.
  destruct (String.length txt) as [|fuel]; [reflexivity|]. cbn [load_value].
  destruct (skip_ws txt) as [|c r]; [reflexivity|].
  cbn [begins_value] in H.
  apply orb_false_iff in H as [H Hminus].
  apply orb_false_iff in H as [H Hdigit].
  apply orb_false_iff in H as [H _].
  apply orb_false_iff in H as [H _].
  apply orb_false_iff in H as [H _].
  apply orb_false_iff in H as [H Hfalse].
  apply orb_false_iff in H as [H Htrue].
  apply orb_false_iff in H as [H Hnull].
  apply orb_false_iff in H as [H Hbrace].
  apply orb_false_iff in H as [Hquote Hbracket].
  destruct (Ascii.eqb_spec c "n") as [->|_].
  { apply prefix_strip in Hnull. change (strip_prefix "ull" r = None) in Hnull.
    now rewrite Hnull. }
  destruct (Ascii.eqb_spec c "t") as [->|_].
  { apply prefix_strip in Htrue. change (strip_prefix "rue" r = None) in Htrue.
    now rewrite Htrue. }
  destruct (Ascii.eqb_spec c "f") as [->|_].
  { apply prefix_strip in Hfalse. change (strip_prefix "alse" r = None) in Hfalse.
    now rewrite Hfalse. }
  rewrite Hquote, Hbracket, Hbrace.
  assert (load_number (String c r) = None) as ->; [|reflexivity].
  unfold load_number.
  destruct (Ascii.eqb c "-") eqn:Hc.
  - cbn [andb] in Hminus. destruct r as [|d r']; [reflexivity|].
    cbn [span_digits]. now rewrite Hminus.
  - cbn [span_digits]. now rewrite Hdigit.
Qed.

(** ** Dicts *)

Lemma dict_get_replace (k k' : string) (v : json) (d : list (string * json)) :
  dict_get k' (dict_replace k v d) =
  if String.eqb k k' then (if dict_has k d then Some v else None)
  else dict_get k' d.
Proof.
  unfold dict_has. induction d as [|[k0 v0] d IH]; cbn [dict_replace dict_get].
  - now destruct (String.eqb k k').
  - rewrite IH. destruct (String.eqb_spec k k') as [<-|Hne].
    + destruct (dict_get k d); [reflexivity|].
      now destruct (String.eqb k k0).
    + destruct (dict_get k' d); [reflexivity|].
      destruct (String.eqb_spec k' k0) as [<-|]; [|reflexivity].
      destruct (String.eqb_spec k k'); [contradiction | reflexivity].
Qed.

Lemma dict_get_snoc (k k' : string) (v : json) (d : list (string * json)) :
  dict_get k' (d ++ [(k, v)]) =
  if String.eqb k' k then Some v else dict_get k' d.
Proof.
  induction d as [|[k0 v0] d IH]; cbn [app dict_get].
  - reflexivity.
  - rewrite IH. now destruct (String.eqb k' k).
Qed.

Lemma dict_get_set_eq (k : string) (v : json) (d : list (string * json)) :
  dict_get k (dict_set k v d) = Some v.
Proof.
  unfold dict_set. destruct (dict_has k d) eqn:Hhas.
  - now rewrite dict_get_replace, String.eqb_refl, Hhas.
  - now rewrite dict_get_snoc, String.eqb_refl.
Qed.

Lemma dict_get_set_ne (k k' : string) (v : json) (d : list (string * json)) :
  k <> k' -> dict_get k' (dict_set k v d) = dict_get k' d.
Proof.
  intros Hne. unfold dict_set. destruct (dict_has k d).
  - rewrite dict_get_replace. now destruct (String.eqb_spec k k').
  - rewrite dict_get_snoc. destruct (String.eqb_spec k' k); [congruence | reflexivity].
Qed.

(** A dict with a key is true in a condition. *)
Lemma dict_get_truthy (k : string) (x : json) (d : list (string * json)) :
  dict_get k d = Some x -> truthy (JObj d) = true.
Proof. destruct d; [discriminate | reflexivity]. Qed.

(** ** The monad *)

Lemma bind_inv {A B} (m : M A) (k : A -> M B) (w w' : world) (r : outcome B) :
  bind m k w = (r, w') ->
  (exists a w1, m w = (Ok a, w1) /\ k a w1 = (r, w')) \/
  (exists e, m w = (Raise e, w') /\ r = Raise e).
Proof.
  unfold bind. destruct (m w) as [[a|e] w1]; intros H.
  - left. eauto.
  - right. injection H as <- <-. eauto.
Qed.

Lemma bind_ok {A B} (m : M A) (k : A -> M B) (w w1 : world) (a : A) :
  m w = (Ok a, w1) -> bind m k w = k a w1.
Proof. unfold bind. now intros ->. Qed.

Lemma bind_raise {A B} (m : M A) (k : A -> M B) (w w1 : world) (e : exn) :
  m w = (Raise e, w1) -> bind m k w = (Raise e, w1).
Proof. unfold bind. now intros ->. Qed.

Lemma bind_lift_ok {A B} (a : A) (k : A -> M B) (w : world) :
  bind (lift (Ok a)) k w = k a w.
Proof. reflexivity. Qed.

(** ** The state property *)

Lemma Card_state_none (card : Card) (w : world) :
  state_file card = None -> Card_state card w = (Raise AttributeError, w).
Proof. unfold Card_state. now intros ->. Qed.

Lemma Card_state_absent (card : Card) (p : string) (w : world) :
  state_file card = Some p -> files w !! p = None ->
  Card_state card w = (Ok JNull, w).
Proof.
  intros Hp Hfile. unfold Card_state, try_except, bind, open_read.
  now rewrite Hp, Hfile.
Qed.

Lemma Card_state_present (card : Card) (p txt : string) (w : world) :
  state_file card = Some p -> files w !! p = Some txt ->
  Card_state card w =
  (match json_loads txt with Some v => Ok v | None => Raise ValueError end, w).
Proof.
  intros Hp Hfile. unfold Card_state, try_except, bind, open_read, json_load.
  rewrite Hp, Hfile. now destruct (json_loads txt).
Qed.

(** Reading the state touches nothing. *)
Lemma Card_state_world (card : Card) (w w' : world) (r : outcome json) :
  Card_state card w = (r, w') -> w' = w.
Proof.
  destruct (state_file card) as [p|] eqn:Hp.
  - destruct (files w !! p) as [txt|] eqn:Hfile.
    + rewrite (Card_state_present _ _ _ _ Hp Hfile). now intros [= _ <-].
    + rewrite (Card_state_absent _ _ _ Hp Hfile). now intros [= _ <-].
  - rewrite (Card_state_none _ _ Hp). now intros [= _ <-].
Qed.

(** ** The request of [save] *)

(** The payload [save] builds from a state dict. *)
Lemma save_request_run (card : Card) (w : world) :
  save_request card w =
  match Card_state card w with
  | (Raise e, w') => (Raise e, w')
  | (Ok state, w') =>
      let choice :=
        if truthy state then
          match getitem state "url" with
          | Ok url => Ok (Some PATCH, Val url, state)
          | Raise e => Raise e
          end
        else Ok (None, Tuple [JStr (issues_path (card_args card))], JObj []) in
      match choice with
      | Raise e => (Raise e, w')
      | Ok (req_fn, req_url, state) =>
          match getitem (card_data card) "name" with
          | Raise e => (Raise e, w')
          | Ok name =>
              match setitem state "title" name with
              | Raise e => (Raise e, w')
              | Ok state1 =>
                  match getitem (card_data card) "desc" with
                  | Raise e => (Raise e, w')
                  | Ok desc =>
                      match setitem state1 "body" desc with
                      | Raise e => (Raise e, w')
                      | Ok state2 => (Ok (req_fn, req_url, state2), w')
                      end
                  end
              end
          end
      end
  end.
Proof.
  unfold save_request, bind at 1.
  destruct (Card_state card w) as [[state|e] w']; [|reflexivity].
  cbn zeta. destruct (truthy state).
  - unfold bind at 1. unfold bind at 1. unfold lift at 1.
    destruct (getitem state "url") as [url|e]; [|reflexivity].
    unfold ret at 1. cbn [fst snd].
    unfold bind, lift, ret.
    destruct (getitem (card_data card) "name") as [name|e]; [|reflexivity].
    destruct (setitem state "title" name) as [state1|e]; [|reflexivity].
    destruct (getitem (card_data card) "desc") as [desc|e]; [|reflexivity].
    destruct (setitem state1 "body" desc) as [state2|e]; reflexivity.
  - unfold bind, lift, ret. cbn [fst snd].
    destruct (getitem (card_data card) "name") as [name|e]; [|reflexivity].
    destruct (setitem (JObj []) "title" name) as [state1|e]; [|reflexivity].
    destruct (getitem (card_data card) "desc") as [desc|e]; [|reflexivity].
    destruct (setitem state1 "body" desc) as [state2|e]; reflexivity.
Qed.

Lemma save_request_world (card : Card) (w w' : world)
    (r : outcome (option verb * pyobj * json)) :
  save_request card w = (r, w') -> w' = w.
Proof.
  rewrite save_request_run.
  destruct (Card_state card w) as [[state|e] w1] eqn:Hst;
    apply Card_state_world in Hst; subst w1; [|now intros [= _ <-]].
  cbn zeta.
  destruct (if truthy state then _ else _) as [[[fn url] st]|e]; [|now intros [= _ <-]].
  destruct (getitem (card_data card) "name"); [|now intros [= _ <-]].
  destruct (setitem st "title" a); [|now intros [= _ <-]].
  destruct (getitem (card_data card) "desc"); [|now intros [= _ <-]].
  destruct (setitem a0 "body" a1); now intros [= _ <-].
Qed.

(** No state: the create branch. *)
Lemma save_request_create (card : Card) (w : world) (state n ds : json) :
  Card_state card w = (Ok state, w) -> truthy state = false ->
  getitem (card_data card) "name" = Ok n ->
  getitem (card_data card) "desc" = Ok ds ->
  save_request card w =
  (Ok (None, Tuple [JStr (issues_path (card_args card))],
       JObj (dict_set "body" ds (dict_set "title" n []))), w).
Proof.
  intros Hst Hfalse Hn Hds. rewrite save_request_run, Hst. cbn zeta.
  rewrite Hfalse, Hn. cbn [setitem]. rewrite Hds. reflexivity.
Qed.

(** A state dict with a url: the update branch. *)
Lemma save_request_update (card : Card) (w : world)
    (d : list (string * json)) (u n ds : json) :
  Card_state card w = (Ok (JObj d), w) -> dict_get "url" d = Some u ->
  getitem (card_data card) "name" = Ok n ->
  getitem (card_data card) "desc" = Ok ds ->
  save_request card w =
  (Ok (Some PATCH, Val u, JObj (dict_set "body" ds (dict_set "title" n d))), w).
Proof.
  intros Hst Hu Hn Hds. rewrite save_request_run, Hst. cbn zeta.
  rewrite (dict_get_truthy _ _ _ Hu). cbn [getitem]. rewrite Hu, Hn.
  cbn [setitem]. rewrite Hds. reflexivity.
Qed.

(** Whatever the branch, the payload is a dict that carries the card's
    name and description. *)
Lemma save_request_ok (card : Card) (w w' : world)
    (fn : option verb) (url : pyobj) (st : json) :
  save_request card w = (Ok (fn, url, st), w') ->
  exists d n ds,
    st = JObj d /\
    getitem (card_data card) "name" = Ok n /\
    getitem (card_data card) "desc" = Ok ds /\
    dict_get "title" d = Some n /\ dict_get "body" d = Some ds.
Proof.
  rewrite save_request_run.
  destruct (Card_state card w) as [[state|e] w1]; [|discriminate].
  cbn zeta.
  destruct (if truthy state then _ else _) as [[[fn0 url0] st0]|e]; [|discriminate].
  destruct (getitem (card_data card) "name") as [n|]; [|discriminate].
  destruct st0 as [ | | | | | d0]; try discriminate. cbn [setitem].
  destruct (getitem (card_data card) "desc") as [ds|]; [|discriminate].
  intros [= _ _ <- _].
  exists (dict_set "body" ds (dict_set "title" n d0)), n, ds.
  repeat split.
  - rewrite dict_get_set_ne by discriminate. apply dict_get_set_eq.
  - apply dict_get_set_eq.
Qed.

Section Properties.

Variable server : list request -> request -> reply.

(** ** The request client *)

(** [gh_request], one case per way through it. *)
Lemma gh_request_run (path : pyobj) (args : Args) (data : json)
    (req_fn : option verb) (w : world) :
  gh_request server path args data req_fn w =
  match py_in "://" path with
  | Raise e => (Raise e, w)
  | Ok found =>
      let rq := {|
        rq_verb := if truthy data
                   then match req_fn with None => POST | Some f => f end
                   else match req_fn with None => GET | Some f => f end;
        rq_url := if found then str_obj path
                  else githubroot args +:+ "/" +:+ str_obj path;
        rq_auth := (github_user args, github_password args);
        rq_data := if truthy data then JStr (json_dumps data) else data |} in
      let w1 := {| files := files w; sent := sent w ++ [rq]; logged := logged w |} in
      let failed (msg : string) :=
        (Ok RFalse,
         {| files := files w; sent := sent w ++ [rq];
            logged := logged w ++
                      [{| lg_name := "github"; lg_level := ERROR; lg_msg := msg |}] |}) in
      match server (sent w) rq with
      | NoReply => (Raise RequestException, w1)
      | Reply r =>
          if resp_ok r then (Ok (RResp r), w1)
          else
            match json_loads (text r) with
            | None => failed (http_error r)
            | Some (JObj d) =>
                match dict_get "message" d with
                | Some m => failed (py_str m)
                | None => failed (http_error r)
                end
            | Some _ => (Raise AttributeError, w1)
            end
      end
  end.
Proof.
  unfold gh_request. cbn zeta.
  destruct (py_in "://" path) as [found|e]; [|reflexivity].
  rewrite bind_lift_ok.
  unfold bind at 1. unfold send at 1.
  destruct found, (truthy data); cbn [negb fst snd];
    (match goal with |- context [server ?h ?q] => destruct (server h q) as [r|] end;
     [|reflexivity]);
    (destruct (resp_ok r); cbn [negb]; [reflexivity|]);
    unfold bind, try_except, json_load, lift, log, ret, raise;
    (destruct (json_loads (text r)) as [[ | | | | | d]|]; try reflexivity;
     cbn [py_get]; destruct (dict_get "message" d); reflexivity).
Qed.

(** The client never touches the store. *)
Lemma gh_request_files (path : pyobj) (args : Args) (data : json)
    (req_fn : option verb) (w w' : world) (r : outcome pyresp) :
  gh_request server path args data req_fn w = (r, w') -> files w' = files w.
Proof.
  rewrite gh_request_run. destruct (py_in "://" path) as [found|e]; [|now intros [= _ <-]].
  cbn zeta. destruct (server _ _) as [rp|]; [|now intros [= _ <-]].
  destruct (resp_ok rp); [now intros [= _ <-]|].
  destruct (json_loads (text rp)) as [[ | | | | | d]|]; try (now intros [= _ <-]).
  destruct (dict_get "message" d); now intros [= _ <-].
Qed.

(** A response comes back only as the answer to the one request sent, and
    only when it is [ok]. *)
Lemma gh_request_response (path : pyobj) (args : Args) (data : json)
    (req_fn : option verb) (w w' : world) (r : response) :
  gh_request server path args data req_fn w = (Ok (RResp r), w') ->
  resp_ok r = true /\
  exists rq, server (sent w) rq = Reply r /\
    w' = {| files := files w; sent := sent w ++ [rq]; logged := logged w |}.
Proof.
  rewrite gh_request_run. destruct (py_in "://" path) as [found|e]; [|discriminate].
  cbn zeta.
  match goal with |- context [server ?h ?q] => destruct (server h q) as [rp|] eqn:Hrp end;
    [|discriminate].
  destruct (resp_ok rp) eqn:Hok.
  - intros [= <- <-]. split; [exact Hok|]. eexists. split; [exact Hrp | reflexivity].
  - destruct (json_loads (text rp)) as [[ | | | | | d]|]; try discriminate.
    destruct (dict_get "message" d); discriminate.
Qed.

(** ** After the request *)

Lemma save_result_false (card : Card) (state : json) (w : world) :
  save_result card state RFalse w = (Ok false, w).
Proof. reflexivity. Qed.

Lemma save_result_run (card : Card) (state : json) (r : response) (w : world) :
  resp_ok r = true ->
  save_result card state (RResp r) w =
  match json_loads (text r) with
  | None => (Raise ValueError, w)
  | Some data =>
      match getitem data "url" with
      | Raise e => (Raise e, w)
      | Ok url =>
          match setitem state "url" url with
          | Raise e => (Raise e, w)
          | Ok state' =>
              match state_file card with
              | None => (Raise AttributeError, w)
              | Some p =>
                  (Ok true,
                   {| files := <[p := json_dumps state']> (files w);
                      sent := sent w; logged := logged w |})
              end
          end
      end
  end.
Proof.
  intros Hok. unfold save_result. cbn [resp_truthy]. rewrite Hok. cbn [negb].
  unfold bind, json_load, lift, ret, raise, open_write.
  destruct (json_loads (text r)) as [data|]; [|reflexivity].
  destruct (getitem data "url") as [url|]; [|reflexivity].
  destruct (setitem state "url" url) as [state'|]; [|reflexivity].
  destruct (state_file card); reflexivity.
Qed.

(** [save] is its first part, the request, and its last part. *)
Lemma save_split (card : Card) (w : world) :
  save server card w =
  bind (save_request card)
    (fun rq =>
       bind (gh_request server (snd (fst rq)) (card_args card) (snd rq) (fst (fst rq)))
         (save_result card (snd rq))) w.
Proof.
  unfold save, save_request, save_result, bind, lift, ret.
  destruct (Card_state card w) as [[state|e] w1]; [|reflexivity].
  destruct (truthy state); [destruct (getitem state "url") as [url|e]; [|reflexivity]|];
    cbn [fst snd];
    (destruct (getitem (card_data card) "name") as [name|e]; [|reflexivity]);
    (match goal with
     | |- context [setitem ?st "title" name] =>
         destruct (setitem st "title" name) as [state1|e]; [|reflexivity]
     end);
    (destruct (getitem (card_data card) "desc") as [desc|e]; [|reflexivity]);
    (destruct (setitem state1 "body" desc) as [state2|e]; reflexivity).
Qed.

(** What a [save] that returned [True] went through. *)
Lemma save_true (card : Card) (w w1 : world) :
  save server card w = (Ok true, w1) ->
  exists fn url d rq r data u p,
    save_request card w = (Ok (fn, url, JObj d), w) /\
    gh_request server url (card_args card) (JObj d) fn w
    = (Ok (RResp r), {| files := files w; sent := sent w ++ [rq]; logged := logged w |}) /\
    server (sent w) rq = Reply r /\ resp_ok r = true /\
    json_loads (text r) = Some data /\ getitem data "url" = Ok u /\
    state_file card = Some p /\
    w1 = {| files := <[p := json_dumps (JObj (dict_set "url" u d))]> (files w);
            sent := sent w ++ [rq]; logged := logged w |}.
Proof.
  rewrite save_split. intros H.
  apply bind_inv in H as [([[fn url] st] & w0 & Hrq & H) | (e & _ & [=])].
  pose proof (save_request_world _ _ _ _ Hrq) as ->.
  destruct (save_request_ok _ _ _ _ _ _ Hrq) as (d & n & ds & -> & _).
  cbn [fst snd] in H.
  apply bind_inv in H as [(req & w2 & Hgh & H) | (e & _ & [=])].
  destruct req as [|r]; [rewrite save_result_false in H; discriminate|].
  destruct (gh_request_response _ _ _ _ _ _ _ Hgh) as (Hok & rq & Hrp & ->).
  rewrite (save_result_run _ _ _ _ Hok) in H.
  destruct (json_loads (text r)) as [data|] eqn:Hdata; [|discriminate].
  destruct (getitem data "url") as [u|] eqn:Hu; [|discriminate].
  cbn [setitem] in H.
  destruct (state_file card) as [p|] eqn:Hp; [|discriminate].
  injection H as <-.
  exists fn, url, d, rq, r, data, u, p. repeat split; assumption.
Qed.

(** What follows the request sends nothing and logs nothing, and writes
    the state file only when it returns [True]. *)
Lemma save_result_frame (card : Card) (state : json) (req : pyresp)
    (w w' : world) (res : outcome bool) :
  save_result card state req w = (res, w') ->
  sent w' = sent w /\ logged w' = logged w /\
  (res <> Ok true -> files w' = files w).
Proof.
  destruct req as [|r]; [now intros [= <- <-]|].
  destruct (resp_ok r) eqn:Hok.
  - rewrite (save_result_run _ _ _ _ Hok).
    destruct (json_loads (text r)) as [data|]; [|now intros [= <- <-]].
    destruct (getitem data "url") as [url|]; [|now intros [= <- <-]].
    destruct (setitem state "url" url) as [state'|]; [|now intros [= <- <-]].
    destruct (state_file card); intros [= <- <-]; cbn; auto.
    repeat split; congruence.
  - unfold save_result. cbn [resp_truthy]. rewrite Hok. now intros [= <- <-].
Qed.

(** The request [save] sends, from the verb, target and payload it chose. *)
Lemma save_sent (card : Card) (w : world) (fn : option verb) (url : pyobj)
    (st : json) :
  save_request card w = (Ok (fn, url, st), w) ->
  sent (snd (save server card w)) =
  match py_in "://" url with
  | Raise _ => sent w
  | Ok found =>
      sent w ++
      [{| rq_verb := match fn with None => POST | Some f => f end;
          rq_url := if found then str_obj url
                    else githubroot (card_args card) +:+ "/" +:+ str_obj url;
          rq_auth := (github_user (card_args card), github_password (card_args card));
          rq_data := JStr (json_dumps st) |}]
  end.
Proof.
  intros Hrq. destruct (save_request_ok _ _ _ _ _ _ Hrq) as (d & n & ds & -> & _ & _ & Ht & _).
  rewrite save_split, (bind_ok _ _ _ _ _ Hrq). cbn [fst snd].
  unfold bind. rewrite gh_request_run, (dict_get_truthy _ _ _ Ht).
  destruct (py_in "://" url) as [found|e]; [|reflexivity].
  cbn zeta.
  match goal with |- context [server ?h ?q] => destruct (server h q) as [rp|] end;
    [|reflexivity].
  assert (forall req w0, sent (snd (save_result card (JObj d) req w0)) = sent w0) as Hres.
  { intros req w0. destruct (save_result card (JObj d) req w0) as [res w'] eqn:H.
    cbn [snd]. now apply save_result_frame in H as [-> _]. }
  destruct (resp_ok rp); [apply Hres|].
  destruct (json_loads (text rp)) as [[ | | | | | d']|]; try reflexivity.
  destruct (dict_get "message" d'); reflexivity.
Qed.

(** [save] raises what choosing the request raised, and does nothing else. *)
Lemma save_request_raise (card : Card) (w w' : world) (e : exn) :
  save_request card w = (Raise e, w') -> save server card w = (Raise e, w).
Proof.
  intros H. pose proof (save_request_world _ _ _ _ H) as ->.
  rewrite save_split. now rewrite (bind_raise _ _ _ _ _ H).
Qed.

(** [save] writes only when it returns [True]. *)
Lemma save_files (card : Card) (w w' : world) (res : outcome bool) :
  save server card w = (res, w') -> res <> Ok true -> files w' = files w.
Proof.
  rewrite save_split. intros H Hres.
  apply bind_inv in H as [([[fn url] st] & w0 & Hrq & H) | (e & Hrq & _)].
  - pose proof (save_request_world _ _ _ _ Hrq) as ->. cbn [fst snd] in H.
    apply bind_inv in H as [(req & w2 & Hgh & H) | (e & Hgh & _)].
    + apply gh_request_files in Hgh. apply save_result_frame in H as (_ & _ & H).
      rewrite H by exact Hres. exact Hgh.
    + now apply gh_request_files in Hgh.
  - now apply save_request_world in Hrq as ->.
Qed.

(** ** The import record *)

(** C3.  When the request client call that [save] makes fails, that is
    [gh_request] returns [False] on the verb, target and payload [save]
    chose, [save] returns [False] and the store is what it was before:
    no state file is created or overwritten. *)
Theorem failed_request_keeps_state (card : Card) (w w0 w1 : world)
    (fn : option verb) (url : pyobj) (st : json) :
  save_request card w = (Ok (fn, url, st), w0) ->
  gh_request server url (card_args card) st fn w0 = (Ok RFalse, w1) ->
  save server card w = (Ok false, w1) /\ files w1 = files w.
Proof.
  intros Hrq Hgh. pose proof (save_request_world _ _ _ _ Hrq) as ->. split.
  - rewrite save_split, (bind_ok _ _ _ _ _ Hrq). cbn [fst snd].
    rewrite (bind_ok _ _ _ _ _ Hgh). apply save_result_false.
  - exact (gh_request_files _ _ _ _ _ _ _ Hgh).
Qed.

(** C5.  After a [save] that returned [True], reading the state file of
    the card gives a dict whose [title] is the card's [name] and whose
    [body] is the card's [desc]. *)
Theorem saved_state_mirrors_card (card : Card) (w w1 : world) :
  save server card w = (Ok true, w1) ->
  exists (st n ds : json),
    Card_state card w1 = (Ok st, w1) /\
    getitem (card_data card) "name" = Ok n /\
    getitem (card_data card) "desc" = Ok ds /\
    getitem st "title" = Ok n /\
    getitem st "body" = Ok ds.
Proof.
  intros H.
  destruct (save_true _ _ _ H)
    as (fn & url & d & rq & r & data & u & p & Hrq & _ & _ & _ & _ & _ & Hp & ->).
  destruct (save_request_ok _ _ _ _ _ _ Hrq) as (d' & n & ds & [= <-] & Hn & Hds & Ht & Hb).
  exists (JObj (dict_set "url" u d)), n, ds. repeat split; try assumption.
  - rewrite (Card_state_present card p (json_dumps (JObj (dict_set "url" u d)))).
    + now rewrite json_loads_dumps.
    + exact Hp.
    + cbn [files]. apply lookup_insert_eq.
  - cbn [getitem]. now rewrite dict_get_set_ne, Ht by discriminate.
  - cbn [getitem]. now rewrite dict_get_set_ne, Hb by discriminate.
Qed.


Lemma append_longer (a b : string) : a <> EmptyString -> b <> a +:+ b.
Proof.
  intros Ha Heq. apply (f_equal String.length) in Heq.
  rewrite length_append in Heq. destruct a; [congruence | cbn in Heq; lia].
Qed.

(** C2.  For a card whose state file holds a dict with a [url] that is a
    text with a scheme separator, [save] sends one request: a PATCH whose
    target is that very url, not the url put after the API root, and
    whose payload has [title = card.name] and [body = card.desc].  The
    payload is the stored dict updated in place, so it carries the stored
    [url] as well. *)
Theorem save_updates_stored_url (card : Card) (w : world) (p txt u : string)
    (d : list (string * json)) (n ds : json) :
  state_file card = Some p ->
  files w !! p = Some txt ->
  json_loads txt = Some (JObj d) ->
  dict_get "url" d = Some (JStr u) ->
  str_contains "://" u = true ->
  getitem (card_data card) "name" = Ok n ->
  getitem (card_data card) "desc" = Ok ds ->
  exists (rq : request) (payload : list (string * json)),
    sent (snd (save server card w)) = sent w ++ [rq] /\
    rq_verb rq = PATCH /\
    rq_url rq = u /\
    rq_url rq <> githubroot (card_args card) +:+ "/" +:+ u /\
    rq_data rq = JStr (json_dumps (JObj payload)) /\
    dict_get "title" payload = Some n /\
    dict_get "body" payload = Some ds /\
    dict_get "url" payload = Some (JStr u).
Proof.
  intros Hp Hfile Htxt Hu Hsep Hn Hds.
  assert (save_request card w =
          (Ok (Some PATCH, Val (JStr u),
               JObj (dict_set "body" ds (dict_set "title" n d))), w)) as Hrq.
  { apply save_request_update; try assumption.
    now rewrite (Card_state_present card p txt w Hp Hfile), Htxt. }
  eexists _, (dict_set "body" ds (dict_set "title" n d)).
  rewrite (save_sent _ _ _ _ _ Hrq). cbn [py_in]. rewrite Hsep.
  split; [reflexivity|]. cbn [rq_verb rq_url rq_data str_obj py_str].
  repeat split.
  - rewrite <- append_assoc. apply append_longer.
    destruct (githubroot (card_args card)); discriminate.
  - rewrite dict_get_set_ne by discriminate. apply dict_get_set_eq.
  - apply dict_get_set_eq.
  - now rewrite !dict_get_set_ne by discriminate.
Qed.

Lemma append_inj (a b c : string) : a +:+ b = a +:+ c -> b = c.
Proof.
  induction a as [|x a IH]; [trivial|]. rewrite !append_cons. intros [= H]. auto.
Qed.

Lemma issues_path_not_separator (args : Args) :
  String.eqb "://" (issues_path args) = false.
Proof. reflexivity. Qed.

(** C1.  For a card with no state file, [save] sends one request, a POST
    with the card's name and description, but its target is the API
    root followed by the text of a one-element tuple,
    [('repos/<owner>/<repo>/issues',)], and never the issues endpoint
    [repos/<owner>/<repo>/issues] under the API root. *)
Theorem create_target_is_tuple_text (card : Card) (w : world) (p : string)
    (n ds : json) :
  state_file card = Some p ->
  files w !! p = None ->
  getitem (card_data card) "name" = Ok n ->
  getitem (card_data card) "desc" = Ok ds ->
  exists rq : request,
    sent (snd (save server card w)) = sent w ++ [rq] /\
    rq_verb rq = POST /\
    rq_data rq = JStr (json_dumps (JObj [("title", n); ("body", ds)])) /\
    rq_url rq = githubroot (card_args card) +:+ "/" +:+
                "(" +:+ repr_str (issues_path (card_args card)) +:+ ",)" /\
    rq_url rq <> githubroot (card_args card) +:+ "/" +:+ issues_path (card_args card).
Proof.
  intros Hp Hfile Hn Hds.
  pose proof (save_request_create card w JNull n ds
                (Card_state_absent _ _ _ Hp Hfile) eq_refl Hn Hds) as Hrq.
  eexists. rewrite (save_sent _ _ _ _ _ Hrq).
  cbn [py_in existsb is_str]. rewrite issues_path_not_separator. cbn [orb].
  split; [reflexivity|]. cbn [rq_verb rq_url rq_data str_obj repr_tuple py_repr].
  repeat split.
  intros Heq. apply append_inj in Heq. unfold issues_path in Heq.
  rewrite !append_cons in Heq. discriminate Heq.
Qed.

(** C8.  With no state directory the card has no state file, and [save]
    raises AttributeError when it looks up the state: it sends nothing,
    writes nothing and returns no boolean. *)
Theorem save_without_statedir_raises (args : Args) (data : json) (w : world) :
  statedir args = None ->
  exists card : Card,
    Card_init data args w = (Ok card, w) /\
    state_file card = None /\
    save server card w = (Raise AttributeError, w).
Proof.
  intros Hdir. eexists. unfold Card_init. rewrite Hdir.
  split; [reflexivity|]. split; [reflexivity|].
  apply (save_request_raise _ w w). rewrite save_request_run.
  now rewrite Card_state_none.
Qed.

(** ** Failure of a request *)

(** How [gh_request] ends, from the answer to the request it sent. *)
Lemma gh_request_reply (path : pyobj) (args : Args) (data : json)
    (req_fn : option verb) (w w' : world) (res : outcome pyresp) (rq : request) :
  gh_request server path args data req_fn w = (res, w') ->
  sent w' = sent w ++ [rq] ->
  let failed (msg : string) :=
    res = Ok RFalse /\ logged w' = logged w ++ [github_error msg] in
  match server (sent w) rq with
  | NoReply => res = Raise RequestException /\ logged w' = logged w
  | Reply r =>
      if resp_ok r then res = Ok (RResp r) /\ logged w' = logged w
      else
        match json_loads (text r) with
        | None => failed (http_error r)
        | Some (JObj d) =>
            match dict_get "message" d with
            | Some m => failed (py_str m)
            | None => failed (http_error r)
            end
        | Some _ => res = Raise AttributeError /\ logged w' = logged w
        end
  end.
Proof.
  rewrite gh_request_run. destruct (py_in "://" path) as [found|e].
  - cbn zeta.
    match goal with |- context [server ?h ?q] => set (rq0 := q) end.
    intros H Hsent.
    assert (rq = rq0) as ->.
    { assert (sent w' = sent w ++ [rq0]) as Hsent0.
      { destruct (server (sent w) rq0) as [r|]; [|now injection H as _ <-].
        destruct (resp_ok r); [now injection H as _ <-|].
        destruct (json_loads (text r)) as [[ | | | | | d]|];
          try (now injection H as _ <-).
        destruct (dict_get "message" d); now injection H as _ <-. }
      rewrite Hsent in Hsent0. apply app_inv_head in Hsent0. congruence. }
    destruct (server (sent w) rq0) as [r|]; [|now injection H as <- <-].
    destruct (resp_ok r); [now injection H as <- <-|].
    destruct (json_loads (text r)) as [[ | | | | | d]|];
      try (now injection H as <- <-).
    destruct (dict_get "message" d); now injection H as <- <-.
  - intros [= _ <-] Hsent. exfalso.
    apply (f_equal length) in Hsent. rewrite length_app in Hsent. cbn in Hsent. lia.
Qed.

(** X26.  A non-success answer whose body is a JSON object with a
    [message]: that message is the one error logged, and the result is
    [False]. *)
Lemma error_message_is_logged (path : pyobj) (args : Args) (data : json)
    (req_fn : option verb) (w w' : world) (res : outcome pyresp) (rq : request)
    (r : response) (d : list (string * json)) (m : json) :
  gh_request server path args data req_fn w = (res, w') ->
  sent w' = sent w ++ [rq] ->
  server (sent w) rq = Reply r ->
  resp_ok r = false ->
  json_loads (text r) = Some (JObj d) ->
  dict_get "message" d = Some m ->
  res = Ok RFalse /\
  logged w' = logged w ++ [github_error (py_str m)].
Proof.
  intros H Hsent Hr Hok Hbody Hm.
  pose proof (gh_request_reply _ _ _ _ _ _ _ _ H Hsent) as Hreply.
  cbn zeta in Hreply. now rewrite Hr, Hok, Hbody, Hm in Hreply.
Qed.

(** C6.  A non-success answer whose body is JSON but no object (a list, a
    string, a number, [null]): [gh_request] raises AttributeError from
    inside its handler; it logs no error and returns no failure value. *)
Theorem non_object_error_body_raises (path : pyobj) (args : Args) (data : json)
    (req_fn : option verb) (w w' : world) (res : outcome pyresp) (rq : request)
    (r : response) (v : json) :
  gh_request server path args data req_fn w = (res, w') ->
  sent w' = sent w ++ [rq] ->
  server (sent w) rq = Reply r ->
  resp_ok r = false ->
  json_loads (text r) = Some v ->
  (forall d, v <> JObj d) ->
  res = Raise AttributeError /\ logged w' = logged w.
Proof.
  intros H Hsent Hr Hok Hbody Hv.
  pose proof (gh_request_reply _ _ _ _ _ _ _ _ H Hsent) as Hreply.
  cbn zeta in Hreply. rewrite Hr, Hok, Hbody in Hreply.
  destruct v as [ | | | | | d]; try exact Hreply. now destruct (Hv d).
Qed.

(** X27.  A non-success answer whose body is a JSON object with no [message]
    member is logged with the synthesized text
    [HTTP error <code>: <reason>], the very text logged for a body that
    begins with no JSON value (an empty body, a web page); in both cases
    the result is [False]. *)
Lemma object_without_message_falls_back (path : pyobj) (args : Args)
    (data : json) (req_fn : option verb) (w w' : world) (res : outcome pyresp)
    (rq : request) (r : response) :
  gh_request server path args data req_fn w = (res, w') ->
  sent w' = sent w ++ [rq] ->
  server (sent w) rq = Reply r ->
  resp_ok r = false ->
  (no_json (text r) = true \/
   exists d, json_loads (text r) = Some (JObj d) /\ dict_get "message" d = None) ->
  res = Ok RFalse /\
  logged w' = logged w ++
              [github_error ("HTTP error " +:+ str_of_Z (status_code r) +:+ ": "
                             +:+ reason r)].
Proof.
  intros H Hsent Hr Hok Hbody.
  pose proof (gh_request_reply _ _ _ _ _ _ _ _ H Hsent) as Hreply.
  cbn zeta in Hreply. rewrite Hr, Hok in Hreply.
  destruct Hbody as [Hbody | (d & Hbody & Hm)].
  - apply no_json_loads in Hbody. now rewrite Hbody in Hreply.
  - now rewrite Hbody, Hm in Hreply.
Qed.

(** ** The driver *)

Lemma py_get_raise (v : json) (k : string) (dflt : json) (e : exn) :
  py_get v k dflt = Raise e -> e = AttributeError.
Proof.
  destruct v; cbn; try (now intros [= <-]). destruct (dict_get k members); discriminate.
Qed.

Lemma getitem_raise (v : json) (k : string) (e : exn) :
  getitem v k = Raise e -> e = KeyError \/ e = TypeError.
Proof.
  destruct v; cbn; try (intros [= <-]; now right).
  destruct (dict_get k members); [discriminate|]. intros [= <-]. now left.
Qed.

Lemma py_len_raise (v : json) (e : exn) : py_len v = Raise e -> e = TypeError.
Proof. destruct v; cbn; try discriminate; now intros [= <-]. Qed.

Lemma open_read_inv (p : string) (w w' : world) (r : outcome string) :
  open_read p w = (r, w') ->
  w' = w /\ r = match files w !! p with Some t => Ok t | None => Raise ENOENT end.
Proof. unfold open_read. destruct (files w !! p); now intros [= <- <-]. Qed.

Lemma json_load_inv (txt : string) (w w' : world) (r : outcome json) :
  json_load txt w = (r, w') ->
  w' = w /\ r = match json_loads txt with Some v => Ok v | None => Raise ValueError end.
Proof. unfold json_load. destruct (json_loads txt); now intros [= <- <-]. Qed.

Lemma lift_inv {A} (o r : outcome A) (w w' : world) :
  lift o w = (r, w') -> w' = w /\ o = r.
Proof. now intros [= <- <-]. Qed.

Lemma log_inv (name : string) (lv : level) (msg : string) (w w' : world)
    (r : outcome unit) :
  log name lv msg w = (r, w') ->
  r = Ok tt /\ files w' = files w /\ sent w' = sent w.
Proof. now intros [= <- <-]. Qed.

Lemma ensure_dir_inv (p : string) (w w' : world) (r : outcome unit) :
  ensure_dir p w = (r, w') ->
  w' = w /\ r = if blocked (files w) p then Raise EEXIST else Ok tt.
Proof. unfold ensure_dir. destruct (blocked (files w) p); now intros [= <- <-]. Qed.

(** The state directory, lines 166 to 168: it is made sure of and one
    debug record is logged, or [ensure_dir] raises and the world is as
    it was. *)
Lemma statedir_step_inv (args : Args) (w w' : world) (r : outcome unit) :
  (match statedir args with
   | Some dir => _ <- ensure_dir dir ;; log "root" DEBUG "Saving state"
   | None => ret tt
   end) w = (r, w') ->
  files w' = files w /\ sent w' = sent w /\
  match r with
  | Ok _ =>
      (forall dir, statedir args = Some dir -> blocked (files w) dir = false) /\
      logged w' = logged w ++
                  match statedir args with
                  | Some _ => [{| lg_name := "root"; lg_level := DEBUG;
                                  lg_msg := "Saving state" |}]
                  | None => []
                  end
  | Raise e =>
      e = EEXIST /\ w' = w /\
      exists dir, statedir args = Some dir /\ blocked (files w) dir = true
  end.
Proof.
  destruct (statedir args) as [dir|].
  - unfold bind, ensure_dir, log. destruct (blocked (files w) dir) eqn:Hb.
    + intros [= <- <-]. repeat split. now exists dir.
    + intros [= <- <-]. cbn. repeat split. now intros ? [= <-].
  - intros [= <- <-]. repeat split; [discriminate | now rewrite app_nil_r].
Qed.

(** One step of a computation: its first action ran to [a], or raised. *)
Ltac step H a w1 Hstep :=
  apply bind_inv in H as [(a & w1 & Hstep & H) | (? & Hstep & H)];
  [| match type of H with ?r = _ => first [discriminate H | subst r] end].

(** What [main] does before it sends anything: it reads the export and
    logs; it leaves the store alone, and it can stop only on an exception
    that is no [SystemExit]. *)
Lemma main_prelude (args : Args) (w w' : world) (res : outcome unit) :
  main server args w = (res, w') ->
  (exists e, res = Raise e /\ exit_status res = 1%Z /\
             files w' = files w /\ sent w' = sent w) \/
  (exists (trello_data cards : json) (w2 : world),
     files w2 = files w /\ sent w2 = sent w /\
     getitem trello_data "cards" = Ok cards /\
     bind (gh_request server (Val (JStr "user")) args JNull None)
       (fun req =>
          if negb (resp_truthy req) then sys_exit 1
          else
            match req with
            | RFalse => sys_exit 1
            | RResp r =>
                user <- json_load (text r) ;;
                uname <- lift (py_get user "name" (JStr "unknown user name")) ;;
                _ <- log "root" INFO ("Importing as GitHub user " +:+ py_str uname) ;;
                cards <- lift (getitem trello_data "cards") ;;
                items <- lift (py_iter cards) ;;
                _ <- for_each (import_card server args) items ;;
                ret tt
            end) w2 = (res, w')).
Proof.
  unfold main. intros H.
  step H txt w1 Hs.
  2:{ apply open_read_inv in Hs as [-> Hs]. left.
      destruct (files w !! trello_json args); [discriminate|]. injection Hs as ->.
      eexists. repeat split. }
  apply open_read_inv in Hs as [-> _].
  step H trello_data w1 Hs.
  2:{ apply json_load_inv in Hs as [-> Hs]. left.
      destruct (json_loads txt); [discriminate|]. injection Hs as ->.
      eexists. repeat split. }
  apply json_load_inv in Hs as [-> _].
  step H name w1 Hs.
  2:{ apply lift_inv in Hs as [-> Hs]. apply py_get_raise in Hs as ->. left.
      eexists. repeat split. }
  apply lift_inv in Hs as [-> _].
  step H url w1 Hs.
  2:{ apply lift_inv in Hs as [-> Hs]. apply py_get_raise in Hs as ->. left.
      eexists. repeat split. }
  apply lift_inv in Hs as [-> _].
  step H u1 w1 Hs; [|discriminate Hs].
  apply log_inv in Hs as (_ & Hf1 & Hs1).
  step H u2 w2 Hs.
  2:{ apply statedir_step_inv in Hs as (Hf2 & Hs2 & -> & _). left.
      eexists. repeat split; congruence. }
  assert (files w2 = files w /\ sent w2 = sent w) as [Hf2 Hs2].
  { apply statedir_step_inv in Hs as (Hf2 & Hs2 & _). split; congruence. }
  clear Hs Hf1 Hs1 w1 u1 u2.
  step H cards w1 Hs.
  2:{ apply lift_inv in Hs as [-> Hs]. left.
      apply getitem_raise in Hs as [-> | ->]; eexists; repeat split; assumption. }
  apply lift_inv in Hs as [-> Hcards].
  step H n w1 Hs.
  2:{ apply lift_inv in Hs as [-> Hs]. apply py_len_raise in Hs as ->. left.
      eexists. repeat split; assumption. }
  apply lift_inv in Hs as [-> _].
  step H u1 w1 Hs; [|discriminate Hs].
  apply log_inv in Hs as (_ & Hf1 & Hs1).
  right. exists trello_data, cards, w1. repeat split; first [exact H | congruence].
Qed.

(** C7.  When the answer to the first request, the authenticated GET of
    [user], is no success (an error status, or no response at all), the
    run ends with exit status 1, the only request it can have sent is
    that GET, so no card is created or updated, and no state file is
    written. *)
Theorem failed_auth_stops_run (args : Args) (w : world) :
  let rq := user_request args in
  (forall r, server (sent w) rq = Reply r -> resp_ok r = false) ->
  exit_status (fst (main server args w)) = 1%Z /\
  (sent (snd (main server args w)) = sent w \/
   sent (snd (main server args w)) = sent w ++ [rq]) /\
  files (snd (main server args w)) = files w.
Proof.
  intros rq Hfail.
  destruct (main server args w) as [res w'] eqn:H. cbn [fst snd].
  apply main_prelude in H
    as [(e & -> & Hexit & Hf & Hs) | (data & cards & w2 & Hf & Hs & _ & H)];
    [now auto|].
  step H req w3 Hgh.
  - rewrite gh_request_run in Hgh. cbn [py_in] in Hgh.
    change (str_contains "://" "user") with false in Hgh.
    cbn zeta in Hgh. cbn [truthy str_obj py_str] in Hgh. rewrite Hs in Hgh.
    match type of Hgh with context [server _ ?q] => change q with rq in Hgh end.
    destruct (server (sent w) rq) as [r|] eqn:Hr; [|discriminate Hgh].
    rewrite (Hfail r eq_refl) in Hgh.
    destruct (json_loads (text r)) as [[ | | | | | d]|]; try discriminate Hgh.
    + destruct (dict_get "message" d); injection Hgh as <- <-;
        injection H as <- <-; cbn; auto.
    + injection Hgh as <- <-. injection H as <- <-. cbn; auto.
  - rewrite gh_request_run in Hgh. cbn [py_in] in Hgh.
    change (str_contains "://" "user") with false in Hgh.
    cbn zeta in Hgh. cbn [truthy str_obj py_str] in Hgh. rewrite Hs in Hgh.
    match type of Hgh with context [server _ ?q] => change q with rq in Hgh end.
    destruct (server (sent w) rq) as [r|] eqn:Hr.
    + rewrite (Hfail r eq_refl) in Hgh.
      destruct (json_loads (text r)) as [[ | | | | | d]|];
        try discriminate Hgh;
        try (injection Hgh as <- <-; cbn; now auto).
      destruct (dict_get "message" d); discriminate Hgh.
    + injection Hgh as <- <-. cbn; auto.
Qed.

(** The loop body never runs to its end: it returns from [main]. *)
Lemma import_card_returns (args : Args) (c : json) (w w' : world) (f : flow) :
  import_card server args c w = (Ok f, w') -> f = Return.
Proof.
  unfold import_card. intros H.
  step H name w1 Hs.
  step H u1 w2 Hs1.
  step H card w3 Hs2.
  step H ok w4 Hs3.
  now injection H as <- _.
Qed.

(** The loop over a list that starts with [c] is the body on [c]. *)
Lemma for_each_import_first (args : Args) (c : json) (rest : list json) (w : world) :
  for_each (import_card server args) (c :: rest) w = import_card server args c w.
Proof.
  cbn [for_each]. unfold bind.
  destruct (import_card server args c w) as [[f|e] w'] eqn:H; [|reflexivity].
  now rewrite (import_card_returns _ _ _ _ _ H).
Qed.

Lemma Card_init_inv (data : json) (args : Args) (w w' : world) (r : outcome Card) :
  Card_init data args w = (r, w') -> w' = w.
Proof.
  unfold Card_init. destruct (statedir args); [|now intros [= _ <-]].
  unfold bind, lift, ret. destruct (getitem data "id"); now intros [= _ <-].
Qed.

(** [save] sends one request at most. *)
Lemma save_sends_once (card : Card) (w : world) :
  exists l, sent (snd (save server card w)) = sent w ++ l /\ length l <= 1.
Proof.
  destruct (save_request card w) as [[[[fn url] st]|e] w0] eqn:Hrq;
    pose proof (save_request_world _ _ _ _ Hrq) as ->.
  - rewrite (save_sent _ _ _ _ _ Hrq). destruct (py_in "://" url).
    + eexists [_]. split; [reflexivity | cbn; lia].
    + exists []. split; [now rewrite app_nil_r | cbn; lia].
  - rewrite (save_request_raise _ _ _ _ Hrq). exists [].
    split; [now rewrite app_nil_r | cbn; lia].
Qed.

(** The loop body sends one request at most, the one of [save]. *)
Lemma import_card_sends_once (args : Args) (c : json) (w : world) :
  exists l, sent (snd (import_card server args c w)) = sent w ++ l /\ length l <= 1.
Proof.
  assert (exists l, sent w = sent w ++ l /\ length l <= 1) as Hnone.
  { exists []. split; [now rewrite app_nil_r | cbn; lia]. }
  destruct (import_card server args c w) as [res w'] eqn:H. cbn [snd].
  unfold import_card in H.
  step H name w1 Hs.
  2:{ apply lift_inv in Hs as [-> _]. exact Hnone. }
  apply lift_inv in Hs as [-> _].
  step H u1 w2 Hs; [|discriminate].
  apply log_inv in Hs as (_ & _ & Hsent2).
  step H card w3 Hs.
  2:{ apply Card_init_inv in Hs as ->. now rewrite Hsent2. }
  apply Card_init_inv in Hs as ->.
  destruct (save_sends_once card w2) as (l & Hl & Hlen).
  step H ok w4 Hs.
  - injection H as _ <-. rewrite Hs in Hl. cbn [snd] in Hl.
    exists l. now rewrite Hl, Hsent2.
  - rewrite Hs in Hl. cbn [snd] in Hl. exists l. now rewrite Hl, Hsent2.
Qed.

Lemma bind_log {B} (name : string) (lv : level) (msg : string)
    (k : unit -> M B) (w : world) :
  bind (log name lv msg) k w =
  k tt {| files := files w; sent := sent w;
          logged := logged w ++ [{| lg_name := name; lg_level := lv; lg_msg := msg |}] |}.
Proof. reflexivity. Qed.

Lemma bind_ret {A B} (a : A) (k : A -> M B) (w : world) : bind (ret a) k w = k a w.
Proof. reflexivity. Qed.

Lemma bind_discard {A} (m : M A) (w : world) :
  bind m (fun _ => ret tt) w =
  (match fst (m w) with Ok _ => Ok tt | Raise e => Raise e end, snd (m w)).
Proof. unfold bind, ret. now destruct (m w) as [[a|e] w']. Qed.

(** Runs the steps that cannot fail: a value at hand, a log record. *)
Ltac run_pure :=
  repeat (cbn beta; cbn [py_len py_iter files sent logged];
          first [rewrite bind_lift_ok | rewrite bind_log | rewrite bind_ret]).

(** The authentication request, when the server accepts it. *)
Lemma auth_request_ok (args : Args) (w : world) (r : response) :
  let rq := user_request args in
  server (sent w) rq = Reply r -> resp_ok r = true ->
  gh_request server (Val (JStr "user")) args JNull None w =
  (Ok (RResp r), {| files := files w; sent := sent w ++ [rq]; logged := logged w |}).
Proof.
  intros rq Hr Hok. rewrite gh_request_run. cbn [py_in].
  change (str_contains "://" "user") with false.
  cbn zeta. cbn [truthy str_obj py_str].
  match goal with |- context [server _ ?q] => change q with rq end.
  now rewrite Hr, Hok.
Qed.

(** What the loop body is, step by step. *)
Lemma import_card_run (args : Args) (c : json) (w : world) :
  import_card server args c w =
  match getitem c "name" with
  | Raise e => (Raise e, w)
  | Ok name =>
      let w1 := {| files := files w; sent := sent w;
                   logged := logged w ++
                             [{| lg_name := "cards import"; lg_level := DEBUG;
                                 lg_msg := "Card " +:+ py_str name |}] |} in
      match Card_init c args w1 with
      | (Raise e, _) => (Raise e, w1)
      | (Ok card, _) =>
          match save server card w1 with
          | (Ok _, w') => (Ok Return, w')
          | (Raise e, w') => (Raise e, w')
          end
      end
  end.
Proof.
  unfold import_card. unfold bind at 1. unfold lift at 1.
  destruct (getitem c "name") as [name|e]; [|reflexivity].
  unfold bind at 1. unfold log at 1. cbn zeta.
  unfold bind at 1.
  match goal with |- context [Card_init c args ?x] =>
    destruct (Card_init c args x) as [[card|e] w2] eqn:Hinit end;
    pose proof (Card_init_inv _ _ _ _ _ Hinit) as ->; [|reflexivity].
  unfold bind at 1.
  match goal with |- context [save server card ?x] =>
    destruct (save server card x) as [[b|e] w3] end; reflexivity.
Qed.

(** The state directory, when no file stands in its way. *)
Lemma statedir_step_ok (args : Args) (w : world) :
  (forall dir, statedir args = Some dir -> blocked (files w) dir = false) ->
  (match statedir args with
   | Some dir => _ <- ensure_dir dir ;; log "root" DEBUG "Saving state"
   | None => ret tt
   end) w =
  (Ok tt, {| files := files w; sent := sent w;
             logged := logged w ++
                       match statedir args with
                       | Some _ => [{| lg_name := "root"; lg_level := DEBUG;
                                       lg_msg := "Saving state" |}]
                       | None => []
                       end |}).
Proof.
  intros Hdir. destruct (statedir args) as [dir|].
  - unfold bind, ensure_dir, log. now rewrite (Hdir dir eq_refl).
  - rewrite app_nil_r. now destruct w.
Qed.

(** C9.  For an export whose [cards] array is not empty, once the state
    directory is made sure of and the authentication request has
    succeeded, the run is the loop body on the first card and nothing
    more: [main] logs the name of the card, builds the card (its state
    file named by its [id] when there is a state directory), calls
    [save] on it and returns, whatever [save] returned and whatever
    cards follow; after the authentication request it sends one request
    at most.  The [id] of the first card is taken to hold no separator:
    its state file then lies in the state directory itself, which
    exists when [save] writes. *)
Theorem driver_stops_after_first_card (args : Args) (w : world) (txt : string)
    (doc user : list (string * json)) (c : json) (rest : list json)
    (r : response) :
  let rq := user_request args in
  files w !! trello_json args = Some txt ->
  json_loads txt = Some (JObj doc) ->
  dict_get "cards" doc = Some (JArr (c :: rest)) ->
  (forall dir, statedir args = Some dir -> blocked (files w) dir = false) ->
  (forall id, getitem c "id" = Ok id -> str_contains "/" (py_str id) = false) ->
  server (sent w) rq = Reply r ->
  resp_ok r = true ->
  json_loads (text r) = Some (JObj user) ->
  exists w3 : world,
    files w3 = files w /\ sent w3 = sent w ++ [rq] /\
    main server args w =
      match getitem c "name" with
      | Raise e => (Raise e, w3)
      | Ok name =>
          let w4 := {| files := files w3; sent := sent w3;
                       logged := logged w3 ++
                                 [{| lg_name := "cards import"; lg_level := DEBUG;
                                     lg_msg := "Card " +:+ py_str name |}] |} in
          let saved (state_file : option string) :=
            let card := {| card_data := c; state_file := state_file;
                           card_args := args |} in
            (match fst (save server card w4) with
             | Ok _ => Ok tt
             | Raise e => Raise e
             end, snd (save server card w4)) in
          match statedir args with
          | None => saved None
          | Some dir =>
              match getitem c "id" with
              | Raise e => (Raise e, w4)
              | Ok id => saved (Some (path_join dir (py_str id +:+ ".json")))
              end
          end
      end /\
    exists l, sent (snd (main server args w)) = sent w3 ++ l /\ length l <= 1.
Proof.
  intros rq Hfile Htxt Hcards Hdir _ Hr Hok Huser.
  assert (exists w3 : world,
    files w3 = files w /\ sent w3 = sent w ++ [rq] /\
    main server args w =
      (match fst (import_card server args c w3) with
       | Ok _ => Ok tt
       | Raise e => Raise e
       end, snd (import_card server args c w3))) as (w3 & Hf & Hs & Hmain).
  { unfold main.
    erewrite bind_ok by (unfold open_read; now rewrite Hfile).
    erewrite bind_ok by (unfold json_load; now rewrite Htxt).
    cbn [py_get getitem]. rewrite Hcards.
    destruct (dict_get "name" doc), (dict_get "url" doc),
      (dict_get "name" user) eqn:Huname;
      run_pure;
      (erewrite bind_ok
         by (apply statedir_step_ok; intros dir Hd; cbn [files]; now apply Hdir));
      run_pure;
      (erewrite bind_ok by (apply auth_request_ok; [exact Hr | exact Hok]));
      cbn beta; cbn [negb resp_truthy]; rewrite Hok; cbn [negb];
      (erewrite bind_ok by (unfold json_load; now rewrite Huser));
      cbn beta; cbn [py_get]; rewrite Huname;
      run_pure;
      (eexists; split; [|split]; cycle 2;
       [ rewrite bind_discard, for_each_import_first; reflexivity
       | reflexivity | reflexivity ]). }
  exists w3. split; [exact Hf|]. split; [exact Hs|]. split.
  - rewrite Hmain, import_card_run.
    destruct (getitem c "name") as [name|e]; [|reflexivity].
    cbn zeta. unfold Card_init.
    destruct (statedir args) as [dir|].
    + unfold bind, lift.
      destruct (getitem c "id") as [id|e]; [|reflexivity].
      unfold ret. cbv beta iota.
      match goal with |- context [save server ?cd ?x] =>
        destruct (save server cd x) as [[b|e] w5] end; reflexivity.
    + unfold ret. cbv beta iota.
      match goal with |- context [save server ?cd ?x] =>
        destruct (save server cd x) as [[b|e] w5] end; reflexivity.
  - rewrite Hmain. cbn [snd]. apply import_card_sends_once.
Qed.

End Properties.

(** * Sample runs *)

(** The create request of the sample card goes to the text of a tuple. *)
Lemma create_target_is_tuple_text_sample :
  exists rq : request,
    sent (snd (save server_created sample_card empty_world)) = [rq] /\
    rq_verb rq = POST /\
    rq_data rq = JStr (json_dumps (JObj [("title", JStr "Fix login"); ("body", JStr "Steps")])) /\
    rq_url rq = "https://api.github.com/('repos/hubspot/demo/issues',)"%string /\
    rq_url rq <> "https://api.github.com/repos/hubspot/demo/issues"%string.
Proof.
  apply (create_target_is_tuple_text server_created sample_card empty_world
           "state/c1.json" (JStr "Fix login") (JStr "Steps"));
    vm_compute; reflexivity.
Defined.

(** The sample card, once stored, is updated at its stored url. *)
Lemma save_updates_stored_url_sample :
  exists (rq : request) (payload : list (string * json)),
    sent (snd (save server_created sample_card stored_world)) = [rq] /\
    rq_verb rq = PATCH /\
    rq_url rq = issue_url /\
    rq_url rq <> ("https://api.github.com" +:+ "/" +:+ issue_url) /\
    rq_data rq = JStr (json_dumps (JObj payload)) /\
    dict_get "title" payload = Some (JStr "Fix login") /\
    dict_get "body" payload = Some (JStr "Steps") /\
    dict_get "url" payload = Some (JStr issue_url).
Proof.
  apply (save_updates_stored_url server_created sample_card stored_world
           "state/c1.json"
           (json_dumps (JObj [("title", JStr "Old title"); ("body", JStr "Old text");
                              ("url", JStr issue_url)]))
           issue_url
           [("title", JStr "Old title"); ("body", JStr "Old text"); ("url", JStr issue_url)]
           (JStr "Fix login") (JStr "Steps"));
    vm_compute; reflexivity.
Defined.

(** Bad credentials: [save] returns [False] and the stored state stays. *)
Lemma failed_request_keeps_state_sample :
  save server_unauthorized sample_card stored_world
  = (Ok false,
     snd (gh_request server_unauthorized (Val (JStr issue_url)) sample_args
            (JObj [("title", JStr "Fix login"); ("body", JStr "Steps");
                   ("url", JStr issue_url)])
            (Some PATCH) stored_world)) /\
  files (snd (gh_request server_unauthorized (Val (JStr issue_url)) sample_args
                (JObj [("title", JStr "Fix login"); ("body", JStr "Steps");
                       ("url", JStr issue_url)])
                (Some PATCH) stored_world))
  = files stored_world.
Proof.
  apply (failed_request_keeps_state server_unauthorized sample_card
           stored_world stored_world _ (Some PATCH) (Val (JStr issue_url))
           (JObj [("title", JStr "Fix login"); ("body", JStr "Steps");
                  ("url", JStr issue_url)]));
    vm_compute; reflexivity.
Defined.

(** The state written by a first import reads back as the card. *)
Lemma saved_state_mirrors_card_sample :
  exists (st n ds : json),
    Card_state sample_card (snd (save server_created sample_card empty_world))
    = (Ok st, snd (save server_created sample_card empty_world)) /\
    getitem (card_data sample_card) "name" = Ok n /\
    getitem (card_data sample_card) "desc" = Ok ds /\
    getitem st "title" = Ok n /\
    getitem st "body" = Ok ds.
Proof.
  apply (saved_state_mirrors_card server_created sample_card empty_world).
  vm_compute; reflexivity.
Defined.


(** An error answered with a JSON list: AttributeError, nothing logged. *)
Lemma non_object_error_body_raises_sample :
  fst (gh_request (server_error "[]") (Val (JStr "user")) sample_args JNull None
         empty_world) = Raise AttributeError /\
  logged (snd (gh_request (server_error "[]") (Val (JStr "user")) sample_args JNull
                 None empty_world)) = logged empty_world.
Proof.
  apply (non_object_error_body_raises (server_error "[]") (Val (JStr "user"))
           sample_args JNull None empty_world _ _ (user_request sample_args)
           {| status_code := 500; reason := "Internal Server Error"; text := "[]" |}
           (JArr []));
    try (vm_compute; reflexivity).
  intros d. discriminate.
Defined.

(** An error answered with [{}]: the synthesized text is logged. *)
Lemma object_without_message_falls_back_sample :
  fst (gh_request (server_error "{}") (Val (JStr "user")) sample_args JNull None
         empty_world) = Ok RFalse /\
  logged (snd (gh_request (server_error "{}") (Val (JStr "user")) sample_args JNull
                 None empty_world))
  = logged empty_world ++ [github_error "HTTP error 500: Internal Server Error"].
Proof.
  apply (object_without_message_falls_back (server_error "{}") (Val (JStr "user"))
           sample_args JNull None empty_world _ _ (user_request sample_args)
           {| status_code := 500; reason := "Internal Server Error"; text := "{}" |});
    try (vm_compute; reflexivity).
  right. exists []. split; vm_compute; reflexivity.
Defined.

(** C10.  A non-success answer whose body is JSON and has no [message]
    member is not always logged like an unparseable body.  The server
    answers 500 with the body [[]]: the body parses, it has no [message]
    member, and [gh_request] raises AttributeError and logs nothing;
    with a body that is no JSON the synthesized text is logged and the
    result is [False]. *)
Theorem json_list_body_is_not_logged :
  let r := {| status_code := 500; reason := "Internal Server Error"; text := "[]" |} in
  resp_ok r = false /\
  json_loads (text r) = Some (JArr []) /\
  no_message (JArr []) /\
  gh_request (server_error "[]") (Val (JStr "user")) sample_args JNull None empty_world
  = (Raise AttributeError,
     {| files := ∅; sent := [user_request sample_args]; logged := [] |}) /\
  gh_request (server_error "<html>") (Val (JStr "user")) sample_args JNull None
    empty_world
  = (Ok RFalse,
     {| files := ∅; sent := [user_request sample_args];
        logged := [github_error "HTTP error 500: Internal Server Error"] |}).
Proof.
  cbn zeta. repeat split; try (vm_compute; reflexivity).
  intros d. discriminate.
Qed.

(** So the rule "JSON without a [message] member is logged as
    [HTTP error <code>: <reason>]" does not hold for every body. *)
Lemma parsed_body_without_message_not_logged :
  ~ (forall (server : list request -> request -> reply) (path : pyobj)
            (args : Args) (data : json) (req_fn : option verb) (w w' : world)
            (res : outcome pyresp) (rq : request) (r : response) (v : json),
       gh_request server path args data req_fn w = (res, w') ->
       sent w' = sent w ++ [rq] ->
       server (sent w) rq = Reply r ->
       resp_ok r = false ->
       json_loads (text r) = Some v ->
       no_message v ->
       logged w' = logged w ++ [github_error (http_error r)]).
Proof.
  intros Hrule.
  specialize (Hrule (server_error "[]") (Val (JStr "user")) sample_args JNull None
                empty_world
                {| files := ∅; sent := [user_request sample_args]; logged := [] |}
                (Raise AttributeError) (user_request sample_args)
                {| status_code := 500; reason := "Internal Server Error"; text := "[]" |}
                (JArr [])).
  assert (logged {| files := ∅; sent := [user_request sample_args]; logged := [] |}
          = logged empty_world ++
            [github_error
               (http_error {| status_code := 500; reason := "Internal Server Error";
                              text := "[]" |})]) as Habs.
  { apply Hrule; try (vm_compute; reflexivity). intros d. discriminate. }
  discriminate Habs.
Qed.

(** Bad credentials at the first request: exit status 1, one request. *)
Lemma failed_auth_stops_run_sample :
  exit_status (fst (main server_unauthorized sample_args board_world)) = 1%Z /\
  (sent (snd (main server_unauthorized sample_args board_world)) = sent board_world \/
   sent (snd (main server_unauthorized sample_args board_world))
   = sent board_world ++ [user_request sample_args]) /\
  files (snd (main server_unauthorized sample_args board_world)) = files board_world.
Proof.
  apply (failed_auth_stops_run server_unauthorized sample_args board_world).
  intros r [= <-]. vm_compute; reflexivity.
Defined.

(** No state directory: the sample card cannot be saved. *)
Lemma save_without_statedir_raises_sample :
  exists card : Card,
    Card_init sample_card_data sample_args_no_statedir empty_world = (Ok card, empty_world) /\
    state_file card = None /\
    save server_created card empty_world = (Raise AttributeError, empty_world).
Proof.
  apply (save_without_statedir_raises server_created sample_args_no_statedir
           sample_card_data empty_world).
  reflexivity.
Defined.

(** An export of two cards: only the first is imported, by [save] on the
    card with the state file [state/c1.json]. *)
Lemma driver_stops_after_first_card_sample :
  exists w3 : world,
    files w3 = files board_world /\
    sent w3 = sent board_world ++ [user_request sample_args] /\
    main server_created sample_args board_world =
      (let w4 := {| files := files w3; sent := sent w3;
                    logged := logged w3 ++
                              [{| lg_name := "cards import"; lg_level := DEBUG;
                                  lg_msg := "Card Fix login" |}] |} in
       (match fst (save server_created sample_card w4) with
        | Ok _ => Ok tt
        | Raise e => Raise e
        end, snd (save server_created sample_card w4))) /\
    exists l, sent (snd (main server_created sample_args board_world)) = sent w3 ++ l /\
              length l <= 1.
Proof.
  apply (driver_stops_after_first_card server_created sample_args board_world
           (json_dumps
              (JObj [("name", JStr "Roadmap");
                     ("cards",
                      JArr [sample_card_data;
                            JObj [("id", JStr "c2"); ("name", JStr "Docs");
                                  ("desc", JStr "Write them")]])]))
           [("name", JStr "Roadmap");
            ("cards",
             JArr [sample_card_data;
                   JObj [("id", JStr "c2"); ("name", JStr "Docs");
                         ("desc", JStr "Write them")]])]
           [("url", JStr issue_url)]
           sample_card_data
           [JObj [("id", JStr "c2"); ("name", JStr "Docs"); ("desc", JStr "Write them")]]
           created);
    try (vm_compute; reflexivity).
  - intros dir [= <-]. vm_compute; reflexivity.
  - intros id [= <-]. reflexivity.
Defined.

(** * More of the script *)

Section Coverage.

Variable server : list request -> request -> reply.

Ltac next H a w1 Hstep :=
  apply bind_inv in H as [(a & w1 & Hstep & H) | (? & Hstep & H)];
  [| match type of H with ?r = _ => first [discriminate H | subst r] end].

(** ** What a call changes *)

(** [gh_request] leaves the store alone, sends one request at most, with
    the credentials, and logs one error exactly when it returns [False]. *)
Lemma gh_request_effects (path : pyobj) (args : Args) (data : json)
    (req_fn : option verb) (w w' : world) (res : outcome pyresp) :
  gh_request server path args data req_fn w = (res, w') ->
  files w' = files w /\
  (sent w' = sent w \/
   exists rq, sent w' = sent w ++ [rq] /\ rq_auth rq = credentials args /\
              rq_verb rq = (if truthy data
                            then match req_fn with None => POST | Some f => f end
                            else match req_fn with None => GET | Some f => f end)) /\
  match res with
  | Ok RFalse => exists msg, logged w' = logged w ++ [github_error msg]
  | _ => logged w' = logged w
  end.
Proof.
  rewrite gh_request_run. destruct (py_in "://" path) as [found|e].
  - cbn zeta.
    match goal with |- context [server ?h ?q] => destruct (server h q) as [r|] end.
    + destruct (resp_ok r).
      * intros [= <- <-]. cbn. split; [reflexivity|]. split; [|reflexivity].
        right. eexists. split; [reflexivity|]. split; reflexivity.
      * destruct (json_loads (text r)) as [[ | | | | | d]|];
          try (intros [= <- <-]; cbn; split; [reflexivity|]; split;
               [right; eexists; split; [reflexivity|]; split; reflexivity
               | first [reflexivity | eexists; reflexivity]]).
        destruct (dict_get "message" d); intros [= <- <-]; cbn;
          (split; [reflexivity|]; split;
           [right; eexists; split; [reflexivity|]; split; reflexivity
           | eexists; reflexivity]).
    + intros [= <- <-]. cbn. split; [reflexivity|]. split; [|reflexivity].
      right. eexists. split; [reflexivity|]. split; reflexivity.
  - intros [= <- <-]. split; [reflexivity|]. split; [now left | reflexivity].
Qed.

(** [save]: one request at most, a POST or a PATCH with the credentials;
    one error logged exactly when it returns [False]; the state file of
    the card written exactly when it returns [True], and no other file
    ever. *)
Lemma save_effects (card : Card) (w w' : world) (res : outcome bool) :
  save server card w = (res, w') ->
  (sent w' = sent w \/
   exists rq, sent w' = sent w ++ [rq] /\ rq_auth rq = credentials (card_args card) /\
              (rq_verb rq = POST \/ rq_verb rq = PATCH)) /\
  match res with
  | Ok false => (exists msg, logged w' = logged w ++ [github_error msg]) /\
                files w' = files w /\
                exists rq, sent w' = sent w ++ [rq]
  | Ok true => logged w' = logged w /\
               exists p txt, state_file card = Some p /\
                             files w' = <[p := txt]> (files w)
  | Raise _ => logged w' = logged w /\ files w' = files w
  end.
Proof.
  rewrite save_split. intros H.
  next H rq w0 Hrq.
  2:{ pose proof (save_request_world _ _ _ _ Hrq) as ->. auto. }
  pose proof (save_request_world _ _ _ _ Hrq) as ->.
  destruct rq as [[fn url] st]. cbn [fst snd] in H.
  destruct (save_request_ok _ _ _ _ _ _ Hrq) as (d & n & ds & -> & _ & _ & Ht & _).
  assert (fn = None \/ fn = Some PATCH) as Hfn.
  { rewrite save_request_run in Hrq.
    destruct (Card_state card w) as [[state|e] w1]; [|discriminate].
    cbn zeta in Hrq. destruct (truthy state).
    - destruct (getitem state "url"); [|discriminate].
      destruct (getitem (card_data card) "name"); [|discriminate].
      destruct (setitem state "title" a0); [|discriminate].
      destruct (getitem (card_data card) "desc"); [|discriminate].
      destruct (setitem a1 "body" a2); [|discriminate].
      injection Hrq as <- _ _ _. now right.
    - destruct (getitem (card_data card) "name"); [|discriminate].
      cbn [setitem] in Hrq.
      destruct (getitem (card_data card) "desc"); [|discriminate].
      injection Hrq as <- _ _ _. now left. }
  next H req w2 Hgh.
  - destruct (gh_request_effects _ _ _ _ _ _ _ Hgh) as (Hf & Hs & Hl).
    rewrite (dict_get_truthy _ _ _ Ht) in Hs.
    assert (sent w2 = sent w \/
            exists rq, sent w2 = sent w ++ [rq] /\
                       rq_auth rq = credentials (card_args card) /\
                       (rq_verb rq = POST \/ rq_verb rq = PATCH)) as Hs'.
    { destruct Hs as [Hs | (rq & Hs & Ha & Hv)]; [now left|]. right.
      exists rq. repeat split; try assumption.
      destruct Hfn as [-> | ->]; rewrite Hv; auto. }
    destruct req as [|r].
    + rewrite save_result_false in H. injection H as <- <-.
      split; [exact Hs'|]. split; [exact Hl|]. split; [exact Hf|].
      rewrite gh_request_run in Hgh.
      destruct (py_in "://" url); [|discriminate]. cbn zeta in Hgh.
      match type of Hgh with context [server ?h ?q] => destruct (server h q) as [r|] end;
        [|discriminate].
      destruct (resp_ok r); [discriminate|].
      destruct (json_loads (text r)) as [[ | | | | | d']|]; try discriminate;
        try (injection Hgh as <-; eexists; reflexivity).
      destruct (dict_get "message" d'); injection Hgh as <-; eexists; reflexivity.
    + destruct (gh_request_response _ _ _ _ _ _ _ _ Hgh) as (Hok & _).
      rewrite (save_result_run _ _ _ _ Hok) in H.
      destruct (json_loads (text r)) as [data|];
        [|injection H as <- <-; now rewrite Hf].
      destruct (getitem data "url") as [u|];
        [|injection H as <- <-; now rewrite Hf].
      cbn [setitem] in H.
      destruct (state_file card) as [p|];
        [|injection H as <- <-; now rewrite Hf].
      injection H as <- <-. cbn [sent logged files].
      split; [exact Hs'|]. split; [exact Hl|].
      exists p. eexists. split; [reflexivity|]. now rewrite Hf.
  - destruct (gh_request_effects _ _ _ _ _ _ _ Hgh) as (Hf & Hs & Hl).
    rewrite (dict_get_truthy _ _ _ Ht) in Hs.
    split; [|now split].
    destruct Hs as [Hs | (rq & Hs & Ha & Hv)]; [now left|]. right.
    exists rq. repeat split; try assumption.
    destruct Hfn as [-> | ->]; rewrite Hv; auto.
Qed.


(** ** What a run changes *)

Lemma logs_more_refl (w : world) : logs_more w w.
Proof. exists []. split; [now rewrite app_nil_r | constructor]. Qed.

Lemma logs_more_trans (w1 w2 w3 : world) :
  logs_more w1 w2 -> logs_more w2 w3 -> logs_more w1 w3.
Proof.
  intros (l1 & H1 & F1) (l2 & H2 & F2). exists (l1 ++ l2). split.
  - now rewrite H2, H1, app_assoc.
  - now apply Forall_app.
Qed.

Lemma logs_more_same (w w' : world) : logged w' = logged w -> logs_more w w'.
Proof. intros H. exists []. split; [now rewrite app_nil_r | constructor]. Qed.

Lemma log_effects (name : string) (lv : level) (msg : string) (w w' : world)
    (r : outcome unit) :
  log name lv msg w = (r, w') ->
  r = Ok tt /\ files w' = files w /\ sent w' = sent w /\
  logged w' = logged w ++ [{| lg_name := name; lg_level := lv; lg_msg := msg |}].
Proof. now intros [= <- <-]. Qed.

Lemma logs_more_log (name : string) (lv : level) (msg : string) (w w' : world)
    (r : outcome unit) :
  script_level lv = true -> log name lv msg w = (r, w') -> logs_more w w'.
Proof.
  intros Hlv H. apply log_effects in H as (_ & _ & _ & H).
  eexists. split; [exact H|]. now repeat constructor.
Qed.

Lemma logs_more_error (w w' : world) (msg : string) :
  logged w' = logged w ++ [github_error msg] -> logs_more w w'.
Proof. intros H. eexists. split; [exact H|]. now repeat constructor. Qed.

Lemma Card_init_effects (data : json) (args : Args) (w w' : world) (card : Card) :
  Card_init data args w = (Ok card, w') ->
  w' = w /\ card_args card = args /\ card_data card = data /\
  (statedir args = None -> state_file card = None).
Proof.
  unfold Card_init. destruct (statedir args) as [dir|].
  - unfold bind, lift, ret. destruct (getitem data "id"); [|discriminate].
    intros [= <- <-]. repeat split. discriminate.
  - intros [= <- <-]. repeat split.
Qed.

(** The loop body: what [save] does, after one debug record. *)
Lemma import_card_effects (args : Args) (c : json) (w w' : world) (res : outcome flow) :
  import_card server args c w = (res, w') ->
  (sent w' = sent w \/ exists rq, sent w' = sent w ++ [rq] /\ card_request args rq) /\
  wrote_one w w' /\ logs_more w w' /\
  (statedir args = None -> sent w' = sent w /\ files w' = files w).
Proof.
  unfold import_card. intros H.
  next H name w1 Hs.
  2:{ apply lift_inv in Hs as [-> Hs]. apply getitem_raise in Hs.
      repeat split; auto using logs_more_refl; now left. }
  apply lift_inv in Hs as [-> _].
  next H u1 w2 Hs.
  2:{ discriminate Hs. }
  pose proof (logs_more_log "cards import" DEBUG _ _ _ _ eq_refl Hs) as Hlog.
  apply log_effects in Hs as (_ & Hf2 & Hs2 & _).
  next H card w3 Hs.
  2:{ apply Card_init_inv in Hs as Hw. subst w2.
      repeat split; auto; now left. }
  apply Card_init_effects in Hs as (-> & Hargs & _ & Hnone).
  assert (statedir args = None -> forall r w4, save server card w2 = (r, w4) ->
          w4 = w2 /\ r = Raise AttributeError) as Hnodir.
  { intros Hdir r w4 Hsave.
    assert (save server card w2 = (Raise AttributeError, w2)) as Hr.
    { apply (save_request_raise _ _ w2 w2). rewrite save_request_run.
      now rewrite Card_state_none by auto. }
    rewrite Hr in Hsave. now injection Hsave as <- <-. }
  next H ok w4 Hs.
  - injection H as <- <-.
    destruct (save_effects _ _ _ _ Hs) as (Hsent & Hrest).
    rewrite Hargs in Hsent.
    split; [|split; [|split]].
    + destruct Hsent as [Hsent | (rq & Hsent & Hrq)]; rewrite Hsent, Hs2;
        [now left | right; eauto].
    + destruct ok.
      * destruct Hrest as (_ & p & txt & _ & Hf). right. exists p, txt.
        now rewrite Hf, Hf2.
      * destruct Hrest as (_ & Hf & _). left. now rewrite Hf.
    + apply (logs_more_trans _ _ _ Hlog). destruct ok.
      * destruct Hrest as (Hl & _). now apply logs_more_same.
      * destruct Hrest as ((msg & Hl) & _). now apply (logs_more_error _ _ msg).
    + intros Hdir. destruct (Hnodir Hdir _ _ Hs) as [_ [=]].
  - destruct (save_effects _ _ _ _ Hs) as (Hsent & Hl & Hf).
    rewrite Hargs in Hsent.
    split; [|split; [|split]].
    + destruct Hsent as [Hsent | (rq & Hsent & Hrq)]; rewrite Hsent, Hs2;
        [now left | right; eauto].
    + left. now rewrite Hf.
    + apply (logs_more_trans _ _ _ Hlog). now apply logs_more_same.
    + intros Hdir. destruct (Hnodir Hdir _ _ Hs) as [-> _]. now split.
Qed.


(** The ways through [main]: it stops before any request, or it stops at
    the authentication request, or it reaches the loop, which is empty or
    is the body on the first card. *)
Lemma main_cases (args : Args) (w w' : world) (res : outcome unit) :
  main server args w = (res, w') ->
  (exists e, res = Raise e /\ exit_status res = 1%Z /\
             sent w' = sent w /\ files w' = files w /\ logs_more w w') \/
  (exists (txt : string) (trello_data cards : json) (n : nat),
     files w !! trello_json args = Some txt /\
     json_loads txt = Some trello_data /\
     getitem trello_data "cards" = Ok cards /\ py_len cards = Ok n /\
     ((exists e, res = Raise e /\ exit_status res = 1%Z /\
                 sent w' = sent w ++ [user_request args] /\ files w' = files w /\
                 logs_more w w') \/
      (exists (w3 : world) (items : list json),
         py_iter cards = Ok items /\
         sent w3 = sent w ++ [user_request args] /\ files w3 = files w /\
         logs_more w w3 /\
         ((items = [] /\ res = Ok tt /\ w' = w3) \/
          (exists c rest r',
             items = c :: rest /\ import_card server args c w3 = (r', w') /\
             res = match r' with Ok _ => Ok tt | Raise e => Raise e end))))).
Proof.
  unfold main. intros H.
  next H txt w1 Hs.
  2:{ apply open_read_inv in Hs as [-> Hs]. left.
      destruct (files w !! trello_json args); [discriminate|]. injection Hs as ->.
      eexists. repeat split. apply logs_more_refl. }
  apply open_read_inv in Hs as [-> Htxt].
  assert (files w !! trello_json args = Some txt) as Hfile
    by (destruct (files w !! trello_json args); congruence).
  clear Htxt.
  next H trello_data w1 Hs.
  2:{ apply json_load_inv in Hs as [-> Hs]. left.
      destruct (json_loads txt); [discriminate|]. injection Hs as ->.
      eexists. repeat split. apply logs_more_refl. }
  apply json_load_inv in Hs as [-> Hdata].
  assert (json_loads txt = Some trello_data) as Hload
    by (destruct (json_loads txt); congruence).
  clear Hdata.
  next H name w1 Hs.
  2:{ apply lift_inv in Hs as [-> Hs]. apply py_get_raise in Hs as ->. left.
      eexists. repeat split. apply logs_more_refl. }
  apply lift_inv in Hs as [-> _].
  next H url w1 Hs.
  2:{ apply lift_inv in Hs as [-> Hs]. apply py_get_raise in Hs as ->. left.
      eexists. repeat split. apply logs_more_refl. }
  apply lift_inv in Hs as [-> _].
  next H u1 w1 Hs; [|discriminate Hs].
  pose proof (logs_more_log "root" INFO _ _ _ _ eq_refl Hs) as Hlog1.
  apply log_effects in Hs as (_ & Hf1 & Hs1 & _).
  next H u2 w2 Hs.
  2:{ apply statedir_step_inv in Hs as (_ & _ & -> & -> & _). left.
      eexists. repeat split; assumption. }
  assert (files w2 = files w /\ sent w2 = sent w /\ logs_more w w2) as (Hf2 & Hs2 & Hlog2).
  { apply statedir_step_inv in Hs as (Hf2 & Hs2 & _ & Hl).
    repeat split; try congruence.
    apply (logs_more_trans _ _ _ Hlog1). eexists. split; [exact Hl|].
    destruct (statedir args); now repeat constructor. }
  clear Hs Hf1 Hs1 Hlog1 w1 u1 u2.
  next H cards w1 Hs.
  2:{ apply lift_inv in Hs as [-> Hs]. left.
      apply getitem_raise in Hs as [-> | ->]; eexists; repeat split; assumption. }
  apply lift_inv in Hs as [-> Hcards].
  next H n w1 Hs.
  2:{ apply lift_inv in Hs as [-> Hs]. apply py_len_raise in Hs as ->. left.
      eexists. repeat split; assumption. }
  apply lift_inv in Hs as [-> Hlen].
  next H u1 w1 Hs; [|discriminate Hs].
  pose proof (logs_more_log "cards import" INFO _ _ _ _ eq_refl Hs) as Hl.
  apply log_effects in Hs as (_ & Hf1 & Hs1 & _).
  assert (logs_more w w1) as Hlog1 by exact (logs_more_trans _ _ _ Hlog2 Hl).
  rewrite Hf2 in Hf1. rewrite Hs2 in Hs1. clear Hl Hlog2 Hf2 Hs2 w2 u1.
  right. exists txt, trello_data, cards, n.
  split; [exact Hfile|]. split; [exact Hload|]. split; [exact Hcards|].
  split; [exact Hlen|].
  assert (exists aw, aw = {| files := files w1; sent := sent w1 ++ [user_request args];
                            logged := logged w1 |}) as (aw & Haw) by eauto.
  assert (sent aw = sent w ++ [user_request args] /\ files aw = files w /\ logs_more w aw)
    as (Hsa & Hfa & Hla).
  { subst aw. cbn. rewrite Hs1, Hf1. repeat split.
    apply (logs_more_trans _ _ _ Hlog1). now apply logs_more_same. }
  next H req w3 Hgh.
  - rewrite gh_request_run in Hgh. cbn [py_in] in Hgh.
    change (str_contains "://" "user") with false in Hgh.
    cbn zeta in Hgh. cbn [truthy str_obj py_str] in Hgh.
    match type of Hgh with context [server _ ?q] =>
      change q with (user_request args) in Hgh end.
    rewrite <- Haw in Hgh.
    destruct (server (sent w1) (user_request args)) as [r|]; [|discriminate Hgh].
    destruct (resp_ok r) eqn:Hok.
    + injection Hgh as <- <-. cbn [resp_truthy] in H. rewrite Hok in H. cbn [negb] in H.
      next H user w4 Hs.
      2:{ apply json_load_inv in Hs as [-> Hs]. left.
          destruct (json_loads (text r)); [discriminate|]. injection Hs as ->.
          eexists. now repeat split. }
      apply json_load_inv in Hs as [-> _].
      next H uname w4 Hs.
      2:{ apply lift_inv in Hs as [-> Hs]. apply py_get_raise in Hs as ->. left.
          eexists. now repeat split. }
      apply lift_inv in Hs as [-> _].
      next H u1 w4 Hs; [|discriminate Hs].
      pose proof (logs_more_log "root" INFO _ _ _ _ eq_refl Hs) as Hl4.
      apply log_effects in Hs as (_ & Hf4 & Hs4 & _).
      next H cards' w5 Hs.
      2:{ apply lift_inv in Hs as [_ Hs]. congruence. }
      apply lift_inv in Hs as [-> Hc']. assert (cards' = cards) as -> by congruence.
      next H items w5 Hs.
      2:{ apply lift_inv in Hs as [_ Hs]. exfalso.
          destruct cards; cbn in Hs, Hlen; discriminate. }
      apply lift_inv in Hs as [-> Hitems].
      right. exists w4, items.
      split; [exact Hitems|].
      split; [now rewrite Hs4|]. split; [now rewrite Hf4|].
      split; [exact (logs_more_trans _ _ _ Hla Hl4)|].
      destruct items as [|c rest].
      * left. cbn [for_each] in H. now injection H as <- <-.
      * right. rewrite bind_discard, for_each_import_first in H.
        destruct (import_card server args c w4) as [r' w6] eqn:Hic.
        cbn [fst snd] in H. injection H as <- <-. now exists c, rest, r'.
    + left. assert (exists w4, (Ok req, w3) = (Ok RFalse, w4) /\ sent w4 = sent aw /\
                     files w4 = files aw /\ logs_more aw w4) as (w4 & [= -> ->] & Hs4 & Hf4 & Hl4).
      { destruct (json_loads (text r)) as [[ | | | | | d]|]; try discriminate Hgh;
          try (eexists; split; [exact (eq_sym Hgh)|]; subst aw; cbn;
               repeat split; eapply logs_more_error; reflexivity).
        destruct (dict_get "message" d);
          (eexists; split; [exact (eq_sym Hgh)|]; subst aw; cbn;
           repeat split; eapply logs_more_error; reflexivity). }
      injection H as <- <-. eexists. split; [reflexivity|].
      split; [reflexivity|]. split; [now rewrite Hs4|]. split; [now rewrite Hf4|].
      exact (logs_more_trans _ _ _ Hla Hl4).
  - left. rewrite gh_request_run in Hgh. cbn [py_in] in Hgh.
    change (str_contains "://" "user") with false in Hgh.
    cbn zeta in Hgh. cbn [truthy str_obj py_str] in Hgh.
    match type of Hgh with context [server _ ?q] =>
      change q with (user_request args) in Hgh end.
    rewrite <- Haw in Hgh.
    destruct (server (sent w1) (user_request args)) as [r|].
    + destruct (resp_ok r); [discriminate Hgh|].
      destruct (json_loads (text r)) as [[ | | | | | d]|]; try discriminate Hgh;
        try (injection Hgh as <- <-; eexists; now repeat split).
      destruct (dict_get "message" d); discriminate Hgh.
    + injection Hgh as <- <-. eexists. now repeat split.
Qed.


Lemma import_card_needs_statedir (args : Args) (c : json) (w w' : world) (f : flow) :
  statedir args = None -> import_card server args c w = (Ok f, w') -> False.
Proof.
  intros Hdir H. unfold import_card in H.
  next H name w1 Hs.
  next H u1 w2 Hs1.
  next H card w3 Hs2.
  apply Card_init_effects in Hs2 as (-> & _ & _ & Hnone).
  next H ok w4 Hs3.
  assert (save server card w2 = (Raise AttributeError, w2)) as Hr.
  { apply (save_request_raise _ _ w2 w2). rewrite save_request_run.
    now rewrite Card_state_none by auto. }
  rewrite Hr in Hs3. discriminate.
Qed.

(** ** The whole run *)

(** X1.  A run sends two requests at most: first the authenticated GET of
    [user], then one POST or PATCH for a card; every request carries the
    configured user name and password. *)
Theorem run_sends_two_requests_at_most (args : Args) (w : world) :
  exists l : list request,
    sent (snd (main server args w)) = sent w ++ l /\
    (l = [] \/ l = [user_request args] \/
     exists rq, l = [user_request args; rq] /\
                rq_auth rq = (github_user args, github_password args) /\
                (rq_verb rq = POST \/ rq_verb rq = PATCH)) /\
    Forall (fun rq => rq_auth rq = (github_user args, github_password args)) l.
Proof.
  destruct (main server args w) as [res w'] eqn:H. cbn [snd].
  apply main_cases in H
    as [(e & _ & _ & Hs & _)
       | (txt & data & cards & n & _ & _ & _ & _
          & [(e & _ & _ & Hs & _)
            | (w3 & items & _ & Hs3 & _ & _
               & [(_ & _ & ->) | (c & rest & r' & _ & Hic & _)])])].
  - exists []. rewrite app_nil_r. repeat split; auto.
  - exists [user_request args]. repeat split; auto.
  - exists [user_request args]. repeat split; auto.
  - destruct (import_card_effects _ _ _ _ _ Hic) as ([Hs | (rq & Hs & Ha & Hv)] & _).
    + exists [user_request args]. rewrite Hs, Hs3. repeat split; auto.
    + exists [user_request args; rq]. rewrite Hs, Hs3, <- app_assoc.
      split; [reflexivity|]. split; [right; right; now exists rq|].
      now repeat constructor.
Qed.

(** X2.  A run writes one file at most. *)
Theorem run_writes_one_file_at_most (args : Args) (w : world) :
  files (snd (main server args w)) = files w \/
  exists (p txt : string), files (snd (main server args w)) = <[p := txt]> (files w).
Proof.
  destruct (main server args w) as [res w'] eqn:H. cbn [snd].
  apply main_cases in H
    as [(e & _ & _ & _ & Hf & _)
       | (txt & data & cards & n & _ & _ & _ & _
          & [(e & _ & _ & _ & Hf & _)
            | (w3 & items & _ & _ & Hf3 & _
               & [(_ & _ & ->) | (c & rest & r' & _ & Hic & _)])])]; auto.
  destruct (import_card_effects _ _ _ _ _ Hic) as (_ & [Hf | (p & t & Hf)] & _).
  - left. now rewrite Hf.
  - right. exists p, t. now rewrite Hf, Hf3.
Qed.

Lemma shown_nothing_at_critical (args : Args) (l : list log_record) :
  loglevel args = CRITICAL ->
  Forall (fun r => script_level (lg_level r) = true) l -> shown args l = [].
Proof.
  intros Hlv. unfold shown. rewrite Hlv.
  induction 1 as [|r l Hr _ IH]; [reflexivity|]. cbn [List.filter].
  rewrite IH. now destruct (lg_level r).
Qed.

(** X3.  A run logs at the levels DEBUG, INFO and ERROR only, never at
    WARNING or CRITICAL; with [--loglevel CRITICAL] none of its records
    reaches standard error, the error of a failed request included. *)
Theorem run_never_logs_above_error (args : Args) (w : world) :
  exists l : list log_record,
    logged (snd (main server args w)) = logged w ++ l /\
    Forall (fun r => lg_level r <> WARNING /\ lg_level r <> CRITICAL) l /\
    (loglevel args = CRITICAL -> shown args l = []).
Proof.
  assert (logs_more w (snd (main server args w))) as (l & Hl & HF).
  { destruct (main server args w) as [res w'] eqn:H. cbn [snd].
    apply main_cases in H
      as [(e & _ & _ & _ & _ & Hl)
         | (txt & data & cards & n & _ & _ & _ & _
            & [(e & _ & _ & _ & _ & Hl)
              | (w3 & items & _ & _ & _ & Hl3
                 & [(_ & _ & ->) | (c & rest & r' & _ & Hic & _)])])]; auto.
    destruct (import_card_effects _ _ _ _ _ Hic) as (_ & _ & Hl & _).
    exact (logs_more_trans _ _ _ Hl3 Hl). }
  exists l. split; [exact Hl|]. split.
  - eapply Forall_impl; [exact HF|]. intros r Hr. cbn in Hr.
    destruct (lg_level r); try discriminate; split; discriminate.
  - intros Hlv. now apply shown_nothing_at_critical.
Qed.

(** X4.  Without [--statedir] a run imports nothing: it sends no request
    but the authentication request, it writes no file, and it can end
    normally only when the export has no card to iterate over. *)
Theorem run_without_statedir_imports_nothing (args : Args) (w : world) :
  statedir args = None ->
  (sent (snd (main server args w)) = sent w \/
   sent (snd (main server args w)) = sent w ++ [user_request args]) /\
  files (snd (main server args w)) = files w /\
  (fst (main server args w) = Ok tt ->
   exists (txt : string) (trello_data cards : json),
     files w !! trello_json args = Some txt /\
     json_loads txt = Some trello_data /\
     getitem trello_data "cards" = Ok cards /\
     py_iter cards = Ok []).
Proof.
  intros Hdir.
  destruct (main server args w) as [res w'] eqn:H. cbn [fst snd].
  apply main_cases in H
    as [(e & -> & _ & Hs & Hf & _)
       | (txt & data & cards & n & Hfile & Hload & Hcards & _
          & [(e & -> & _ & Hs & Hf & _)
            | (w3 & items & Hitems & Hs3 & Hf3 & _
               & [(-> & -> & ->) | (c & rest & r' & -> & Hic & ->)])])].
  - repeat split; auto. discriminate.
  - repeat split; auto. discriminate.
  - repeat split; auto. intros _. now exists txt, data, cards.
  - destruct (import_card_effects _ _ _ _ _ Hic) as (_ & _ & _ & Hno).
    destruct (Hno Hdir) as [Hs Hf]. rewrite Hs, Hf.
    repeat split; auto.
    destruct r' as [f|e]; [|discriminate].
    now destruct (import_card_needs_statedir _ _ _ _ _ Hdir Hic).
Qed.

(** X5.  When the export's [cards] member is missing, or is an object
    with no length (a number, a boolean, [null]), the run stops on an
    exception before it sends anything: exit status 1, no request, no
    file written. *)
Theorem run_without_cards_sends_nothing (args : Args) (w : world) (txt : string)
    (doc : list (string * json)) :
  files w !! trello_json args = Some txt ->
  json_loads txt = Some (JObj doc) ->
  (dict_get "cards" doc = None \/
   exists c e, dict_get "cards" doc = Some c /\ py_len c = Raise e) ->
  (exists e, fst (main server args w) = Raise e) /\
  exit_status (fst (main server args w)) = 1%Z /\
  sent (snd (main server args w)) = sent w /\
  files (snd (main server args w)) = files w.
Proof.
  intros Hfile Hload Hbad.
  destruct (main server args w) as [res w'] eqn:H. cbn [fst snd].
  apply main_cases in H
    as [(e & -> & Hx & Hs & Hf & _)
       | (txt' & data & cards & n & Hfile' & Hload' & Hcards & Hlen & _)].
  - repeat split; eauto.
  - exfalso. assert (txt' = txt) as -> by congruence.
    assert (data = JObj doc) as -> by congruence.
    cbn [getitem] in Hcards.
    destruct Hbad as [Hnone | (c & e & Hc & Hl)].
    + now rewrite Hnone in Hcards.
    + rewrite Hc in Hcards. injection Hcards as <-. congruence.
Qed.


(** X6.  An export that cannot be used stops the run at once, with the
    world as it was (nothing logged, sent or written): a missing file
    raises ENOENT, a file that begins with no JSON value (an empty file,
    a web page) raises ValueError, and a document that is a list, a
    string, a number, a boolean or [null] raises AttributeError. *)
Theorem unreadable_export_stops_run (args : Args) (w : world) (e : exn) :
  (files w !! trello_json args = None /\ e = ENOENT) \/
  (exists txt : string,
     files w !! trello_json args = Some txt /\
     (no_json txt = true /\ e = ValueError \/
      exists v : json,
        json_loads txt = Some v /\ (forall d, v <> JObj d) /\ e = AttributeError)) ->
  main server args w = (Raise e, w).
Proof.
  intros [[Hfile ->] | (txt & Hfile & [[Hno ->] | (v & Hload & Hv & ->)])]; unfold main.
  - erewrite bind_raise by (unfold open_read; now rewrite Hfile). reflexivity.
  - apply no_json_loads in Hno.
    erewrite bind_ok by (unfold open_read; now rewrite Hfile).
    erewrite bind_raise by (unfold json_load; now rewrite Hno). reflexivity.
  - erewrite bind_ok by (unfold open_read; now rewrite Hfile).
    erewrite bind_ok by (unfold json_load; now rewrite Hload).
    destruct v as [ | | | | | d]; try reflexivity. now destruct (Hv d).
Qed.

Ltac run_steps :=
  repeat (cbn beta; cbn [py_len py_iter files sent logged];
          first [rewrite bind_lift_ok | rewrite bind_log | rewrite bind_ret]).

(** X7.  An export with nothing to iterate over in [cards] (an empty
    array, object or string): once the state directory, if any, is made
    sure of (no file stands in its way) and the authentication request
    has succeeded, the run returns normally, exit status 0, having sent
    that one request and written nothing. *)
Theorem run_on_empty_export (args : Args) (w : world) (txt : string)
    (doc user : list (string * json)) (cards : json) (r : response) :
  files w !! trello_json args = Some txt ->
  json_loads txt = Some (JObj doc) ->
  dict_get "cards" doc = Some cards ->
  py_iter cards = Ok [] ->
  (forall dir, statedir args = Some dir -> blocked (files w) dir = false) ->
  server (sent w) (user_request args) = Reply r ->
  resp_ok r = true ->
  json_loads (text r) = Some (JObj user) ->
  fst (main server args w) = Ok tt /\
  exit_status (fst (main server args w)) = 0%Z /\
  sent (snd (main server args w)) = sent w ++ [user_request args] /\
  files (snd (main server args w)) = files w.
Proof.
  intros Hfile Htxt Hcards Hiter Hdir Hr Hok Huser.
  assert (exists n, py_len cards = Ok n) as [n Hlen]
    by (destruct cards; try discriminate; cbn; eauto).
  assert (exists w', main server args w = (Ok tt, w') /\
                     sent w' = sent w ++ [user_request args] /\ files w' = files w)
    as (w' & -> & Hs & Hf); [|now repeat split].
  unfold main.
  erewrite bind_ok by (unfold open_read; now rewrite Hfile).
  erewrite bind_ok by (unfold json_load; now rewrite Htxt).
  cbn [py_get getitem]. rewrite Hcards.
  destruct (dict_get "name" doc), (dict_get "url" doc),
    (dict_get "name" user) eqn:Huname;
    run_steps;
    (erewrite bind_ok
       by (apply statedir_step_ok; intros dir Hd; cbn [files]; now apply Hdir));
    run_steps; rewrite Hlen; run_steps;
    (erewrite bind_ok by (apply auth_request_ok; [exact Hr | exact Hok]));
    cbn beta; cbn [negb resp_truthy]; rewrite Hok; cbn [negb];
    (erewrite bind_ok by (unfold json_load; now rewrite Huser));
    cbn beta; cbn [py_get]; rewrite Huname;
    run_steps; rewrite Hiter; run_steps;
    (eexists; split; [reflexivity | split; reflexivity]).
Qed.


(** ** Saving a card *)

(** X8.  [save] sends one request at most, and it is a POST or a PATCH
    sent with the configured user name and password, never a GET. *)
Theorem save_sends_one_card_request (card : Card) (w : world) :
  sent (snd (save server card w)) = sent w \/
  exists rq : request,
    sent (snd (save server card w)) = sent w ++ [rq] /\
    rq_auth rq = (github_user (card_args card), github_password (card_args card)) /\
    (rq_verb rq = POST \/ rq_verb rq = PATCH).
Proof.
  destruct (save server card w) as [res w'] eqn:H. cbn [snd].
  exact (proj1 (save_effects _ _ _ _ H)).
Qed.

(** X9.  Whatever [save] does, every file but the state file of the card
    is left as it was. *)
Theorem save_keeps_other_files (card : Card) (w : world) (q : string) :
  state_file card <> Some q ->
  files (snd (save server card w)) !! q = files w !! q.
Proof.
  intros Hq. destruct (save server card w) as [res w'] eqn:H. cbn [snd].
  destruct (save_effects _ _ _ _ H) as (_ & Hres).
  destruct res as [[|]|e].
  - destruct Hres as (_ & p & txt & Hp & ->).
    apply lookup_insert_ne. congruence.
  - now destruct Hres as (_ & -> & _).
  - now destruct Hres as (_ & ->).
Qed.

(** X10.  [save] returns [False] only after a request was sent and the
    request client logged one error on the logger [github]; the store is
    then unchanged. *)
Theorem save_false_is_logged (card : Card) (w w' : world) :
  save server card w = (Ok false, w') ->
  exists (msg : string) (rq : request),
    logged w' = logged w ++ [github_error msg] /\
    sent w' = sent w ++ [rq] /\
    files w' = files w.
Proof.
  intros H. destruct (save_effects _ _ _ _ H) as (_ & (msg & Hl) & Hf & rq & Hs).
  now exists msg, rq.
Qed.

(** X11.  A state file that begins with no JSON value (an empty file, a
    web page) makes [save] raise ValueError: the exception of
    [json.load] is not caught, nothing is sent and nothing is written. *)
Theorem corrupt_state_file_raises (card : Card) (w : world) (p txt : string) :
  state_file card = Some p ->
  files w !! p = Some txt ->
  no_json txt = true ->
  save server card w = (Raise ValueError, w).
Proof.
  intros Hp Hfile Hload. apply no_json_loads in Hload.
  apply (save_request_raise _ _ w w).
  rewrite save_request_run, (Card_state_present _ _ _ _ Hp Hfile), Hload. reflexivity.
Qed.

(** X12.  A state file whose document is false in a condition, such as
    [{}], [null], [[]], [0] or the empty string, counts as no state:
    [save] creates, with the payload [{title, body}] alone. *)
Theorem falsy_state_creates (card : Card) (w : world) (p txt : string)
    (v n ds : json) :
  state_file card = Some p ->
  files w !! p = Some txt ->
  json_loads txt = Some v ->
  truthy v = false ->
  getitem (card_data card) "name" = Ok n ->
  getitem (card_data card) "desc" = Ok ds ->
  exists rq : request,
    sent (snd (save server card w)) = sent w ++ [rq] /\
    rq_verb rq = POST /\
    rq_data rq = JStr (json_dumps (JObj [("title", n); ("body", ds)])).
Proof.
  intros Hp Hfile Hload Hfalse Hn Hds.
  assert (Card_state card w = (Ok v, w)) as Hst
    by now rewrite (Card_state_present _ _ _ _ Hp Hfile), Hload.
  pose proof (save_request_create card w v n ds Hst Hfalse Hn Hds) as Hrq.
  eexists. rewrite (save_sent _ _ _ _ _ _ Hrq).
  cbn [py_in existsb is_str]. rewrite issues_path_not_separator. cbn [orb].
  repeat split.
Qed.

(** X13.  A state file whose document is true in a condition but gives
    no [url] (an object without that member raises KeyError, a list, a
    string or a number TypeError) makes [save] raise; nothing is sent and
    nothing is written. *)
Theorem state_without_url_raises (card : Card) (w : world) (p txt : string)
    (v : json) (e : exn) :
  state_file card = Some p ->
  files w !! p = Some txt ->
  json_loads txt = Some v ->
  truthy v = true ->
  getitem v "url" = Raise e ->
  save server card w = (Raise e, w).
Proof.
  intros Hp Hfile Hload Htrue Hu. apply (save_request_raise _ _ w w).
  rewrite save_request_run, (Card_state_present _ _ _ _ Hp Hfile), Hload.
  cbn zeta. now rewrite Htrue, Hu.
Qed.

(** X14.  A card without [name], or with [name] and without [desc],
    cannot be saved: the lookup raises before any request is sent, and
    nothing is written.  (Here the card has no state yet.) *)
Theorem card_without_name_raises (card : Card) (w : world) (p : string) (e : exn) :
  state_file card = Some p ->
  files w !! p = None ->
  (getitem (card_data card) "name" = Raise e \/
   exists n, getitem (card_data card) "name" = Ok n /\
             getitem (card_data card) "desc" = Raise e) ->
  save server card w = (Raise e, w).
Proof.
  intros Hp Hfile Hbad. apply (save_request_raise _ _ w w).
  rewrite save_request_run, (Card_state_absent _ _ _ Hp Hfile). cbn zeta.
  cbn [truthy]. destruct Hbad as [-> | (n & -> & Hd)]; [reflexivity|].
  cbn [setitem]. now rewrite Hd.
Qed.


(** X15.  An update keeps what else the state file held: every member of
    the stored dict other than [title], [body] and [url] is written back
    unchanged. *)
Theorem update_keeps_other_members (card : Card) (w w1 : world) (p txt : string)
    (d : list (string * json)) :
  state_file card = Some p ->
  files w !! p = Some txt ->
  json_loads txt = Some (JObj d) ->
  d <> [] ->
  save server card w = (Ok true, w1) ->
  exists d' : list (string * json),
    files w1 !! p = Some (json_dumps (JObj d')) /\
    forall k : string,
      k <> "title"%string -> k <> "body"%string -> k <> "url"%string ->
      dict_get k d' = dict_get k d.
Proof.
  intros Hp Hfile Hload Hd H.
  destruct (save_true _ _ _ _ H)
    as (fn & url & d0 & rq & r & data & u & p' & Hrq & _ & _ & _ & _ & _ & Hp' & ->).
  assert (p' = p) as -> by congruence.
  assert (Card_state card w = (Ok (JObj d), w)) as Hst
    by now rewrite (Card_state_present _ _ _ _ Hp Hfile), Hload.
  destruct (save_request_ok _ _ _ _ _ _ Hrq) as (d1 & n & ds & [= <-] & Hn & Hds & _).
  destruct (dict_get "url" d) as [u0|] eqn:Hu0.
  - rewrite (save_request_update _ _ _ _ _ _ Hst Hu0 Hn Hds) in Hrq.
    injection Hrq as _ _ <-.
    eexists. split; [apply lookup_insert_eq|].
    intros k Ht Hb Hu. now rewrite !dict_get_set_ne by congruence.
  - exfalso. rewrite save_request_run, Hst in Hrq. cbn zeta in Hrq.
    destruct d; [congruence|]. cbn [truthy getitem] in Hrq.
    rewrite Hu0 in Hrq. discriminate.
Qed.

(** The request [save] sent, and how [save] goes on from its answer. *)
Lemma save_after_request (card : Card) (w : world) (rq : request) :
  sent (snd (save server card w)) = sent w ++ [rq] ->
  exists fn url st req w2,
    gh_request server url (card_args card) st fn w = (req, w2) /\
    sent w2 = sent w ++ [rq] /\
    save server card w =
    match req with
    | Ok q => save_result card st q w2
    | Raise e => (Raise e, w2)
    end.
Proof.
  intros Hsent.
  assert (forall l : list request, l = l ++ [rq] -> False) as Hlen.
  { intros l Hl. apply (f_equal length) in Hl. rewrite length_app in Hl.
    cbn in Hl. lia. }
  destruct (save_request card w) as [[[[fn url] st]|e] w0] eqn:Hrq;
    pose proof (save_request_world _ _ _ _ Hrq) as ->.
  - destruct (gh_request server url (card_args card) st fn w) as [req w2] eqn:Hgh.
    exists fn, url, st, req, w2. split; [exact Hgh|].
    assert (save server card w =
            match req with
            | Ok q => save_result card st q w2
            | Raise e => (Raise e, w2)
            end) as Hsave.
    { rewrite save_split, (bind_ok _ _ _ _ _ Hrq). cbn [fst snd].
      destruct req as [q|e]; [now rewrite (bind_ok _ _ _ _ _ Hgh)
                             |now rewrite (bind_raise _ _ _ _ _ Hgh)]. }
    split; [|exact Hsave]. rewrite Hsave in Hsent.
    destruct req as [q|e]; [|exact Hsent].
    destruct (save_result card st q w2) as [res w3] eqn:Hres.
    apply save_result_frame in Hres as (Hs & _). cbn [snd] in Hsent. congruence.
  - rewrite (save_request_raise _ _ _ _ _ Hrq) in Hsent. now apply Hlen in Hsent.
Qed.

(** X16.  A success answer that gives no [url] (its body begins with no
    JSON value, or is a document with no such member) makes [save] raise
    after the request went out: ValueError for the body that is no JSON,
    else the exception of the lookup.  No state file is written, so the
    next run does not know of the request. *)
Theorem success_without_url_leaves_no_state (card : Card) (w : world)
    (rq : request) (r : response) (e : exn) :
  sent (snd (save server card w)) = sent w ++ [rq] ->
  server (sent w) rq = Reply r ->
  resp_ok r = true ->
  (no_json (text r) = true /\ e = ValueError \/
   exists data, json_loads (text r) = Some data /\ getitem data "url" = Raise e) ->
  fst (save server card w) = Raise e /\
  files (snd (save server card w)) = files w /\
  logged (snd (save server card w)) = logged w.
Proof.
  intros Hsent Hr Hok Hbody.
  destruct (save_after_request _ _ _ Hsent) as (fn & url & st & req & w2 & Hgh & Hs2 & ->).
  pose proof (gh_request_files _ _ _ _ _ _ _ _ Hgh) as Hf.
  pose proof (gh_request_reply _ _ _ _ _ _ _ _ _ Hgh Hs2) as Hreply.
  cbn zeta in Hreply. rewrite Hr, Hok in Hreply. destruct Hreply as [-> Hl].
  rewrite (save_result_run _ _ _ _ Hok).
  destruct Hbody as [[Hnone ->] | (data & Hdata & Hu)].
  - apply no_json_loads in Hnone. rewrite Hnone. now repeat split.
  - rewrite Hdata, Hu. now repeat split.
Qed.

(** X17.  When the request gets no response, the exception of requests
    goes through [gh_request] and [save] uncaught: nothing is logged and
    nothing is written. *)
Theorem no_response_raises_through_save (card : Card) (w : world) (rq : request) :
  sent (snd (save server card w)) = sent w ++ [rq] ->
  server (sent w) rq = NoReply ->
  fst (save server card w) = Raise RequestException /\
  files (snd (save server card w)) = files w /\
  logged (snd (save server card w)) = logged w.
Proof.
  intros Hsent Hr.
  destruct (save_after_request _ _ _ Hsent) as (fn & url & st & req & w2 & Hgh & Hs2 & ->).
  pose proof (gh_request_files _ _ _ _ _ _ _ _ Hgh) as Hf.
  pose proof (gh_request_reply _ _ _ _ _ _ _ _ _ Hgh Hs2) as Hreply.
  cbn zeta in Hreply. rewrite Hr in Hreply. destruct Hreply as [-> Hl].
  now repeat split.
Qed.


(** ** The request client *)

(** X18.  For a text path [gh_request] sends exactly one request, whatever
    the server answers.  A path without [://] is put after the API root
    and a slash, any other path is the target as it is.  The payload is
    serialized only when it is truthy: an empty dict goes out as it is,
    with the verb of no payload. *)
Theorem text_path_sends_one_request (s : string) (args : Args) (data : json)
    (req_fn : option verb) (w : world) :
  sent (snd (gh_request server (Val (JStr s)) args data req_fn w)) =
  sent w ++
  [{| rq_verb := match req_fn with
                 | Some f => f
                 | None => if truthy data then POST else GET
                 end;
      rq_url := if str_contains "://" s then s else githubroot args +:+ "/" +:+ s;
      rq_auth := credentials args;
      rq_data := if truthy data then JStr (json_dumps data) else data |}].
Proof.
  rewrite gh_request_run. cbn [py_in str_obj py_str]. cbn zeta.
  assert ((if truthy data
           then match req_fn with None => POST | Some f => f end
           else match req_fn with None => GET | Some f => f end) =
          match req_fn with
          | Some f => f
          | None => if truthy data then POST else GET
          end) as -> by (destruct req_fn, (truthy data); reflexivity).
  fold (credentials args).
  match goal with |- context [server ?h ?q] => destruct (server h q) as [r|] end;
    [|reflexivity].
  destruct (resp_ok r); [reflexivity|].
  destruct (json_loads (text r)) as [[ | | | | | d]|]; try reflexivity.
  destruct (dict_get "message" d); reflexivity.
Qed.

(** X19.  A stored [url] that is a number, a boolean or [null] is no
    target: the test for [://] raises TypeError and [save] ends before
    any request, with no log record and no file written. *)
Theorem scalar_stored_url_raises (card : Card) (w : world) (p txt : string)
    (d : list (string * json)) (u n ds : json) :
  state_file card = Some p ->
  files w !! p = Some txt ->
  json_loads txt = Some (JObj d) ->
  dict_get "url" d = Some u ->
  (u = JNull \/ (exists b, u = JBool b) \/ exists z, u = JNum z) ->
  getitem (card_data card) "name" = Ok n ->
  getitem (card_data card) "desc" = Ok ds ->
  save server card w = (Raise TypeError, w).
Proof.
  intros Hp Hfile Hload Hu Hscalar Hn Hds.
  assert (Card_state card w = (Ok (JObj d), w)) as Hst
    by now rewrite (Card_state_present _ _ _ _ Hp Hfile), Hload.
  rewrite save_split, (bind_ok _ _ _ _ _ (save_request_update _ _ _ _ _ _ Hst Hu Hn Hds)).
  cbn [fst snd].
  assert (py_in "://" (Val u) = Raise TypeError) as Hin
    by (destruct Hscalar as [-> | [(b & ->) | (z & ->)]]; reflexivity).
  erewrite bind_raise; [reflexivity|].
  now rewrite gh_request_run, Hin.
Qed.

(** X20.  An answer whose status is outside 400..599 (a redirect, 304, a
    1xx) counts as success: [gh_request] returns it as it is and logs
    nothing, whatever its body. *)
Theorem answer_outside_error_range_is_returned (path : pyobj) (args : Args)
    (data : json) (req_fn : option verb) (w w' : world) (res : outcome pyresp)
    (rq : request) (r : response) :
  gh_request server path args data req_fn w = (res, w') ->
  sent w' = sent w ++ [rq] ->
  server (sent w) rq = Reply r ->
  (status_code r < 400 \/ 600 <= status_code r)%Z ->
  res = Ok (RResp r) /\ logged w' = logged w /\ files w' = files w.
Proof.
  intros H Hsent Hr Hstatus.
  pose proof (gh_request_files _ _ _ _ _ _ _ _ H) as Hf.
  pose proof (gh_request_reply _ _ _ _ _ _ _ _ _ H Hsent) as Hreply.
  cbn zeta in Hreply. rewrite Hr in Hreply.
  assert (resp_ok r = true) as Hok.
  { unfold resp_ok. destruct Hstatus as [Hlt | Hge].
    - apply Z.leb_gt in Hlt. now rewrite Hlt.
    - apply Z.ltb_ge in Hge. rewrite Hge. now rewrite andb_false_r. }
  rewrite Hok in Hreply. now destruct Hreply.
Qed.

(** X21.  The client never touches the store, and its log tells its
    failures apart: it returns [False] exactly when it added one error
    record of the logger [github]; when it returns a response or raises,
    the log is as before. *)
Theorem client_logs_exactly_its_failures (path : pyobj) (args : Args)
    (data : json) (req_fn : option verb) (w w' : world) (res : outcome pyresp) :
  gh_request server path args data req_fn w = (res, w') ->
  files w' = files w /\
  (res = Ok RFalse <-> exists msg, logged w' = logged w ++ [github_error msg]) /\
  (res <> Ok RFalse -> logged w' = logged w).
Proof.
  intros H. destruct (gh_request_effects _ _ _ _ _ _ _ H) as (Hf & _ & Hl).
  split; [exact Hf|].
  assert (forall msg, logged w' = logged w -> logged w' = logged w ++ [github_error msg] ->
                      False) as Hlen.
  { intros msg H1 H2. rewrite H1 in H2. apply (f_equal length) in H2.
    rewrite length_app in H2. cbn in H2. lia. }
  split; [split|].
  - intros ->. exact Hl.
  - intros (msg & Hmsg). destruct res as [[|r]|e]; [reflexivity| |];
      now destruct (Hlen msg Hl Hmsg).
  - intros Hne. destruct res as [[|r]|e]; [congruence|exact Hl|exact Hl].
Qed.

(** ** Building a card *)

(** X22.  The only file the import of a card can write is the one
    [py.path] names by joining [<id>.json] to the state directory:
    [<statedir>/<id>.json] for a plain [id], the normalised path for an
    [id] with separators or dots ([../other] gives [other.json] beside
    the state directory). *)
Theorem card_file_is_named_by_id (args : Args) (c : json) (w w' : world)
    (res : outcome flow) :
  import_card server args c w = (res, w') ->
  files w' = files w \/
  exists (dir : string) (id : json) (txt : string),
    statedir args = Some dir /\ getitem c "id" = Ok id /\
    files w' = <[path_join dir (py_str id +:+ ".json") := txt]> (files w).
Proof.
  rewrite import_card_run.
  destruct (getitem c "name") as [name|e]; [|intros [= _ <-]; now left].
  cbn zeta.
  match goal with |- context [Card_init c args ?x] =>
    destruct (Card_init c args x) as [[card|e] w2] eqn:Hinit end;
    [|intros [= _ <-]; now left].
  match goal with |- context [save server card ?x] =>
    destruct (save server card x) as [[b|e] w3] eqn:Hsave end.
  - intros [= _ <-]. destruct b.
    + right. apply save_effects in Hsave as (_ & _ & p & txt & Hp & Hf).
      unfold Card_init in Hinit. destruct (statedir args) as [dir|].
      * unfold bind, lift, ret in Hinit.
        destruct (getitem c "id") as [id|]; [|discriminate].
        injection Hinit as <- _. cbn in Hp. injection Hp as <-.
        exists dir, id, txt. repeat split. exact Hf.
      * injection Hinit as <- _. discriminate Hp.
    + left. now apply save_effects in Hsave as (_ & _ & Hf & _).
  - intros [= _ <-]. left. now apply save_effects in Hsave as (_ & _ & Hf).
Qed.

(** X23.  With a state directory, a card that has a [name] and no [id]
    stops the loop body at the construction of the card: the debug
    record is logged, no request is sent and no file is written. *)
Theorem card_without_id_sends_nothing (args : Args) (c : json) (w : world)
    (dir : string) (name : json) (e : exn) :
  statedir args = Some dir ->
  getitem c "name" = Ok name ->
  getitem c "id" = Raise e ->
  fst (import_card server args c w) = Raise e /\
  sent (snd (import_card server args c w)) = sent w /\
  files (snd (import_card server args c w)) = files w /\
  logged (snd (import_card server args c w)) =
  logged w ++ [{| lg_name := "cards import"; lg_level := DEBUG;
                  lg_msg := "Card " +:+ py_str name |}].
Proof.
  intros Hdir Hname Hid. rewrite import_card_run, Hname. cbn zeta.
  unfold Card_init. rewrite Hdir. unfold bind, lift. rewrite Hid.
  now repeat split.
Qed.

(** ** The log level option *)

(** X24.  [LOG_LEVELS] maps exactly the five level names to their
    levels: looking a name up undoes [getLevelName], and any other text
    raises KeyError. *)
Theorem level_names_round_trip (value : string) :
  (forall lv : level, LogLevelAction value = Ok lv <-> value = getLevelName lv) /\
  ((forall lv : level, value <> getLevelName lv) -> LogLevelAction value = Raise KeyError).
Proof.
  assert (forall lv : level, LogLevelAction value = Ok lv -> value = getLevelName lv) as Hname.
  { intros lv. unfold LogLevelAction, LOG_LEVELS. cbn [map levels_get getLevelName].
    repeat (match goal with
            | |- context [String.eqb ?a ?b] =>
                destruct (String.eqb_spec a b) as [->|_]
            end; [intros [= <-]; reflexivity|]).
    discriminate. }
  split.
  - intros lv. split; [apply Hname|]. intros ->. now destruct lv.
  - intros Hnone. destruct (LogLevelAction value) as [lv|e] eqn:Hlv.
    + now destruct (Hnone lv (Hname lv eq_refl)).
    + unfold LogLevelAction in Hlv. destruct (levels_get value LOG_LEVELS); congruence.
Qed.


(** ** A second run *)

(** The card built from a record does not depend on the world. *)
Lemma Card_init_pure (c : json) (args : Args) (w w0 : world) :
  Card_init c args w = (fst (Card_init c args w0), w).
Proof.
  unfold Card_init. destruct (statedir args); [|reflexivity].
  unfold bind, lift, ret. now destruct (getitem c "id").
Qed.

(** A loop body that changed the store saved the state of its card. *)
Lemma import_card_saved (args : Args) (c : json) (w w' : world) (f : flow) :
  import_card server args c w = (Ok f, w') ->
  files w' <> files w ->
  exists (nm : json) (card : Card) (p : string) (d : list (string * json))
         (u n ds : json),
    getitem c "name" = Ok nm /\
    fst (Card_init c args w) = Ok card /\
    state_file card = Some p /\
    getitem (card_data card) "name" = Ok n /\
    getitem (card_data card) "desc" = Ok ds /\
    dict_get "url" d = Some u /\
    files w' = <[p := json_dumps (JObj d)]> (files w).
Proof.
  rewrite import_card_run.
  destruct (getitem c "name") as [nm|e]; [|discriminate].
  cbn zeta. rewrite (Card_init_pure c args _ w).
  destruct (fst (Card_init c args w)) as [card|e] eqn:Hinit; [|discriminate].
  match goal with |- context [save server card ?x] =>
    destruct (save server card x) as [[b|e] w3] eqn:Hsave end; [|discriminate].
  intros [= _ <-] Hne. destruct b.
  - destruct (save_true _ _ _ _ Hsave)
      as (fn & url & d & rq & r & data & u & p & Hrq & _ & _ & _ & _ & _ & Hp & ->).
    destruct (save_request_ok _ _ _ _ _ _ Hrq) as (d1 & n & ds & _ & Hn & Hds & _).
    exists nm, card, p, (dict_set "url" u d), u, n, ds.
    repeat split; auto. apply dict_get_set_eq.
  - apply save_files in Hsave; [|discriminate]. now destruct Hne.
Qed.

(** With the state of its card in the store, the loop body sends no
    request other than a PATCH. *)
Lemma import_card_update (args : Args) (c : json) (w w0 : world) (nm : json)
    (card : Card) (p : string) (d : list (string * json)) (u n ds : json) :
  getitem c "name" = Ok nm ->
  fst (Card_init c args w0) = Ok card ->
  state_file card = Some p ->
  getitem (card_data card) "name" = Ok n ->
  getitem (card_data card) "desc" = Ok ds ->
  dict_get "url" d = Some u ->
  files w !! p = Some (json_dumps (JObj d)) ->
  exists l, sent (snd (import_card server args c w)) = sent w ++ l /\
            Forall (fun rq => rq_verb rq = PATCH) l.
Proof.
  intros Hnm Hinit Hp Hn Hds Hu Hfile.
  rewrite import_card_run, Hnm. cbn zeta.
  rewrite (Card_init_pure c args _ w0), Hinit.
  match goal with |- context [save server card ?x] => set (w1 := x) end.
  assert (files w1 !! p = Some (json_dumps (JObj d))) as Hfile1 by exact Hfile.
  assert (Card_state card w1 = (Ok (JObj d), w1)) as Hst
    by now rewrite (Card_state_present card p _ w1 Hp Hfile1), json_loads_dumps.
  pose proof (save_sent server _ _ _ _ _ (save_request_update _ _ _ _ _ _ Hst Hu Hn Hds)) as Hs.
  destruct (save server card w1) as [[b|e] w3]; cbn [snd] in Hs |- *;
    (destruct (py_in "://" (Val u)) as [found|e'];
     [eexists; split; [exact Hs|]; now repeat constructor
     |exists []; rewrite app_nil_r; split; [exact Hs|constructor]]).
Qed.

(** X25.  Repeated runs do not create an issue twice.  After a run that
    ended normally and wrote a state file, a second run on the store the
    first one left (the export unchanged) sends no POST: its requests
    are the GET of [user] and, at most, one PATCH. *)
Theorem second_run_creates_nothing (args : Args) (w w1 : world) :
  main server args w = (Ok tt, w1) ->
  files w1 <> files w ->
  files w1 !! trello_json args = files w !! trello_json args ->
  exists l : list request,
    sent (snd (main server args w1)) = sent w1 ++ l /\
    (l = [] \/ l = [user_request args] \/
     exists rq, l = [user_request args; rq] /\ rq_verb rq = PATCH).
Proof.
  intros H1 Hne Hsame.
  apply main_cases in H1
    as [(e & [=] & _)
       | (txt & data & cards & n & Hfile & Hload & Hcards & _
          & [(e & [=] & _)
            | (w3 & items & Hiter & _ & Hf3 & _
               & [(_ & _ & ->) | (c & rest & r' & -> & Hic & Hres)])])].
  { now destruct Hne. }
  destruct r' as [f|e]; [|discriminate].
  rewrite <- Hf3 in Hne.
  destruct (import_card_saved _ _ _ _ _ Hic Hne)
    as (nm & card & p & d & u & nn & ds & Hnm & Hinit & Hp & Hn & Hds & Hu & Hf1).
  destruct (main server args w1) as [res2 w2] eqn:H2. cbn [snd].
  apply main_cases in H2
    as [(e & _ & _ & Hs & _)
       | (txt' & data' & cards' & n' & Hfile' & Hload' & Hcards' & _
          & [(e & _ & _ & Hs & _)
            | (w3' & items' & Hiter' & Hs3 & Hf3' & _
               & [(_ & _ & ->) | (c' & rest' & r'' & Hitems & Hic' & _)])])].
  - exists []. rewrite app_nil_r. auto.
  - exists [user_request args]. auto.
  - exists [user_request args]. auto.
  - assert (txt' = txt) as -> by congruence.
    assert (data' = data) as -> by congruence.
    assert (cards' = cards) as -> by congruence.
    assert (c' = c) as -> by congruence.
    assert (files w3' !! p = Some (json_dumps (JObj d))) as Hstate
      by (rewrite Hf3', Hf1; apply lookup_insert_eq).
    destruct (import_card_update args c w3' w3 _ _ _ _ _ _ _ Hnm Hinit Hp Hn Hds Hu Hstate)
      as (l & Hl & Hall).
    rewrite Hic' in Hl. cbn [snd] in Hl.
    pose proof (import_card_sends_once server args c w3') as (l' & Hl' & Hlen).
    rewrite Hic' in Hl'. cbn [snd] in Hl'.
    assert (l' = l) as -> by (rewrite Hl in Hl'; now apply app_inv_head in Hl').
    destruct l as [|rq [|rq' l]]; [| |cbn in Hlen; lia].
    + exists [user_request args]. rewrite Hl, Hs3, app_nil_r. auto.
    + exists [user_request args; rq]. rewrite Hl, Hs3, <- app_assoc.
      split; [reflexivity|]. right. right. exists rq. split; [reflexivity|].
      now inversion Hall.
Qed.

End Coverage.

(** * More sample runs *)

(** Without a state directory the two-card export ends after the
    authentication. *)
Lemma run_without_statedir_imports_nothing_sample :
  (sent (snd (main server_created sample_args_no_statedir board_world))
   = sent board_world \/
   sent (snd (main server_created sample_args_no_statedir board_world))
   = sent board_world ++ [user_request sample_args_no_statedir]) /\
  files (snd (main server_created sample_args_no_statedir board_world))
  = files board_world /\
  (fst (main server_created sample_args_no_statedir board_world) = Ok tt ->
   exists (txt : string) (trello_data cards : json),
     files board_world !! trello_json sample_args_no_statedir = Some txt /\
     json_loads txt = Some trello_data /\
     getitem trello_data "cards" = Ok cards /\
     py_iter cards = Ok []).
Proof.
  apply (run_without_statedir_imports_nothing server_created sample_args_no_statedir
           board_world).
  reflexivity.
Defined.

(** An export with a name and no cards. *)
Lemma run_without_cards_sends_nothing_sample :
  let w := export_world (JObj [("name", JStr "Roadmap")]) in
  (exists e, fst (main server_created sample_args w) = Raise e) /\
  exit_status (fst (main server_created sample_args w)) = 1%Z /\
  sent (snd (main server_created sample_args w)) = sent w /\
  files (snd (main server_created sample_args w)) = files w.
Proof.
  apply (run_without_cards_sends_nothing server_created sample_args
           (export_world (JObj [("name", JStr "Roadmap")]))
           (json_dumps (JObj [("name", JStr "Roadmap")]))
           [("name", JStr "Roadmap")]).
  - vm_compute; reflexivity.
  - vm_compute; reflexivity.
  - left. vm_compute; reflexivity.
Defined.

(** An export that holds a web page. *)
Lemma unreadable_export_stops_run_sample :
  main server_created sample_args (raw_export_world "<html>")
  = (Raise ValueError, raw_export_world "<html>").
Proof.
  apply (unreadable_export_stops_run server_created sample_args
           (raw_export_world "<html>") ValueError).
  right. exists "<html>"%string. split; [vm_compute; reflexivity|].
  left. split; [vm_compute; reflexivity | reflexivity].
Defined.

(** An export whose list of cards is empty. *)
Lemma run_on_empty_export_sample :
  let w := export_world (JObj [("name", JStr "Roadmap"); ("cards", JArr [])]) in
  fst (main server_created sample_args w) = Ok tt /\
  exit_status (fst (main server_created sample_args w)) = 0%Z /\
  sent (snd (main server_created sample_args w)) = sent w ++ [user_request sample_args] /\
  files (snd (main server_created sample_args w)) = files w.
Proof.
  apply (run_on_empty_export server_created sample_args
           (export_world (JObj [("name", JStr "Roadmap"); ("cards", JArr [])]))
           (json_dumps (JObj [("name", JStr "Roadmap"); ("cards", JArr [])]))
           [("name", JStr "Roadmap"); ("cards", JArr [])]
           [("url", JStr issue_url)] (JArr []) created);
    try (vm_compute; reflexivity).
  intros dir [= <-]. vm_compute; reflexivity.
Defined.

(** Saving the sample card leaves the state file of another card alone. *)
Lemma save_keeps_other_files_sample :
  files (snd (save server_created sample_card stored_world)) !! "state/c2.json"%string
  = files stored_world !! "state/c2.json"%string.
Proof.
  apply (save_keeps_other_files server_created sample_card stored_world "state/c2.json").
  vm_compute. discriminate.
Defined.

(** The sample card with wrong credentials. *)
Lemma save_false_is_logged_sample :
  exists (msg : string) (rq : request),
    logged (snd (save server_unauthorized sample_card empty_world))
    = logged empty_world ++ [github_error msg] /\
    sent (snd (save server_unauthorized sample_card empty_world))
    = sent empty_world ++ [rq] /\
    files (snd (save server_unauthorized sample_card empty_world)) = files empty_world.
Proof.
  apply (save_false_is_logged server_unauthorized sample_card empty_world).
  vm_compute; reflexivity.
Defined.

(** A state file that holds a web page. *)
Lemma corrupt_state_file_raises_sample :
  save server_created sample_card (state_world "<html>")
  = (Raise ValueError, state_world "<html>").
Proof.
  apply (corrupt_state_file_raises server_created sample_card (state_world "<html>")
           "state/c1.json" "<html>");
    vm_compute; reflexivity.
Defined.

(** A state file that holds the empty object. *)
Lemma falsy_state_creates_sample :
  exists rq : request,
    sent (snd (save server_created sample_card (state_world "{}")))
    = sent (state_world "{}") ++ [rq] /\
    rq_verb rq = POST /\
    rq_data rq = JStr (json_dumps (JObj [("title", JStr "Fix login");
                                         ("body", JStr "Steps")])).
Proof.
  apply (falsy_state_creates server_created sample_card (state_world "{}")
           "state/c1.json" "{}" (JObj []) (JStr "Fix login") (JStr "Steps"));
    vm_compute; reflexivity.
Defined.

(** A state file with a title and no [url]. *)
Lemma state_without_url_raises_sample :
  let w := state_world (json_dumps (JObj [("title", JStr "Old title")])) in
  save server_created sample_card w = (Raise KeyError, w).
Proof.
  apply (state_without_url_raises server_created sample_card
           (state_world (json_dumps (JObj [("title", JStr "Old title")])))
           "state/c1.json" (json_dumps (JObj [("title", JStr "Old title")]))
           (JObj [("title", JStr "Old title")]) KeyError);
    vm_compute; reflexivity.
Defined.

(** A card that has an [id] only. *)
Lemma card_without_name_raises_sample :
  save server_created card_without_name empty_world = (Raise KeyError, empty_world).
Proof.
  apply (card_without_name_raises server_created card_without_name empty_world
           "state/c1.json" KeyError).
  - reflexivity.
  - vm_compute; reflexivity.
  - left. reflexivity.
Defined.

(** An update of a state that also holds the number of the issue. *)
Lemma update_keeps_other_members_sample :
  let w := state_world (json_dumps (JObj numbered_state)) in
  exists d' : list (string * json),
    files (snd (save server_created sample_card w)) !! "state/c1.json"%string
    = Some (json_dumps (JObj d')) /\
    forall k : string,
      k <> "title"%string -> k <> "body"%string -> k <> "url"%string ->
      dict_get k d' = dict_get k numbered_state.
Proof.
  apply (update_keeps_other_members server_created sample_card
           (state_world (json_dumps (JObj numbered_state)))
           (snd (save server_created sample_card
                   (state_world (json_dumps (JObj numbered_state)))))
           "state/c1.json" (json_dumps (JObj numbered_state)) numbered_state).
  - reflexivity.
  - vm_compute; reflexivity.
  - vm_compute; reflexivity.
  - discriminate.
  - vm_compute; reflexivity.
Defined.

(** The creation answered with 200 and the body [{}]. *)
Lemma success_without_url_leaves_no_state_sample :
  fst (save (server_answer ok_without_url) sample_card empty_world) = Raise KeyError /\
  files (snd (save (server_answer ok_without_url) sample_card empty_world))
  = files empty_world /\
  logged (snd (save (server_answer ok_without_url) sample_card empty_world))
  = logged empty_world.
Proof.
  apply (success_without_url_leaves_no_state (server_answer ok_without_url) sample_card
           empty_world sample_create_request ok_without_url KeyError).
  - vm_compute; reflexivity.
  - reflexivity.
  - reflexivity.
  - right. exists (JObj []). split; vm_compute; reflexivity.
Defined.

(** The creation with the remote side down. *)
Lemma no_response_raises_through_save_sample :
  fst (save server_silent sample_card empty_world) = Raise RequestException /\
  files (snd (save server_silent sample_card empty_world)) = files empty_world /\
  logged (snd (save server_silent sample_card empty_world)) = logged empty_world.
Proof.
  apply (no_response_raises_through_save server_silent sample_card empty_world
           sample_create_request).
  - vm_compute; reflexivity.
  - reflexivity.
Defined.

(** A state file whose [url] is [null]. *)
Lemma scalar_stored_url_raises_sample :
  let w := state_world (json_dumps (JObj [("url", JNull)])) in
  save server_created sample_card w = (Raise TypeError, w).
Proof.
  apply (scalar_stored_url_raises server_created sample_card
           (state_world (json_dumps (JObj [("url", JNull)])))
           "state/c1.json" (json_dumps (JObj [("url", JNull)]))
           [("url", JNull)] JNull (JStr "Fix login") (JStr "Steps"));
    try (vm_compute; reflexivity).
  left. reflexivity.
Defined.

(** The authentication answered with a redirect. *)
Lemma answer_outside_error_range_is_returned_sample :
  fst (gh_request (server_answer redirect) (Val (JStr "user")) sample_args JNull None
         empty_world) = Ok (RResp redirect) /\
  logged (snd (gh_request (server_answer redirect) (Val (JStr "user")) sample_args
                 JNull None empty_world)) = logged empty_world /\
  files (snd (gh_request (server_answer redirect) (Val (JStr "user")) sample_args
                JNull None empty_world)) = files empty_world.
Proof.
  apply (answer_outside_error_range_is_returned (server_answer redirect)
           (Val (JStr "user")) sample_args JNull None empty_world _ _
           (user_request sample_args) redirect);
    try (vm_compute; reflexivity).
  left. vm_compute; reflexivity.
Defined.

(** The authentication with wrong credentials. *)
Lemma client_logs_exactly_its_failures_sample :
  let run := gh_request server_unauthorized (Val (JStr "user")) sample_args JNull None
               empty_world in
  files (snd run) = files empty_world /\
  (fst run = Ok RFalse <->
   exists msg, logged (snd run) = logged empty_world ++ [github_error msg]) /\
  (fst run <> Ok RFalse -> logged (snd run) = logged empty_world).
Proof.
  apply (client_logs_exactly_its_failures server_unauthorized (Val (JStr "user"))
           sample_args JNull None empty_world).
  vm_compute; reflexivity.
Defined.

(** The error text of wrong credentials. *)
Lemma error_message_is_logged_sample :
  fst (gh_request server_unauthorized (Val (JStr "user")) sample_args JNull None
         empty_world) = Ok RFalse /\
  logged (snd (gh_request server_unauthorized (Val (JStr "user")) sample_args JNull
                 None empty_world))
  = logged empty_world ++ [github_error "Bad credentials"].
Proof.
  apply (error_message_is_logged server_unauthorized (Val (JStr "user")) sample_args
           JNull None empty_world _ _ (user_request sample_args) unauthorized
           [("message", JStr "Bad credentials")] (JStr "Bad credentials"));
    vm_compute; reflexivity.
Defined.

(** The import of the sample card writes [state/c1.json]. *)
Lemma card_file_is_named_by_id_sample :
  files (snd (import_card server_created sample_args sample_card_data empty_world))
  = files empty_world \/
  exists (dir : string) (id : json) (txt : string),
    statedir sample_args = Some dir /\ getitem sample_card_data "id" = Ok id /\
    files (snd (import_card server_created sample_args sample_card_data empty_world))
    = <[path_join dir (py_str id +:+ ".json") := txt]> (files empty_world).
Proof.
  apply (card_file_is_named_by_id server_created sample_args sample_card_data
           empty_world _
           (fst (import_card server_created sample_args sample_card_data empty_world))).
  vm_compute; reflexivity.
Defined.

(** A record with a name and no [id]. *)
Lemma card_without_id_sends_nothing_sample :
  fst (import_card server_created sample_args record_without_id empty_world)
  = Raise KeyError /\
  sent (snd (import_card server_created sample_args record_without_id empty_world))
  = sent empty_world /\
  files (snd (import_card server_created sample_args record_without_id empty_world))
  = files empty_world /\
  logged (snd (import_card server_created sample_args record_without_id empty_world))
  = logged empty_world ++ [{| lg_name := "cards import"; lg_level := DEBUG;
                              lg_msg := "Card Fix login" |}].
Proof.
  apply (card_without_id_sends_nothing server_created sample_args record_without_id
           empty_world "state" (JStr "Fix login") KeyError);
    reflexivity.
Defined.

(** The two-card export run twice. *)
Lemma second_run_creates_nothing_sample :
  let w1 := snd (main server_created sample_args board_world) in
  exists l : list request,
    sent (snd (main server_created sample_args w1)) = sent w1 ++ l /\
    (l = [] \/ l = [user_request sample_args] \/
     exists rq, l = [user_request sample_args; rq] /\ rq_verb rq = PATCH).
Proof.
  apply (second_run_creates_nothing server_created sample_args board_world
           (snd (main server_created sample_args board_world))).
  - vm_compute; reflexivity.
  - intros H.
    apply (f_equal (fun m : gmap string string => m !! "state/c1.json"%string)) in H.
    vm_compute in H. discriminate H.
  - vm_compute; reflexivity.
Defined.
